(** * Content orchestrator, platform repurposers, publisher and trend scoring

    A shallow embedding of [src/services/contentOrchestrator.js], of the
    platform integration and trend discovery services and of
    [utils/helpers.js], with the properties the specification states about
    them; and, further on, of the job scheduler and of parts of the SEO
    metadata, script generation and voiceover services, with properties
    read off the code. *)

From Stdlib Require Import ZArith QArith Qround Qabs Lia Lqa Ascii Sorted SpecFloat.
From Stdlib Require DecimalString.
From Stdlib Require Strings.String.
From stdpp Require Import base option list gmap strings.

Local Open Scope Z_scope.

(** ** JavaScript strings and arrays

    A JS string is a finite sequence of UTF-16 code units; [length],
    [substring], [split] and [join] all work code unit by code unit.  A code
    unit is modelled as one character of a Rocq [string], which has the same
    sequence structure. *)

Module JS.

Abbreviation length := Strings.String.length.

(** [s.substring(startPos, endPos)]: both indices are clamped to
    [0 .. s.length] and swapped when out of order. *)
Definition substring (s : string) (startPos endPos : Z) : string :=
  let len := Z.of_nat (length s) in
  let a := Z.min (Z.max startPos 0) len in
  let b := Z.min (Z.max endPos 0) len in
  let from := Z.min a b in
  let to := Z.max a b in
  Strings.String.substring (Z.to_nat from) (Z.to_nat (to - from)) s.

(** [s.split(sep)] for a separator of one code unit: never empty. *)
Fixpoint split (sep : ascii) (s : string) : list string :=
  match s with
  | EmptyString => [EmptyString]
  | String c rest =>
      if Ascii.eqb c sep then EmptyString :: split sep rest
      else match split sep rest with
           | [] => [String c EmptyString]
           | l :: ls => String c l :: ls
           end
  end.

(** [a.join(sep)] on an array of strings. *)
Fixpoint join (sep : string) (a : list string) : string :=
  match a with
  | [] => EmptyString
  | [x] => x
  | x :: rest => x +:+ sep +:+ join sep rest
  end.

(** [a.slice(0, n)] on an array. *)
Definition slice0 {A} (a : list A) (n : nat) : list A := take n a.

(** [a[0]], [undefined] when the array is empty. *)
Definition first {A} (a : list A) : option A := head a.

(** [v || d] for a value that is a string or [undefined]/[null]: the empty
    string is falsy. *)
Definition or_else (v : option string) (d : string) : string :=
  match v with
  | Some (String c s) => String c s
  | _ => d
  end.

(** The same operator when the right operand may be [undefined] too. *)
Definition or_opt (v w : option string) : option string :=
  match v with
  | Some (String c s) => Some (String c s)
  | _ => w
  end.

(** [s.toLowerCase()] on the basic Latin letters; the keys it is
    compared with below are basic Latin. *)
Definition lower (c : ascii) : ascii :=
  let n := Ascii.nat_of_ascii c in
  if (65 <=? n)%nat && (n <=? 90)%nat then Ascii.ascii_of_nat (n + 32) else c.

Fixpoint toLowerCase (s : string) : string :=
  match s with
  | EmptyString => EmptyString
  | String c rest => String (lower c) (toLowerCase rest)
  end.

(** [a === b] on strings. *)
Definition streq (a b : string) : bool := Strings.String.eqb a b.

(** A value interpolated in a template literal. *)
Definition template (v : option string) : string :=
  match v with Some s => s | None => "undefined" end.

(** Truthiness of a value that is a string or [undefined]/[null]. *)
Definition truthy (v : option string) : bool :=
  match v with Some (String _ _) => true | _ => false end.

Definition newline : ascii := Ascii.ascii_of_nat 10.
Definition nl : string := String newline EmptyString.

(** [a.slice(start, end)] on an array: a negative index counts from the
    end, both are clamped to [0 .. a.length]. *)
Definition relative (len index : Z) : Z :=
  if index <? 0 then Z.max (len + index) 0 else Z.min index len.

Definition slice {A} (a : list A) (start stop : Z) : list A :=
  let len := Z.of_nat (List.length a) in
  let k := relative len start in
  let final := relative len stop in
  take (Z.to_nat (Z.max (final - k) 0)) (drop (Z.to_nat k) a).

(** The character classes of the helpers' regular expressions, which have
    no [u] flag and so work code unit by code unit: with the [i] flag a
    unit from 128 up never matches a basic Latin letter. *)
Definition is_lower (c : ascii) : bool :=
  let n := Ascii.nat_of_ascii c in (97 <=? n)%nat && (n <=? 122)%nat.
Definition is_upper (c : ascii) : bool :=
  let n := Ascii.nat_of_ascii c in (65 <=? n)%nat && (n <=? 90)%nat.
Definition is_digit (c : ascii) : bool :=
  let n := Ascii.nat_of_ascii c in (48 <=? n)%nat && (n <=? 57)%nat.

(** [s.startsWith(prefix)]. *)
Definition startsWith (s prefix : string) : bool := Strings.String.prefix prefix s.

End JS.

(** ** JavaScript numbers

    A JS number is an IEEE-754 double.  The model keeps its special values
    apart and follows IEEE-754 on them (NaN is contagious, [x/0] is an
    infinity or NaN, [Infinity - Infinity] is NaN); a finite value is kept
    as an exact rational in lowest terms, so finite arithmetic is exact:
    the rounding of the last bit of a double is not modelled, and zero has
    no sign (the divisors of the program are parsed counts and positive
    constants). *)

Inductive number : Type :=
  | NaN
  | Infinity (negative : bool)
  | Num (q : Q).

Module Number.

Local Open Scope Q_scope.

Definition fin (q : Q) : number := Num (Qred q).
Definition of_Z (z : Z) : number := fin (inject_Z z).

(** [ToNumber] of a property that may be [undefined]. *)
Definition ToNumber (v : option number) : number :=
  match v with Some x => x | None => NaN end.

Definition isFinite (x : number) : bool :=
  match x with Num _ => true | _ => false end.

Definition isNaN (x : number) : bool :=
  match x with NaN => true | _ => false end.

Definition Qltb (a b : Q) : bool := negb (Qle_bool b a).

Definition add (x y : number) : number :=
  match x, y with
  | NaN, _ | _, NaN => NaN
  | Infinity s, Infinity t => if Bool.eqb s t then Infinity s else NaN
  | Infinity s, Num _ => Infinity s
  | Num _, Infinity t => Infinity t
  | Num a, Num b => fin (a + b)
  end.

Definition sub (x y : number) : number :=
  match x, y with
  | NaN, _ | _, NaN => NaN
  | Infinity s, Infinity t => if Bool.eqb s t then NaN else Infinity s
  | Infinity s, Num _ => Infinity s
  | Num _, Infinity t => Infinity (negb t)
  | Num a, Num b => fin (a - b)
  end.

(** Sign of an infinity scaled by the finite factor [a]; [0 * Infinity]
    is NaN. *)
Definition scale_inf (s : bool) (a : Q) : number :=
  match a ?= 0 with
  | Eq => NaN
  | Lt => Infinity (negb s)
  | Gt => Infinity s
  end.

Definition mul (x y : number) : number :=
  match x, y with
  | NaN, _ | _, NaN => NaN
  | Infinity s, Infinity t => Infinity (xorb s t)
  | Infinity s, Num a => scale_inf s a
  | Num a, Infinity t => scale_inf t a
  | Num a, Num b => fin (a * b)
  end.

Definition div (x y : number) : number :=
  match x, y with
  | NaN, _ | _, NaN => NaN
  | Infinity _, Infinity _ => NaN
  | Infinity s, Num b => if Qltb b 0 then Infinity (negb s) else Infinity s
  | Num _, Infinity _ => fin 0
  | Num a, Num b =>
      if Qeq_bool b 0 then
        match a ?= 0 with
        | Eq => NaN
        | Lt => Infinity true
        | Gt => Infinity false
        end
      else fin (a / b)
  end.

(** [x < y], [x >= y] and [x === y] on numbers: false when either side is
    NaN. *)
Definition ltb (x y : number) : bool :=
  match x, y with
  | NaN, _ | _, NaN => false
  | Infinity s, Infinity t => s && negb t
  | Infinity s, Num _ => s
  | Num _, Infinity t => negb t
  | Num a, Num b => Qltb a b
  end.

Definition eqb (x y : number) : bool :=
  match x, y with
  | NaN, _ | _, NaN => false
  | Infinity s, Infinity t => Bool.eqb s t
  | Num a, Num b => Qeq_bool a b
  | _, _ => false
  end.

Definition geb (x y : number) : bool := ltb y x || eqb x y.

(** [Math.max(x, y)]. *)
Definition max (x y : number) : number :=
  match x, y with
  | NaN, _ | _, NaN => NaN
  | _, _ => if ltb x y then y else x
  end.

(** The text [x.toFixed(2)] returns, kept as its structure rather than
    as characters: ["NaN"], ["Infinity"], a decimal with two fraction
    digits given by its sign and its count [n] of hundredths, or, from
    [1e21] up, the shortest round-trip text of the number itself. *)
Inductive fixed2 : Type :=
  | TNaN
  | TInfinity (negative : bool)
  | TDecimal (negative : bool) (hundredths : Z)
  | TNumber (q : Q).

(** [n] is the integer for which [n / 100 - x] is closest to zero, the
    larger one on a tie; a negative [x] is negated first. *)
Definition toFixed2 (x : number) : fixed2 :=
  match x with
  | NaN => TNaN
  | Infinity s => TInfinity s
  | Num q =>
      if Qle_bool (inject_Z (10 ^ 21)%Z) (Qabs q) then TNumber q
      else TDecimal (Qltb q 0) (Qfloor (Qabs q * inject_Z 100 + (1 # 2)))
  end.

Definition parseFloat (t : fixed2) : number :=
  match t with
  | TNaN => NaN
  | TInfinity s => Infinity s
  | TDecimal s n => fin ((if s then - n else n)%Z # 100)
  | TNumber q => fin q
  end.

End Number.

Section Log10.

Local Open Scope Q_scope.

(** [Math.log10] is fixed by the language on the special arguments and
    "implementation-approximated" elsewhere: [log10_approx] is the value
    the engine returns for a finite positive argument other than 1. *)
Variable log10_approx : Q -> Q.

Definition Math_log10 (x : number) : number :=
  match x with
  | NaN => NaN
  | Infinity false => Infinity false
  | Infinity true => NaN
  | Num q =>
      if Qeq_bool q 1 then Number.fin 0
      else if Qeq_bool q 0 then Infinity true
      else if Number.Qltb q 0 then NaN
      else Number.fin (log10_approx q)
  end.

End Log10.

(** The expression whose value [analyzeTrends] rounds to the engagement
    rate, in binary64 itself (53 bits of precision, exponents up to 1024,
    rounding to nearest even), to evaluate it on given metrics as the
    engine does. *)
Module Binary64.

Definition of_Z (z : Z) : spec_float := binary_normalize 53 1024 z 0 false.

Definition engagementRate (likeCount commentCount viewCount : spec_float)
    : spec_float :=
  SFmul 53 1024
    (SFdiv 53 1024 (SFadd 53 1024 likeCount commentCount) viewCount)
    (of_Z 100).

End Binary64.

(** ** Errors

    A rejected promise or a thrown exception is the [Throw] outcome of a
    call; [NoTopic] is the error object [generateCompleteContent] creates
    itself, [Failure] any other one, with the place it comes from. *)

Inductive Error : Type :=
  | NoTopic
  | Failure (source message : string).

Definition error_message (e : Error) : string :=
  match e with
  | NoTopic => "No topic provided or discovered"
  | Failure _ m => m
  end.

Inductive result (A : Type) : Type :=
  | Ok (a : A)
  | Throw (e : Error).
Arguments Ok {A} a.
Arguments Throw {A} e.

(** The answer of an external collaborator (a generative model, a platform
    API, the search API): a value, or a rejection with its message. *)
Inductive response (A : Type) : Type :=
  | Resolved (a : A)
  | Rejected (message : string).
Arguments Resolved {A} a.
Arguments Rejected {A} message.

(** ** utils/helpers.js *)

Module Helpers.

(** [truncateText(text, maxLength, suffix = '...')]. *)
Definition truncateText (text : string) (maxLength : Z) (suffix : string) : string :=
  if Z.of_nat (JS.length text) <=? maxLength then text
  else JS.substring text 0 (maxLength - Z.of_nat (JS.length suffix)) +:+ suffix.

Definition default_suffix : string := "...".

(** [sanitizeFilename]: [filename.replace(/[^a-z0-9._-]/gi, '_')], then
    [toLowerCase()], which after the replacement meets basic Latin
    characters only. *)
Definition filename_char (c : ascii) : bool :=
  JS.is_lower c || JS.is_upper c || JS.is_digit c
  || Ascii.eqb c "." || Ascii.eqb c "_" || Ascii.eqb c "-".

Fixpoint replace_unsafe (filename : string) : string :=
  match filename with
  | EmptyString => EmptyString
  | String c rest =>
      String (if filename_char c then c else "_"%char) (replace_unsafe rest)
  end.

Definition sanitizeFilename (filename : string) : string :=
  JS.toLowerCase (replace_unsafe filename).

(** [chunkArray]: the loop [for (i = 0; i < array.length; i += size)],
    which ends only if [i] gets past the length; [fuel] bounds the number
    of turns the model follows, [None] meaning the loop is still
    running. *)
Fixpoint chunkLoop {A} (fuel : nat) (array : list A) (size i : Z)
    (chunks : list (list A)) : option (list (list A)) :=
  match fuel with
  | O => None
  | S fuel =>
      if i <? Z.of_nat (List.length array) then
        chunkLoop fuel array size (i + size)
                  (chunks ++ [JS.slice array i (i + size)])
      else Some chunks
  end.

Definition chunkArray {A} (fuel : nat) (array : list A) (size : Z)
    : option (list (list A)) :=
  chunkLoop fuel array size 0 [].

(** [extractHashtags]: [text.match(/#[a-zA-Z0-9_]+/g) || []].  The global
    match takes, from left to right, each [#] with the longest run of word
    characters after it, when that run is not empty; the scanner carries
    the match it is in the middle of. *)
Definition word_char (c : ascii) : bool :=
  JS.is_lower c || JS.is_upper c || JS.is_digit c || Ascii.eqb c "_".

Definition matched (current : option string) : list string :=
  match current with
  | Some (String h (String c rest)) => [String h (String c rest)]
  | _ => []
  end.

Definition opening (c : ascii) : option string :=
  if Ascii.eqb c "#" then Some "#" else None.

Fixpoint hashtagScan (current : option string) (text : string) : list string :=
  match text with
  | EmptyString => matched current
  | String c rest =>
      match current with
      | Some tag =>
          if word_char c then hashtagScan (Some (tag +:+ String c EmptyString)) rest
          else matched current ++ hashtagScan (opening c) rest
      | None => hashtagScan (opening c) rest
      end
  end.

Definition extractHashtags (text : string) : list string := hashtagScan None text.

(** [makeRequest(url, options, retries = 3)].  [axios i] is the answer to
    the request of turn [i]; the log lists the requests made and the
    pauses taken, in milliseconds.  [remaining] counts the turns the loop
    [for (i = 0; i < retries; i++)] has left. *)
Inductive Event : Type :=
  | Request
  | Sleep (ms : Z).

Fixpoint requestLoop {A} (axios : Z -> response A) (retries : Z)
    (remaining : nat) (i : Z) (log : list Event)
    : result (option A) * list Event :=
  match remaining with
  | O => (Ok None, log)
  | S remaining =>
      match axios i with
      | Resolved data => (Ok (Some data), log ++ [Request])
      | Rejected message =>
          if i =? retries - 1 then (Throw (Failure "axios" message), log ++ [Request])
          else requestLoop axios retries remaining (i + 1)
                 (log ++ [Request; Sleep (2 ^ i * 1000)])
      end
  end.

Definition makeRequest {A} (axios : Z -> response A) (retries : Z)
    : result (option A) * list Event :=
  requestLoop axios retries (Z.to_nat retries) 0 [].

End Helpers.

(** ** modules/trendDiscovery/trendDiscovery.service.js *)

(** A trend record.  [publishedAt] holds the time value, in milliseconds,
    that [new Date(trend.publishedAt).getTime()] yields: [None] when the
    date text is missing or unparsable, for which [getTime()] is NaN.  A
    metric is [None] when the property is [undefined]. *)
Module Trend.
Record t : Type := mk {
  videoId : option string;
  title : option string;
  publishedAt : option Z;
  viewCount : option number;
  likeCount : option number;
  commentCount : option number
}.
End Trend.

(** An analysed record: [{...trend, engagementRate, trendScore}]. *)
Module Analyzed.
Record t : Type := mk {
  trend : Trend.t;
  engagementRate : number;
  trendScore : number
}.
End Analyzed.

Module Sort.
Section Sort.

Context {A : Type}.

(** [comparefn(a, b)]. *)
Variable comparefn : A -> A -> number.

(** [SortCompare]: a NaN result of the comparator counts as [+0]; [b]
    must come before [a] exactly when the result is positive. *)
Definition after (a b : A) : bool := Number.ltb (Number.of_Z 0) (comparefn a b).

(** [Array.prototype.sort] is stable and, for a consistent comparator,
    sorted; every such sort returns the same array, computed here by
    insertion.  For an inconsistent comparator the order is
    implementation-defined. *)
Fixpoint insert (x : A) (l : list A) : list A :=
  match l with
  | [] => [x]
  | y :: l' => if after x y then y :: insert x l' else x :: y :: l'
  end.

Fixpoint sort (l : list A) : list A :=
  match l with
  | [] => []
  | x :: l' => insert x (sort l')
  end.

End Sort.
End Sort.

Module TrendDiscoveryService.
Section Service.

Variable log10_approx : Q -> Q.

(** [Date.now()] at the [i]-th call of [calculateTrendScore] during one
    run of [analyzeTrends], in milliseconds. *)
Variable clock : nat -> Z.

Definition weights_viewCount : number := Num (3 # 10).
Definition weights_engagement : number := Num (2 # 5).
Definition weights_recency : number := Num (3 # 10).

Definition viewScore (trend : Trend.t) : number :=
  Number.div (Math_log10 log10_approx (Number.ToNumber (Trend.viewCount trend)))
             (Number.of_Z 10).

Definition engagementScore (trend : Trend.t) : number :=
  Number.div
    (Number.add (Number.ToNumber (Trend.likeCount trend))
                (Number.ToNumber (Trend.commentCount trend)))
    (Number.ToNumber (Trend.viewCount trend)).

Definition getTime (publishedAt : option Z) : number :=
  match publishedAt with
  | Some ms => Number.of_Z ms
  | None => NaN
  end.

Definition daysSincePublished (now : Z) (trend : Trend.t) : number :=
  Number.div (Number.sub (Number.of_Z now) (getTime (Trend.publishedAt trend)))
             (Number.of_Z (1000 * 60 * 60 * 24)).

Definition recencyScore (now : Z) (trend : Trend.t) : number :=
  Number.max (Number.of_Z 0)
    (Number.sub (Number.of_Z 1)
                (Number.div (daysSincePublished now trend) (Number.of_Z 30))).

Definition weightedScore (v e r : number) : number :=
  Number.parseFloat (Number.toFixed2
    (Number.mul
       (Number.add
          (Number.add (Number.mul v weights_viewCount)
                      (Number.mul e weights_engagement))
          (Number.mul r weights_recency))
       (Number.of_Z 100))).

Definition calculateTrendScore (now : Z) (trend : Trend.t) : number :=
  weightedScore (viewScore trend) (engagementScore trend) (recencyScore now trend).

(** The callback of [trends.map]. *)
Definition analyzeOne (now : Z) (trend : Trend.t) : Analyzed.t :=
  let engagementRate :=
    Number.toFixed2
      (Number.mul
         (Number.div
            (Number.add (Number.ToNumber (Trend.likeCount trend))
                        (Number.ToNumber (Trend.commentCount trend)))
            (Number.ToNumber (Trend.viewCount trend)))
         (Number.of_Z 100)) in
  let score := calculateTrendScore now trend in
  Analyzed.mk trend (Number.parseFloat engagementRate) score.

(** [(a, b) => b.trendScore - a.trendScore]. *)
Definition byTrendScore (a b : Analyzed.t) : number :=
  Number.sub (Analyzed.trendScore b) (Analyzed.trendScore a).

Definition analyzed (trends : list Trend.t) : list Analyzed.t :=
  imap (fun i trend => analyzeOne (clock i) trend) trends.

Definition analyzeTrends (trends : list Trend.t) : list Analyzed.t :=
  Sort.sort byTrendScore (analyzed trends).

(** [youtube.search.list]: the external search, returning the items
    already mapped to videos (identifier, title, publication time) or
    rejecting. *)
Variable youtube_search_list : string -> Z -> string -> response (list Trend.t).

Definition video (item : Trend.t) : Trend.t :=
  Trend.mk (Trend.videoId item) (Trend.title item) (Trend.publishedAt item)
           None None None.

Definition searchTrendingKeywords (keywords : string) (maxResults : Z)
    (order : string) : result (list Trend.t) :=
  match youtube_search_list keywords maxResults order with
  | Resolved items => Ok (map video items)
  | Rejected message =>
      Throw (Failure "searchTrendingKeywords"
                     ("Keyword search failed: " +:+ message))
  end.

(** [nicheKeywords[niche.toLowerCase()] || [...]]: [None] stands for the
    two lower-case names the object literal inherits ([constructor],
    [__proto__]), whose value is truthy but no array. *)
Definition getNicheKeywords (niche : string) : option (list string) :=
  let key := JS.toLowerCase niche in
  if JS.streq key "technology" then
    Some ["tech"; "AI"; "software"; "gadgets"; "programming"]
  else if JS.streq key "finance" then
    Some ["money"; "investing"; "crypto"; "stocks"; "business"]
  else if JS.streq key "health" then
    Some ["fitness"; "nutrition"; "wellness"; "workout"; "health"]
  else if JS.streq key "entertainment" then
    Some ["movies"; "music"; "gaming"; "streaming"; "entertainment"]
  else if JS.streq key "education" then
    Some ["learning"; "tutorial"; "course"; "education"; "skills"]
  else if JS.streq key "constructor" || JS.streq key "__proto__" then None
  else Some ["trending"; "viral"; "popular"].

(** [{...t, viewCount: 100000, likeCount: 5000, commentCount: 500}]. *)
Definition placeholder (t : Trend.t) : Trend.t :=
  Trend.mk (Trend.videoId t) (Trend.title t) (Trend.publishedAt t)
           (Some (Number.of_Z 100000)) (Some (Number.of_Z 5000))
           (Some (Number.of_Z 500)).

Definition getTrendingTopicsForNiche (niche : string) : result (list Analyzed.t) :=
  match getNicheKeywords niche with
  | None => Throw (Failure "TypeError" "keywords.join is not a function")
  | Some keywords =>
      match searchTrendingKeywords (JS.join " " keywords) 15 "viewCount" with
      | Throw e => Throw e
      | Ok trends => Ok (JS.slice0 (analyzeTrends (map placeholder trends)) 10)
      end
  end.

End Service.
End TrendDiscoveryService.

(** ** The content artifact and the platform payloads *)

Module Seo.
Record t : Type := mk {
  title : option string;
  description : option string;
  hashtags : option (list string)
}.
End Seo.

(** The parts of an artifact the orchestrator only passes on are kept as
    the text or list they are. *)
Module Content.
Record t : Type := mk {
  id : string;
  topic : option string;
  niche : option string;
  fullScript : option string;
  voiceover : option string;
  visuals : list string;
  thumbnails : option string;
  seoMetadata : option Seo.t;
  brollSuggestions : list string;
  duration : option Z;
  platforms : list string;
  status : option string
}.

(** [content.seoMetadata?.title] and its siblings. *)
Definition seo_title (c : t) : option string := seoMetadata c ≫= Seo.title.
Definition seo_description (c : t) : option string := seoMetadata c ≫= Seo.description.
Definition seo_hashtags (c : t) : option (list string) := seoMetadata c ≫= Seo.hashtags.
End Content.

(** A platform payload: an object whose absent properties read as
    [undefined]. *)
Module Payload.
Record t : Type := mk {
  caption : option string;
  message : option string;
  text : option string;
  hashtags : list string;
  aspectRatio : option string;
  duration : option Z;
  visualStyle : string
}.
End Payload.

(** A per-platform outcome record of the publisher. *)
Module Outcome.
Record t : Type := mk {
  platform : string;
  postId : option string;
  url : option string;
  success : bool;
  error : option string
}.
End Outcome.

(** ** modules/platformIntegration/platformIntegration.service.js *)

(** The summary [postToAllPlatforms] returns. *)
Module Summary.
Record t : Type := mk {
  total : nat;
  successful : nat;
  failed : nat;
  results : list Outcome.t
}.
End Summary.

Module PlatformIntegrationService.

Inductive Endpoint : Type :=
  | InstagramMedia | InstagramMediaPublish | TikTokUpload | FacebookFeed
  | LinkedInUgcPosts.

(** [config.socialMedia.*.accessToken]. *)
Record Tokens : Type := {
  instagram : option string;
  tiktok : option string;
  facebook : option string;
  linkedin : option string
}.

Section Service.

Variable tokens : Tokens.

(** [axios.post]: the text sent to an endpoint, answered with the
    identifier in the response or rejected. *)
Variable axios_post : Endpoint -> string -> response string.

(** The record a [catch] block returns. *)
Definition failed (platform message : string) : Outcome.t :=
  Outcome.mk platform None None false (Some message).

(** Reading [.length] of an [undefined] caption in [truncateText]. *)
Definition undefined_text : string :=
  "Cannot read properties of undefined (reading 'length')".

Definition postToInstagram (caption : option string) (hashtags : list string) : Outcome.t :=
  if negb (JS.truthy (instagram tokens)) then
    failed "instagram" "Instagram access token not configured"
  else
    match caption with
    | None => failed "instagram" undefined_text
    | Some caption =>
        let fullCaption := caption +:+ JS.nl +:+ JS.nl +:+ JS.join " " hashtags in
        match axios_post InstagramMedia
                (Helpers.truncateText fullCaption 2200 Helpers.default_suffix) with
        | Rejected message => failed "instagram" message
        | Resolved creationId =>
            match axios_post InstagramMediaPublish creationId with
            | Rejected message => failed "instagram" message
            | Resolved id =>
                Outcome.mk "instagram" (Some id)
                  (Some ("https://www.instagram.com/p/" +:+ id +:+ "/")) true None
            end
        end
    end.

Definition postToTikTok (caption : option string) (hashtags : list string) : Outcome.t :=
  if negb (JS.truthy (tiktok tokens)) then
    failed "tiktok" "TikTok access token not configured"
  else
    match caption with
    | None => failed "tiktok" undefined_text
    | Some caption =>
        let fullCaption := caption +:+ " " +:+ JS.join " " hashtags in
        match axios_post TikTokUpload
                (Helpers.truncateText fullCaption 150 Helpers.default_suffix) with
        | Rejected message => failed "tiktok" message
        | Resolved share_id => Outcome.mk "tiktok" (Some share_id) None true None
        end
    end.

Definition postToFacebook (message : option string) (hashtags : list string) : Outcome.t :=
  if negb (JS.truthy (facebook tokens)) then
    failed "facebook" "Facebook access token not configured"
  else
    match message with
    | None => failed "facebook" undefined_text
    | Some message =>
        let fullMessage := message +:+ JS.nl +:+ JS.nl +:+ JS.join " " hashtags in
        match axios_post FacebookFeed fullMessage with
        | Rejected error => failed "facebook" error
        | Resolved id =>
            Outcome.mk "facebook" (Some id)
              (Some ("https://www.facebook.com/" +:+ id)) true None
        end
    end.

Definition postToLinkedIn (text : option string) (hashtags : list string) : Outcome.t :=
  if negb (JS.truthy (linkedin tokens)) then
    failed "linkedin" "LinkedIn access token not configured"
  else
    match text with
    | None => failed "linkedin" undefined_text
    | Some text =>
        let fullText := text +:+ JS.nl +:+ JS.nl +:+ JS.join " " hashtags in
        match axios_post LinkedInUgcPosts
                (Helpers.truncateText fullText 3000 Helpers.default_suffix) with
        | Rejected message => failed "linkedin" message
        | Resolved id => Outcome.mk "linkedin" (Some id) None true None
        end
    end.

(** The options object of one platform, as far as the posting functions
    read it when no media URL is given. *)
Record Options : Type := {
  caption : option string;
  message : option string;
  text : option string;
  hashtags : list string
}.

(** [{}]. *)
Definition no_options : Options :=
  {| caption := None; message := None; text := None; hashtags := [] |}.

Record PlatformOptions : Type := {
  for_instagram : option Options;
  for_tiktok : option Options;
  for_facebook : option Options;
  for_linkedin : option Options
}.

(** [postToAllPlatforms]: the four posting functions catch whatever is
    thrown, so each promise given to [Promise.allSettled] is fulfilled
    with its record. *)
Definition postToAllPlatforms (platformOptions : PlatformOptions) : Summary.t :=
  let instagram := default no_options (for_instagram platformOptions) in
  let tiktok := default no_options (for_tiktok platformOptions) in
  let facebook := default no_options (for_facebook platformOptions) in
  let linkedin := default no_options (for_linkedin platformOptions) in
  let results :=
    [postToInstagram (caption instagram) (hashtags instagram);
     postToTikTok (caption tiktok) (hashtags tiktok);
     postToFacebook (message facebook) (hashtags facebook);
     postToLinkedIn (text linkedin) (hashtags linkedin)] in
  {| Summary.total := length results;
     Summary.successful := length (filter (fun r => Outcome.success r = true) results);
     Summary.failed := length (filter (fun r => Outcome.success r = false) results);
     Summary.results := results |}.

End Service.
End PlatformIntegrationService.

(** ** services/contentOrchestrator.js *)

(** The pipeline calls its collaborators one after the other; a
    computation carries the list of the collaborator calls made so far and
    stops at the first one that throws. *)
Module Pipeline.

Inductive Step : Type :=
  | DiscoverTrends | GenerateVideoScript | GenerateVoiceoverText
  | GenerateVoiceover | GenerateVisualPrompts | GenerateThumbnailPrompts
  | GenerateSEOMetadata | GenerateBRollSuggestions | NotifyN8N.

Definition M (A : Type) : Type := list Step -> result A * list Step.

Definition ret {A} (a : A) : M A := fun calls => (Ok a, calls).

Definition bind {A B} (m : M A) (k : A -> M B) : M B :=
  fun calls =>
    match m calls with
    | (Ok a, calls') => k a calls'
    | (Throw e, calls') => (Throw e, calls')
    end.

Definition throw {A} (e : Error) : M A := fun calls => (Throw e, calls).

(** [await service.method(...)] for a method modelled here, whose outcome
    is [r]. *)
Definition await {A} (s : Step) (r : result A) : M A :=
  fun calls => (r, calls ++ [s]).

(** [await provider(...)] for an external provider that answers [r]. *)
Definition call {A} (s : Step) (source : string) (r : response A) : M A :=
  fun calls =>
    (match r with
     | Resolved a => Ok a
     | Rejected message => Throw (Failure source message)
     end, calls ++ [s]).

(** A call whose failure is caught and logged. *)
Definition attempt {A} (s : Step) (r : response A) : M unit :=
  fun calls => (Ok tt, calls ++ [s]).

Definition run {A} (m : M A) : result A * list Step := m [].

End Pipeline.

#[global] Instance pipeline_ret : MRet Pipeline.M := @Pipeline.ret.
#[global] Instance pipeline_bind : MBind Pipeline.M :=
  fun A B k m => Pipeline.bind m k.

Module ContentOrchestrator.

Record Options : Type := {
  topic : option string;
  niche : string;
  duration : Z;
  autoDiscoverTrend : bool;
  platforms : list string
}.

(** The generation step providers. *)
Record Providers : Type := {
  generateVideoScript : string -> Z -> response string;
  generateVoiceoverText : string -> response string;
  generateVoiceover : string -> string -> response string;
  generateVisualPrompts : string -> response (list string);
  generateThumbnailPrompts : string -> response string;
  generateSEOMetadata : string -> string -> response Seo.t;
  generateBRollSuggestions : string -> response (list string)
}.

(** *** The platform repurposers *)

(** The local [caption] of [repurposeForInstagram], before it is cut. *)
Definition instagramCaption (content : Content.t) : string :=
  let description := JS.or_else (Content.seo_description content) EmptyString in
  let hashtags := default [] (Content.seo_hashtags content) in
  JS.template (JS.first (JS.split JS.newline description))
    +:+ JS.nl +:+ JS.nl +:+ JS.join " " (JS.slice0 hashtags 10).

Definition repurposeForInstagram (content : Content.t) : Payload.t :=
  let hashtags := default [] (Content.seo_hashtags content) in
  let caption := instagramCaption content in
  {| Payload.caption := Some (JS.substring caption 0 2200);
     Payload.message := None;
     Payload.text := None;
     Payload.hashtags := JS.slice0 hashtags 30;
     Payload.aspectRatio := Some "9:16";
     Payload.duration := Some 60;
     Payload.visualStyle := "vertical" |}.

(** The local [caption] of [repurposeForTikTok]. *)
Definition tiktokCaption (content : Content.t) : string :=
  JS.or_else (JS.or_opt (Content.seo_title content) (Content.topic content))
             "Video".

Definition repurposeForTikTok (content : Content.t) : Payload.t :=
  let caption := tiktokCaption content in
  {| Payload.caption := Some (JS.substring caption 0 150);
     Payload.message := None;
     Payload.text := None;
     Payload.hashtags := JS.slice0 (default [] (Content.seo_hashtags content)) 10;
     Payload.aspectRatio := Some "9:16";
     Payload.duration := Some 60;
     Payload.visualStyle := "vertical-dynamic" |}.

(** The local [description] of [repurposeForFacebook]. *)
Definition facebookDescription (content : Content.t) : string :=
  JS.or_else (JS.or_opt (Content.seo_description content) (Content.topic content))
             EmptyString.

Definition repurposeForFacebook (content : Content.t) : Payload.t :=
  let description := facebookDescription content in
  let hashtags := default [] (Content.seo_hashtags content) in
  {| Payload.caption := None;
     Payload.message := Some (JS.substring description 0 5000);
     Payload.text := None;
     Payload.hashtags := JS.slice0 hashtags 15;
     Payload.aspectRatio := None;
     Payload.duration := None;
     Payload.visualStyle := "square" |}.

(** The local [professionalTone] of [repurposeForLinkedIn]. *)
Definition linkedinProfessionalTone (content : Content.t) : string :=
  let title :=
    JS.or_else (JS.or_opt (Content.seo_title content) (Content.topic content))
               "Professional Content" in
  let description := JS.or_else (Content.seo_description content) EmptyString in
  let descriptionLines :=
    JS.join JS.nl (JS.slice0 (JS.split JS.newline description) 3) in
  title +:+ JS.nl +:+ JS.nl +:+ descriptionLines.

Definition repurposeForLinkedIn (content : Content.t) : Payload.t :=
  let professionalTone := linkedinProfessionalTone content in
  let hashtags := default [] (Content.seo_hashtags content) in
  {| Payload.caption := None;
     Payload.message := None;
     Payload.text := Some (JS.substring professionalTone 0 3000);
     Payload.hashtags := JS.slice0 hashtags 5;
     Payload.aspectRatio := None;
     Payload.duration := None;
     Payload.visualStyle := "professional" |}.

(** One turn of the loop of [repurposeContent]: the [switch]. *)
Definition repurposeCase (content : Content.t)
    (repurposed : gmap string Payload.t) (platform : string) : gmap string Payload.t :=
  if JS.streq platform "instagram" then
    <["instagram" := repurposeForInstagram content]> repurposed
  else if JS.streq platform "tiktok" then
    <["tiktok" := repurposeForTikTok content]> repurposed
  else if JS.streq platform "facebook" then
    <["facebook" := repurposeForFacebook content]> repurposed
  else if JS.streq platform "linkedin" then
    <["linkedin" := repurposeForLinkedIn content]> repurposed
  else repurposed.

Definition repurposeContent (content : Content.t) (targetPlatforms : list string)
    : result (gmap string Payload.t) :=
  Ok (foldl (repurposeCase content) ∅ targetPlatforms).

(** *** The publisher *)

Section Publisher.

Variable tokens : PlatformIntegrationService.Tokens.
Variable axios_post : PlatformIntegrationService.Endpoint -> string -> response string.

(** One turn of the loop of [publishContent], for the entry
    [platformContent = repurposed[platform]]: [None] when nothing is pushed
    to [results]. *)
Definition publishCase (platformContent : option Payload.t) (platform : string)
    : option Outcome.t :=
  match platformContent with
  | None => None
  | Some platformContent =>
      if JS.streq platform "instagram" then
        Some (PlatformIntegrationService.postToInstagram tokens axios_post
                (Payload.caption platformContent) (Payload.hashtags platformContent))
      else if JS.streq platform "tiktok" then
        Some (PlatformIntegrationService.postToTikTok tokens axios_post
                (Payload.caption platformContent) (Payload.hashtags platformContent))
      else if JS.streq platform "facebook" then
        Some (PlatformIntegrationService.postToFacebook tokens axios_post
                (Payload.message platformContent) (Payload.hashtags platformContent))
      else if JS.streq platform "linkedin" then
        Some (PlatformIntegrationService.postToLinkedIn tokens axios_post
                (Payload.text platformContent) (Payload.hashtags platformContent))
      else None
  end.

Definition publishLoop (repurposed : gmap string Payload.t) (platforms : list string)
    : list Outcome.t :=
  foldl (fun results platform =>
           match publishCase (repurposed !! platform) platform with
           | Some result => results ++ [result]
           | None => results
           end) [] platforms.

(** [publishContent] with the repurposing step it awaits first as a
    parameter: the method is looked up on the instance when called. *)
Definition publishContentVia
    (repurpose : Content.t -> list string -> result (gmap string Payload.t))
    (content : Content.t) (platforms : list string) : result (list Outcome.t) :=
  match repurpose content platforms with
  | Throw e => Throw e
  | Ok repurposed => Ok (publishLoop repurposed platforms)
  end.

Definition publishContent : Content.t -> list string -> result (list Outcome.t) :=
  publishContentVia repurposeContent.

End Publisher.

(** *** The generation pipeline *)

Section Generation.

Variable log10_approx : Q -> Q.
Variable clock : nat -> Z.
Variable youtube_search_list : string -> Z -> string -> response (list Trend.t).
Variable providers : Providers.
(** [config.n8n.enabled && config.n8n.webhookUrl] and the webhook call. *)
Variable n8n_enabled : bool.
Variable n8n_webhookUrl : option string.
Variable webhook_post : Content.t -> response unit.

Definition discoverTopic (niche : string) : Pipeline.M (option string) :=
  trends ← Pipeline.await Pipeline.DiscoverTrends
                 (TrendDiscoveryService.getTrendingTopicsForNiche
                    log10_approx clock youtube_search_list niche);
  Pipeline.ret
    (Some (JS.or_else (JS.first trends ≫= (fun t => Trend.title (Analyzed.trend t)))
                      ("Trending " +:+ niche +:+ " topic"))).

Definition generateCompleteContent (contentId : string) (options : Options)
    : Pipeline.M Content.t :=
  finalTopic ←
       (if autoDiscoverTrend options && negb (JS.truthy (topic options))
        then discoverTopic (niche options)
        else Pipeline.ret (topic options));
  if negb (JS.truthy finalTopic) then Pipeline.throw NoTopic
  else
    let finalTopic := JS.template finalTopic in
    script ← Pipeline.call Pipeline.GenerateVideoScript "scriptGeneration"
                   (generateVideoScript providers finalTopic (duration options));
    voiceoverText ← Pipeline.call Pipeline.GenerateVoiceoverText "scriptGeneration"
                          (generateVoiceoverText providers script);
    voiceover ← Pipeline.call Pipeline.GenerateVoiceover "voiceover"
                      (generateVoiceover providers voiceoverText
                         (contentId +:+ "_voiceover.mp3"));
    visuals ← Pipeline.call Pipeline.GenerateVisualPrompts "visualGeneration"
                    (generateVisualPrompts providers script);
    thumbnails ← Pipeline.call Pipeline.GenerateThumbnailPrompts "visualGeneration"
                       (generateThumbnailPrompts providers finalTopic);
    seoMetadata ← Pipeline.call Pipeline.GenerateSEOMetadata "seoMetadata"
                        (generateSEOMetadata providers script (niche options));
    brollSuggestions ← Pipeline.call Pipeline.GenerateBRollSuggestions "visualGeneration"
                             (generateBRollSuggestions providers script);
    let content :=
      {| Content.id := contentId;
         Content.topic := Some finalTopic;
         Content.niche := Some (niche options);
         Content.fullScript := Some script;
         Content.voiceover := Some voiceover;
         Content.visuals := visuals;
         Content.thumbnails := Some thumbnails;
         Content.seoMetadata := Some seoMetadata;
         Content.brollSuggestions := brollSuggestions;
         Content.duration := Some (duration options);
         Content.platforms := platforms options;
         Content.status := Some "generated" |} in
    _ ← (if n8n_enabled && JS.truthy n8n_webhookUrl
             then Pipeline.attempt Pipeline.NotifyN8N (webhook_post content)
             else Pipeline.ret tt);
    Pipeline.ret content.

End Generation.

End ContentOrchestrator.

(** ** jobs/scheduler.js *)

Module JobScheduler.

(** [this.generatedContent?.[this.generatedContent.length - 1]], the
    property being [None] while it is [undefined]. *)
Definition latest (generatedContent : option (list Content.t)) : option Content.t :=
  generatedContent ≫= last.

(** The content generation job, once [generateCompleteContent] has settled
    with [outcome]: what [this.generatedContent] is afterwards. *)
Definition contentGenerationJob (generatedContent : option (list Content.t))
    (outcome : result Content.t) : option (list Content.t) :=
  match outcome with
  | Throw _ => generatedContent
  | Ok content =>
      let generatedContent := default [] generatedContent ++ [content] in
      Some (if (10 <? length generatedContent)%nat then drop 1 generatedContent
            else generatedContent)
  end.

(** What a run of a job comes to. *)
Inductive Run : Type :=
  | Nothing
  | Generated (content : Content.t)
  | Published (results : list Outcome.t).

Section Jobs.

Variable tokens : PlatformIntegrationService.Tokens.
Variable axios_post : PlatformIntegrationService.Endpoint -> string -> response string.




Variable log10_approx : Q -> Q.
Variable clock : nat -> Z.
Variable youtube_search_list : string -> Z -> string -> response (list Trend.t).
Variable providers : ContentOrchestrator.Providers.
Variable n8n_enabled : bool.
Variable n8n_webhookUrl : option string.
Variable webhook_post : Content.t -> response unit.
(** [config.content.contentNiche] and the identifier [generateId()]
    gives the run. *)
Variable contentNiche : string.
Variable contentId : string.

Definition runJobManually (generatedContent : option (list Content.t))
    (jobName : string) : result Run :=
  if JS.streq jobName "trendDiscovery" then
    match TrendDiscoveryService.getTrendingTopicsForNiche log10_approx clock
            youtube_search_list contentNiche with
    | Ok _ => Ok Nothing
    | Throw e => Throw e
    end
  else if JS.streq jobName "contentGeneration" then
    match Pipeline.run
            (ContentOrchestrator.generateCompleteContent log10_approx clock
               youtube_search_list providers n8n_enabled n8n_webhookUrl webhook_post
               contentId
               {| ContentOrchestrator.topic := None;
                  ContentOrchestrator.niche := contentNiche;
                  ContentOrchestrator.duration := 120;
                  ContentOrchestrator.autoDiscoverTrend := true;
                  ContentOrchestrator.platforms := ["youtube"] |}) with
    | (Ok content, _) => Ok (Generated content)
    | (Throw e, _) => Throw e
    end
  else if JS.streq jobName "contentPosting" then
    match latest generatedContent with
    | Some content =>
        match ContentOrchestrator.publishContent tokens axios_post content
                ["instagram"] with
        | Ok results => Ok (Published results)
        | Throw e => Throw e
        end
    | None => Ok Nothing
    end
  else Throw (Failure "runJobManually" ("Unknown job: " +:+ jobName)).

End Jobs.

End JobScheduler.

(** ** modules/seoMetadata/seoMetadata.service.js *)

Module SEOMetadataService.

(** The class [\s] on the code units below 256, and the separators of
    [split(/[\s,]+/)]. *)
Definition whitespace (c : ascii) : bool :=
  let n := Ascii.nat_of_ascii c in
  ((9 <=? n)%nat && (n <=? 13)%nat) || (n =? 32)%nat || (n =? 160)%nat.

Definition separator (c : ascii) : bool := whitespace c || Ascii.eqb c ",".

Definition pushWord (word : string) : list string :=
  match word with
  | EmptyString => []
  | String _ _ => [word]
  end.

(** [text.split(/[\s,]+/).filter(word => word.length > 0)]: the maximal
    runs of characters that are no separators. *)
Fixpoint wordScan (word text : string) : list string :=
  match text with
  | EmptyString => pushWord word
  | String c rest =>
      if separator c then pushWord word ++ wordScan EmptyString rest
      else wordScan (word +:+ String c EmptyString) rest
  end.

Definition words (text : string) : list string := wordScan EmptyString text.

(** [word => word.startsWith('#') ? word : `#${word}`]. *)
Definition tagged (word : string) : string :=
  if JS.startsWith word "#" then word else "#" +:+ word.

Section Service.

(** [openai.chat.completions.create] for a user prompt, answering with
    [choices[0].message.content], which may be [null]. *)
Variable chat_completions_create : string -> response (option string).

Definition hashtagPrompt (script niche : string) : string :=
  "Generate 5-10 trending hashtags for this " +:+ niche +:+ " video content:"
  +:+ JS.nl +:+ JS.nl
  +:+ Helpers.truncateText script 200 Helpers.default_suffix
  +:+ JS.nl +:+ JS.nl
  +:+ "Mix popular and niche-specific hashtags. Format: #hashtag".

(** [generateHashtags]: whatever is thrown inside is caught, and the empty
    list returned. *)
Definition generateHashtags (script : option string) (niche : string) : list string :=
  match script with
  | None => []
  | Some script =>
      match chat_completions_create (hashtagPrompt script niche) with
      | Rejected _ => []
      | Resolved None => []
      | Resolved (Some content) =>
          let hashtags := Helpers.extractHashtags content in
          if (length hashtags =? 0)%nat
          then JS.slice0 (map tagged (words content)) 10
          else hashtags
      end
  end.

End Service.

End SEOMetadataService.

(** ** modules/scriptGeneration/scriptGeneration.service.js *)

Module ScriptGenerationService.

Definition tones : list string :=
  ["engaging"; "educational"; "entertaining"; "inspiring"; "conversational"].

(** [tones[i % tones.length]]. *)
Definition toneOf (i : nat) : option string := tones !! (i mod length tones)%nat.

Section Service.

Context {Script : Type}.

(** [generateVideoScript({topic, tone, duration})] at the [i]-th call of a
    run, rejecting with the message of the error it throws. *)
Variable generateVideoScript : nat -> string -> option string -> Z -> response Script.

(** The loop of [generateScriptVariations], with the tones requested so
    far; [remaining] counts the turns left. *)
Fixpoint variationsLoop (topic : string) (remaining i : nat)
    (variations : list Script) (requested : list (option string))
    : result (list Script) * list (option string) :=
  match remaining with
  | O => (Ok variations, requested)
  | S remaining =>
      let tone := toneOf i in
      match generateVideoScript i topic tone 120 with
      | Resolved script =>
          variationsLoop topic remaining (S i) (variations ++ [script])
            (requested ++ [tone])
      | Rejected message =>
          (Throw (Failure "generateVideoScript" message), requested ++ [tone])
      end
  end.

Definition generateScriptVariations (topic : string) (count : Z)
    : result (list Script) * list (option string) :=
  variationsLoop topic (Z.to_nat count) 0 [] [].

End Service.

End ScriptGenerationService.

(** ** modules/voiceover/voiceover.service.js *)

Module Voiceover.
Record t : Type := mk {
  path : string;
  filename : string;
  size : nat;
  provider : string
}.
End Voiceover.

Module VoiceoverService.

(** What the service does to the world: the directory it makes, the
    speech it requests and the file it writes. *)
Inductive Event : Type :=
  | Mkdir (dir : string)
  | SpeechCreate (text : string)
  | ElevenLabsPost (text : string)
  | WriteFile (path : string).

Record Options : Type := {
  provider : option string;
  filename : option string
}.

(** [`${n}`] for an integer below [10^21]. *)
Definition toString (n : Z) : string :=
  DecimalString.NilZero.string_of_int (Z.to_int n).

Section Service.

(** [this.outputDir], normalized, and the directory above it. *)
Variable outputDir : string.
Variable outputParent : string.
(** [config.tts.provider] and [config.tts.elevenLabs.apiKey]. *)
Variable tts_provider : string.
Variable elevenLabs_apiKey : option string.
(** [Date.now()] when the default file name is made. *)
Variable now : Z.
(** The speech request with the reading of its body, answering with the
    size of the audio; the ElevenLabs request; [fs.writeFile]. *)
Variable speech_create : string -> response nat.
Variable elevenlabs_post : string -> response nat.
Variable writeFile : string -> response unit.

(** [path.join(this.outputDir, name)] on POSIX for a name without
    separator. *)
Definition outputPath (name : string) : string :=
  if JS.streq name EmptyString || JS.streq name "." then outputDir
  else if JS.streq name ".." then outputParent
  else outputDir +:+ "/" +:+ name.

Definition undefined_text : string :=
  "Cannot read properties of undefined (reading 'length')".

(** The tail both providers share: naming the file and writing it.
    [initialize] has run before, its own failure caught. *)
Definition store (source prefix label : string) (events : list Event)
    (default_name : string) (options : Options) (size : nat)
    : result Voiceover.t * list Event :=
  let outputFilename := JS.or_else (filename options) default_name in
  let path := outputPath (Helpers.sanitizeFilename outputFilename) in
  match writeFile path with
  | Rejected message =>
      (Throw (Failure source (prefix +:+ message)), events ++ [WriteFile path])
  | Resolved _ =>
      (Ok (Voiceover.mk path outputFilename size label), events ++ [WriteFile path])
  end.

Definition generateVoiceoverOpenAI (text : option string) (options : Options)
    : result Voiceover.t * list Event :=
  let source := "generateVoiceoverOpenAI" in
  let prefix := "OpenAI voiceover generation failed: " in
  match text with
  | None => (Throw (Failure source (prefix +:+ undefined_text)), [])
  | Some text =>
      match speech_create text with
      | Rejected message =>
          (Throw (Failure source (prefix +:+ message)),
           [Mkdir outputDir; SpeechCreate text])
      | Resolved size =>
          store source prefix "openai" [Mkdir outputDir; SpeechCreate text]
            ("voiceover_" +:+ toString now +:+ ".mp3") options size
      end
  end.

Definition generateVoiceoverElevenLabs (text : option string) (options : Options)
    : result Voiceover.t * list Event :=
  let source := "generateVoiceoverElevenLabs" in
  let prefix := "ElevenLabs voiceover generation failed: " in
  if negb (JS.truthy elevenLabs_apiKey) then
    (Throw (Failure source (prefix +:+ "ElevenLabs API key not configured")), [])
  else
    match text with
    | None => (Throw (Failure source (prefix +:+ undefined_text)), [])
    | Some text =>
        match elevenlabs_post text with
        | Rejected message =>
            (Throw (Failure source (prefix +:+ message)),
             [Mkdir outputDir; ElevenLabsPost text])
        | Resolved size =>
            store source prefix "elevenlabs" [Mkdir outputDir; ElevenLabsPost text]
              ("voiceover_elevenlabs_" +:+ toString now +:+ ".mp3") options size
        end
    end.

Definition generateVoiceover (text : option string) (options : Options)
    : result Voiceover.t * list Event :=
  let provider := JS.or_else (provider options) tts_provider in
  if JS.streq provider "elevenlabs" then generateVoiceoverElevenLabs text options
  else generateVoiceoverOpenAI text options.

End Service.

End VoiceoverService.

(** * Vocabulary of the properties *)

(** The platforms [repurposeContent] and [publishContent] have a case
    for. *)
Definition known_platforms : list string :=
  ["instagram"; "tiktok"; "facebook"; "linkedin"].

(** The transform the [switch] of [repurposeContent] selects. *)
Definition transform (content : Content.t) (platform : string) : option Payload.t :=
  if JS.streq platform "instagram" then
    Some (ContentOrchestrator.repurposeForInstagram content)
  else if JS.streq platform "tiktok" then
    Some (ContentOrchestrator.repurposeForTikTok content)
  else if JS.streq platform "facebook" then
    Some (ContentOrchestrator.repurposeForFacebook content)
  else if JS.streq platform "linkedin" then
    Some (ContentOrchestrator.repurposeForLinkedIn content)
  else None.


(** [out] is [source] cut so that, with the whole marker appended, it has
    exactly [max] characters. *)
Definition ellipsis_cut (max : nat) (marker source out : string) : Prop :=
  ((JS.length source <= max)%nat -> out = source) /\
  ((max < JS.length source)%nat ->
     JS.length out = max /\
     exists kept rest, out = kept +:+ marker /\ source = kept +:+ rest).


(** An artifact with the given topic and SEO metadata and nothing else. *)
Definition artifact (topic : option string) (seo : option Seo.t) : Content.t :=
  Content.mk "1700000000000-abcdefghi" topic None None None [] None seo [] None [] None.

(** [c.repeat(n)] for a one-character string. *)
Definition repeat_char (c : ascii) (n : nat) : string :=
  Strings.String.string_of_list_ascii (replicate n c).

(** An artifact whose description, title and hashtag list all exceed every
    platform cap. *)
Definition long_artifact : Content.t :=
  artifact (Some "topic")
    (Some (Seo.mk (Some (repeat_char "t" 200))
                  (Some (repeat_char "d" (Z.to_nat 6000)))
                  (Some (replicate 40 "#tag")))).

Definition all_platforms_repurposed : gmap string Payload.t :=
  foldl (ContentOrchestrator.repurposeCase long_artifact) ∅
        ["instagram"; "tiktok"; "facebook"; "linkedin"].


(** The platform an endpoint belongs to. *)
Definition owner (endpoint : PlatformIntegrationService.Endpoint) : string :=
  match endpoint with
  | PlatformIntegrationService.InstagramMedia
  | PlatformIntegrationService.InstagramMediaPublish => "instagram"
  | PlatformIntegrationService.TikTokUpload => "tiktok"
  | PlatformIntegrationService.FacebookFeed => "facebook"
  | PlatformIntegrationService.LinkedInUgcPosts => "linkedin"
  end.

(** Every platform has its access token. *)
Definition configured (tokens : PlatformIntegrationService.Tokens) : Prop :=
  JS.truthy (PlatformIntegrationService.instagram tokens) = true /\
  JS.truthy (PlatformIntegrationService.tiktok tokens) = true /\
  JS.truthy (PlatformIntegrationService.facebook tokens) = true /\
  JS.truthy (PlatformIntegrationService.linkedin tokens) = true.

(** The upstream call of a platform fails: one of its endpoints rejects
    whatever it is sent. *)
Definition upstream_fails
    (axios_post : PlatformIntegrationService.Endpoint -> string -> response string)
    (platform : string) : Prop :=
  exists endpoint, owner endpoint = platform /\
    forall text, exists message, axios_post endpoint text = Rejected message.

(** The upstream calls of a platform succeed. *)
Definition upstream_succeeds
    (axios_post : PlatformIntegrationService.Endpoint -> string -> response string)
    (platform : string) : Prop :=
  forall endpoint text, owner endpoint = platform ->
    exists id, axios_post endpoint text = Resolved id.

(** What the claim asks of one outcome record when [failing] is the
    platform whose upstream call fails. *)
Definition isolated (failing : string) (r : Outcome.t) : Prop :=
  if decide (Outcome.platform r = failing)
  then Outcome.success r = false /\ is_Some (Outcome.error r)
  else Outcome.success r = true /\ Outcome.error r = None.

Definition all_tokens : PlatformIntegrationService.Tokens :=
  PlatformIntegrationService.Build_Tokens
    (Some "ig-token") (Some "tt-token") (Some "fb-token") (Some "li-token").

(** An upstream where only Facebook fails. *)
Definition facebook_down (endpoint : PlatformIntegrationService.Endpoint)
    (text : string) : response string :=
  match endpoint with
  | PlatformIntegrationService.FacebookFeed =>
      Rejected "Request failed with status code 500"
  | _ => Resolved "17890"
  end.

(** A whole run of the generation pipeline, started with no call made:
    what it returns or throws, and the collaborator calls it made. *)
Definition generation (log10_approx : Q -> Q) (clock : nat -> Z)
    (youtube_search_list : string -> Z -> string -> response (list Trend.t))
    (providers : ContentOrchestrator.Providers)
    (n8n_enabled : bool) (n8n_webhookUrl : option string)
    (webhook_post : Content.t -> response unit)
    (contentId : string) (options : ContentOrchestrator.Options)
    : result Content.t * list Pipeline.Step :=
  Pipeline.run
    (ContentOrchestrator.generateCompleteContent log10_approx clock
       youtube_search_list providers n8n_enabled n8n_webhookUrl webhook_post
       contentId options).

(** The generation steps proper: everything but trend discovery and the
    webhook. *)
Definition generation_step (s : Pipeline.Step) : bool :=
  match s with
  | Pipeline.DiscoverTrends | Pipeline.NotifyN8N => false
  | _ => true
  end.

(** The topic step 1 settles on when discovery returned [trends]. *)
Definition discovered_topic (niche : string) (trends : list Analyzed.t) : string :=
  JS.or_else (JS.first trends ≫= (fun t => Trend.title (Analyzed.trend t)))
             ("Trending " +:+ niche +:+ " topic").

(** Providers that always answer, and a search that finds nothing. *)
Definition answering_providers : ContentOrchestrator.Providers :=
  {| ContentOrchestrator.generateVideoScript := fun _ _ => Resolved "HOOK ... CTA";
     ContentOrchestrator.generateVoiceoverText := fun script => Resolved script;
     ContentOrchestrator.generateVoiceover := fun _ filename => Resolved filename;
     ContentOrchestrator.generateVisualPrompts := fun _ => Resolved ["SCENE 1"];
     ContentOrchestrator.generateThumbnailPrompts := fun _ => Resolved "concepts";
     ContentOrchestrator.generateSEOMetadata :=
       fun _ _ => Resolved (Seo.mk (Some "Title") (Some "Description") (Some ["#a"]));
     ContentOrchestrator.generateBRollSuggestions := fun _ => Resolved ["b-roll"] |}.

Definition empty_search (keywords : string) (maxResults : Z) (order : string)
    : response (list Trend.t) := Resolved [].

(** A stand-in for the engine's [Math.log10]: the number of decimal digits
    of the integer part, less one; exact on the powers of ten up to
    [10^400]. *)
Fixpoint count_digits (fuel : nat) (n : Z) : Z :=
  match fuel with
  | O => 0
  | S fuel => if n <? 10 then 0 else 1 + count_digits fuel (n / 10)
  end.

Definition log10_digits (q : Q) : Q := inject_Z (count_digits 400 (Qfloor q)).

Definition no_topic_no_discovery : ContentOrchestrator.Options :=
  {| ContentOrchestrator.topic := None;
     ContentOrchestrator.niche := "technology";
     ContentOrchestrator.duration := 120;
     ContentOrchestrator.autoDiscoverTrend := false;
     ContentOrchestrator.platforms := ["youtube"] |}.

(** [a] may stand before [b] in a list in non-increasing order of score:
    [a.trendScore >= b.trendScore], which is false when either is NaN. *)
Definition score_ge (a b : Analyzed.t) : Prop :=
  Number.geb (Analyzed.trendScore a) (Analyzed.trendScore b) = true.

(** [r.trendScore === s]. *)
Definition has_score (s : number) (r : Analyzed.t) : Prop :=
  Number.eqb (Analyzed.trendScore r) s = true.

#[global] Instance has_score_dec s r : Decision (has_score s r).
Proof. unfold has_score. apply _. Defined.

(** The score is a number, not NaN. *)
Definition scored (r : Analyzed.t) : Prop :=
  Number.isNaN (Analyzed.trendScore r) = false.

(** Sample trend records, published at the time the clock shows: one with
    the metrics of the specification's example, one a day older, one with
    no views. *)
Definition fixed_clock (i : nat) : Z := 1700000000000.

Definition viral : Trend.t :=
  Trend.mk (Some "v1") (Some "Viral") (Some 1700000000000)
           (Some (Number.of_Z 1000000)) (Some (Number.of_Z 50000))
           (Some (Number.of_Z 5000)).

Definition day_old : Trend.t :=
  Trend.mk (Some "v2") (Some "Older") (Some (1700000000000 - 86400000))
           (Some (Number.of_Z 1000000)) (Some (Number.of_Z 50000))
           (Some (Number.of_Z 5000)).

Definition zero_views : Trend.t :=
  Trend.mk (Some "v0") (Some "Unseen") (Some 1700000000000)
           (Some (Number.of_Z 0)) (Some (Number.of_Z 5)) (Some (Number.of_Z 1)).

(** [q] rounded to two decimals, as [parseFloat(q.toFixed(2))] rounds. *)
Definition round2 (x : number) : number := Number.parseFloat (Number.toFixed2 x).





(** A search that finds two videos a day apart. *)
Definition two_videos (keywords : string) (maxResults : Z) (order : string)
    : response (list Trend.t) :=
  Resolved [Trend.mk (Some "a") (Some "Older video") (Some (1700000000000 - 86400000))
                     None None None;
            Trend.mk (Some "b") (Some "Newer video") (Some 1700000000000)
                     None None None].

(** A record with positive views, numeric likes and comments and a valid
    publication date. *)
Definition measured (t : Trend.t) : Prop :=
  exists v l c ms,
    Trend.viewCount t = Some (Num v) /\ (0 < v)%Q /\
    Trend.likeCount t = Some (Num l) /\
    Trend.commentCount t = Some (Num c) /\
    Trend.publishedAt t = Some ms.

(** ** Vocabulary of the further properties *)

(** Every character of [s] satisfies [P]. *)
Fixpoint all_chars (P : ascii -> bool) (s : string) : bool :=
  match s with
  | EmptyString => true
  | String c rest => P c && all_chars P rest
  end.

(** The characters a sanitized file name is made of: lower-case letters,
    digits, dot, underscore and hyphen. *)
Definition sanitized_char (c : ascii) : bool :=
  JS.is_lower c || JS.is_digit c
  || Ascii.eqb c "." || Ascii.eqb c "_" || Ascii.eqb c "-".

(** A hashtag as the expression of [extractHashtags] matches it: [#] and
    at least one word character. *)
Definition hashtag (tag : string) : Prop :=
  exists c body,
    tag = String "#" (String c body) /\
    all_chars Helpers.word_char (String c body) = true.

(** The log of [n] failed requests from turn [i] on, each followed by its
    pause of [2^i] seconds. *)
Fixpoint failed_turns (n : nat) (i : Z) : list Helpers.Event :=
  match n with
  | O => []
  | S n => Helpers.Request :: Helpers.Sleep (2 ^ i * 1000) :: failed_turns n (i + 1)
  end.

(** The number of requests and the total pause in a log. *)
Fixpoint requests (log : list Helpers.Event) : nat :=
  match log with
  | [] => O
  | Helpers.Request :: log => S (requests log)
  | Helpers.Sleep _ :: log => requests log
  end.

Fixpoint slept (log : list Helpers.Event) : Z :=
  match log with
  | [] => 0
  | Helpers.Sleep ms :: log => ms + slept log
  | Helpers.Request :: log => slept log
  end.

(** The shape of the chunks of an array: every chunk but the last has
    exactly [size] elements, the last one between one and [size]. *)
Fixpoint chunked {A} (size : nat) (chunks : list (list A)) : Prop :=
  match chunks with
  | [] => True
  | [c] => (0 < length c <= size)%nat
  | c :: rest => length c = size /\ chunked size rest
  end.

(** A tag being read: [#] and word characters so far. *)
Definition reading (current : option string) : Prop :=
  match current with
  | Some tag => exists body,
      tag = String "#" body /\ all_chars Helpers.word_char body = true
  | None => True
  end.

(** An outcome record as every posting function builds it: the platform's
    own name; on success a post identifier and no error, on failure an
    error message and neither identifier nor link. *)
Definition wellformed (platform : string) (r : Outcome.t) : Prop :=
  Outcome.platform r = platform /\
  if Outcome.success r
  then is_Some (Outcome.postId r) /\ Outcome.error r = None
  else Outcome.postId r = None /\ Outcome.url r = None /\ is_Some (Outcome.error r).

(** The length the platform's API allows for a text sent to an endpoint,
    where the posting functions enforce one. *)
Definition within_limit (endpoint : PlatformIntegrationService.Endpoint)
    (text : string) : Prop :=
  match endpoint with
  | PlatformIntegrationService.InstagramMedia => (JS.length text <= Z.to_nat 2200)%nat
  | PlatformIntegrationService.TikTokUpload => (JS.length text <= Z.to_nat 150)%nat
  | PlatformIntegrationService.LinkedInUgcPosts => (JS.length text <= Z.to_nat 3000)%nat
  | PlatformIntegrationService.InstagramMediaPublish
  | PlatformIntegrationService.FacebookFeed => True
  end.

(** No access token at all. *)
Definition no_tokens : PlatformIntegrationService.Tokens :=
  PlatformIntegrationService.Build_Tokens None None None None.

(** [postToAllPlatforms(content)]: the default [platformOptions = {}]. *)
Definition no_platform_options : PlatformIntegrationService.PlatformOptions :=
  PlatformIntegrationService.Build_PlatformOptions None None None None.

(** An upstream that accepts everything, and one that rejects the texts
    over the platform's limit. *)
Definition lenient_upstream (endpoint : PlatformIntegrationService.Endpoint)
    (text : string) : response string := Resolved "17890".

Definition strict_upstream (endpoint : PlatformIntegrationService.Endpoint)
    (text : string) : response string :=
  let limited (max : nat) :=
    if (JS.length text <=? max)%nat then Resolved "17890"
    else Rejected "text too long" in
  match endpoint with
  | PlatformIntegrationService.InstagramMedia => limited (Z.to_nat 2200)
  | PlatformIntegrationService.TikTokUpload => limited (Z.to_nat 150)
  | PlatformIntegrationService.LinkedInUgcPosts => limited (Z.to_nat 3000)
  | PlatformIntegrationService.InstagramMediaPublish
  | PlatformIntegrationService.FacebookFeed => Resolved "17890"
  end.

(** The order in which [generateCompleteContent] calls its collaborators:
    trend discovery when it is due, the seven generation steps, and the
    webhook when it is due. *)
Definition generation_steps : list Pipeline.Step :=
  [Pipeline.GenerateVideoScript; Pipeline.GenerateVoiceoverText;
   Pipeline.GenerateVoiceover; Pipeline.GenerateVisualPrompts;
   Pipeline.GenerateThumbnailPrompts; Pipeline.GenerateSEOMetadata;
   Pipeline.GenerateBRollSuggestions].

Definition schedule (discover notify : bool) : list Pipeline.Step :=
  (if discover then [Pipeline.DiscoverTrends] else [])
  ++ generation_steps
  ++ (if notify then [Pipeline.NotifyN8N] else []).

(** Discovery is due: [autoDiscoverTrend && !topic]. *)
Definition discovers (options : ContentOrchestrator.Options) : bool :=
  ContentOrchestrator.autoDiscoverTrend options
  && negb (JS.truthy (ContentOrchestrator.topic options)).

(** The webhook is due: [config.n8n.enabled && config.n8n.webhookUrl]. *)
Definition notifies (n8n_enabled : bool) (n8n_webhookUrl : option string) : bool :=
  n8n_enabled && JS.truthy n8n_webhookUrl.

(** A run returned an artifact. *)
Definition returned {A} (r : result A) : bool :=
  match r with Ok _ => true | Throw _ => false end.

(** Options with a topic, discovery left on as by default. *)
Definition with_topic : ContentOrchestrator.Options :=
  {| ContentOrchestrator.topic := Some "Rust in 2024";
     ContentOrchestrator.niche := "technology";
     ContentOrchestrator.duration := 120;
     ContentOrchestrator.autoDiscoverTrend := true;
     ContentOrchestrator.platforms := ["youtube"] |}.

(** The videos the search [two_videos] finds. *)
Definition found_videos : list Trend.t :=
  [Trend.mk (Some "a") (Some "Older video") (Some (1700000000000 - 86400000))
            None None None;
   Trend.mk (Some "b") (Some "Newer video") (Some 1700000000000)
            None None None].

(** The artifacts of the runs that succeeded, oldest first, and the last
    ten of a list. *)
Definition artifacts (outcomes : list (result Content.t)) : list Content.t :=
  omap (fun outcome => match outcome with Ok content => Some content | Throw _ => None end)
       outcomes.

Definition last_ten {A} (l : list A) : list A := drop (length l - 10) l.


(** A word as the fallback of [generateHashtags] cuts it: no white space
    and no comma in it. *)
Definition unbroken (word : string) : bool :=
  all_chars (fun c => negb (SEOMetadataService.separator c)) word.

(** A completion that lists plain words, and one that lists hashtags. *)
Definition plain_words (prompt : string) : response (option string) :=
  Resolved (Some "AI, machine learning, c++").

Definition listed_hashtags (prompt : string) : response (option string) :=
  Resolved (Some "Here you go: #AI #MachineLearning, #tech_2024!").

(** The tones of the first [n] variations, from the [i]-th on: the five
    tones in turn, over and over. *)
Definition tone_cycle (i n : nat) : list (option string) :=
  map ScriptGenerationService.toneOf (seq i n).

(** A script generator whose third call fails. *)
Definition third_fails (i : nat) (topic : string) (tone : option string)
    (duration : Z) : response string :=
  if (i =? 2)%nat then Rejected "Script generation failed: rate limit"
  else Resolved (topic +:+ ", " +:+ JS.template tone).

(** The prefix the voiceover providers put before the message of an error
    they meet. *)
Definition provider_prefix (elevenlabs : bool) : string :=
  if elevenlabs then "ElevenLabs voiceover generation failed: "
  else "OpenAI voiceover generation failed: ".

(** The provider [generateVoiceover] picks is ElevenLabs. *)
Definition picks_elevenlabs (tts_provider : string)
    (options : VoiceoverService.Options) : bool :=
  JS.streq (JS.or_else (VoiceoverService.provider options) tts_provider) "elevenlabs".

(** Options naming a file outside the output directory. *)
Definition traversal : VoiceoverService.Options :=
  {| VoiceoverService.provider := None;
     VoiceoverService.filename := Some "../../etc/Passwd" |}.

(** Where a run of the voiceover service may write: a sanitized, non-empty
    name joined to the output directory. *)
Definition written_inside (outputDir outputParent : string)
    (events : list VoiceoverService.Event) : Prop :=
  forall path, VoiceoverService.WriteFile path ∈ events ->
    exists name,
      name <> EmptyString /\
      all_chars sanitized_char name = true /\
      path = VoiceoverService.outputPath outputDir outputParent name.

(** * Properties *)

(** ** Strings and arrays *)

Section StringFacts.

Implicit Types (s t : string) (n m : nat).

Lemma string_app_cons c s t : String c s +:+ t = String c (s +:+ t).
Proof. reflexivity. Qed.

Lemma string_length_app s t : JS.length (s +:+ t) = (JS.length s + JS.length t)%nat.
Proof. induction s as [|c s IH]; [done | rewrite string_app_cons; simpl; by rewrite IH]. Qed.

(** [String.substring 0 n] keeps the first [n] characters. *)
Lemma prefix_length n s :
  JS.length (Strings.String.substring 0 n s) = Nat.min n (JS.length s).
Proof.
  revert s; induction n as [|n IH]; intros [|c s]; simpl; try done.
  by rewrite IH.
Qed.

Lemma prefix_split n s :
  exists rest, s = Strings.String.substring 0 n s +:+ rest.
Proof.
  revert s; induction n as [|n IH]; intros [|c s]; simpl.
  - by exists EmptyString.
  - by exists (String c s).
  - by exists EmptyString.
  - destruct (IH s) as [rest Hrest]. exists rest. by rewrite string_app_cons, <- Hrest.
Qed.

Lemma prefix_all n s :
  (JS.length s <= n)%nat -> Strings.String.substring 0 n s = s.
Proof.
  revert s; induction n as [|n IH]; intros [|c s]; simpl; intros H; try done.
  - lia.
  - rewrite IH; [done | lia].
Qed.

(** [s.substring(0, n)] for a non-negative [n]. *)
Lemma substring0 s (n : Z) :
  0 <= n ->
  JS.substring s 0 n = Strings.String.substring 0 (Z.to_nat n) s.
Proof.
  intros Hn. unfold JS.substring.
  set (len := Z.of_nat (JS.length s)).
  assert (0 <= len) by (unfold len; lia).
  rewrite (Z.max_l 0 0), (Z.min_l 0 len), Z.min_l, Z.max_r by lia.
  rewrite Z.sub_0_r. simpl (Z.to_nat 0).
  destruct (Z.le_ge_cases n len) as [Hle | Hge].
  - by rewrite Z.max_l, Z.min_l by lia.
  - rewrite Z.max_l, Z.min_r by lia.
    unfold len. rewrite Nat2Z.id.
    rewrite !prefix_all; [done | lia | lia].
Qed.

Lemma substring0_length s (n : Z) :
  0 <= n -> JS.length (JS.substring s 0 n) = Nat.min (Z.to_nat n) (JS.length s).
Proof. intros Hn. rewrite substring0 by done. apply prefix_length. Qed.

Lemma substring0_le s (n : Z) :
  0 <= n -> (JS.length (JS.substring s 0 n) <= Z.to_nat n)%nat.
Proof. intros Hn. rewrite substring0_length by done. lia. Qed.

Lemma slice0_le {A} (a : list A) n : (length (JS.slice0 a n) <= n)%nat.
Proof. unfold JS.slice0. rewrite length_take. lia. Qed.

End StringFacts.

(** ** The platform repurposers and [repurposeContent] *)

Section Repurposing.

Import ContentOrchestrator.

Variable content : Content.t.

Lemma streq_eq (a b : string) : JS.streq a b = true <-> a = b.
Proof. apply Strings.String.eqb_eq. Qed.

Lemma streq_neq (a b : string) : JS.streq a b = false <-> a <> b.
Proof. apply Strings.String.eqb_neq. Qed.

Lemma transform_known platform :
  is_Some (transform content platform) <-> platform ∈ known_platforms.
Proof.
  unfold transform, known_platforms. rewrite !elem_of_cons, elem_of_nil.
  destruct (JS.streq platform "instagram") eqn:E1;
    [apply streq_eq in E1; split; eauto |].
  destruct (JS.streq platform "tiktok") eqn:E2;
    [apply streq_eq in E2; split; eauto |].
  destruct (JS.streq platform "facebook") eqn:E3;
    [apply streq_eq in E3; split; eauto |].
  destruct (JS.streq platform "linkedin") eqn:E4;
    [apply streq_eq in E4; split; eauto |].
  apply streq_neq in E1, E2, E3, E4.
  split; [intros [? ?]; discriminate | intros [|[|[|[|[]]]]]; done].
Qed.

(** One turn of the loop stores the selected transform under the
    platform's own name. *)
Lemma repurposeCase_insert (repurposed : gmap string Payload.t) platform :
  repurposeCase content repurposed platform =
    match transform content platform with
    | Some payload => <[platform := payload]> repurposed
    | None => repurposed
    end.
Proof.
  unfold repurposeCase, transform.
  repeat (destruct (JS.streq platform _) eqn:E;
          [apply streq_eq in E as ->; reflexivity | clear E]).
  reflexivity.
Qed.

Lemma repurposed_lookup (platforms : list string) (repurposed : gmap string Payload.t) k :
  foldl (repurposeCase content) repurposed platforms !! k =
    if bool_decide (k ∈ platforms) then
      match transform content k with
      | Some payload => Some payload
      | None => repurposed !! k
      end
    else repurposed !! k.
Proof.
  revert repurposed; induction platforms as [|p ps IH]; intros repurposed;
    cbn [foldl].
  - rewrite bool_decide_eq_false_2; [done | apply not_elem_of_nil].
  - rewrite IH, repurposeCase_insert.
    destruct (decide (k = p)) as [-> | Hne].
    + rewrite (bool_decide_eq_true_2 (p ∈ p :: ps)) by apply list_elem_of_here.
      destruct (transform content p) as [payload|] eqn:Hp.
      * rewrite lookup_insert_eq. by case_bool_decide.
      * by case_bool_decide.
    + assert (Hmem : k ∈ p :: ps <-> k ∈ ps)
        by (rewrite elem_of_cons; tauto).
      rewrite (bool_decide_ext _ _ Hmem).
      destruct (transform content p) as [payload|];
        [rewrite lookup_insert_ne by done |]; done.
Qed.

Lemma repurposeContent_lookup platforms repurposed k :
  repurposeContent content platforms = Ok repurposed ->
  repurposed !! k =
    if bool_decide (k ∈ platforms) then transform content k else None.
Proof.
  unfold repurposeContent. intros [= <-].
  rewrite repurposed_lookup, lookup_empty.
  case_bool_decide; [by destruct (transform content k) | done].
Qed.

End Repurposing.

(** C1: the payloads [repurposeContent] returns respect the per-platform
    caps on the text length and on the number of hashtags, whatever the
    description, title, hashtags and topic of the artifact are. *)
Theorem repurposeContent_caps (content : Content.t) (platforms : list string)
    (repurposed : gmap string Payload.t) :
  ContentOrchestrator.repurposeContent content platforms = Ok repurposed ->
  (forall p, repurposed !! "instagram" = Some p ->
     exists caption, Payload.caption p = Some caption /\
       (JS.length caption <= 2200)%nat /\ (length (Payload.hashtags p) <= 30)%nat) /\
  (forall p, repurposed !! "tiktok" = Some p ->
     exists caption, Payload.caption p = Some caption /\
       (JS.length caption <= 150)%nat /\ (length (Payload.hashtags p) <= 10)%nat) /\
  (forall p, repurposed !! "facebook" = Some p ->
     exists message, Payload.message p = Some message /\
       (JS.length message <= 5000)%nat /\ (length (Payload.hashtags p) <= 15)%nat) /\
  (forall p, repurposed !! "linkedin" = Some p ->
     exists text, Payload.text p = Some text /\
       (JS.length text <= 3000)%nat /\ (length (Payload.hashtags p) <= 5)%nat).
Proof.
  intros Hrep.
  repeat split; intros p Hp;
    rewrite (repurposeContent_lookup _ _ _ _ Hrep) in Hp;
    case_bool_decide; try discriminate;
    injection Hp as <-; eexists; (split; [reflexivity |]);
    (split; [| apply slice0_le]);
    (eapply Nat.le_trans; [apply substring0_le |]; lia).
Qed.

Lemma repurposeContent_caps_witness :
  (forall p, all_platforms_repurposed !! "instagram" = Some p ->
     exists caption, Payload.caption p = Some caption /\
       (JS.length caption <= 2200)%nat /\ (length (Payload.hashtags p) <= 30)%nat) /\
  (forall p, all_platforms_repurposed !! "tiktok" = Some p ->
     exists caption, Payload.caption p = Some caption /\
       (JS.length caption <= 150)%nat /\ (length (Payload.hashtags p) <= 10)%nat) /\
  (forall p, all_platforms_repurposed !! "facebook" = Some p ->
     exists message, Payload.message p = Some message /\
       (JS.length message <= 5000)%nat /\ (length (Payload.hashtags p) <= 15)%nat) /\
  (forall p, all_platforms_repurposed !! "linkedin" = Some p ->
     exists text, Payload.text p = Some text /\
       (JS.length text <= 3000)%nat /\ (length (Payload.hashtags p) <= 5)%nat).
Proof.
  apply (repurposeContent_caps long_artifact
           ["instagram"; "tiktok"; "facebook"; "linkedin"]).
  reflexivity.
Defined.

(** C8: [repurposeContent] never fails, and the keys of the map it returns
    are exactly the requested names that are among the four known
    platforms, each bound to that platform's transform of the artifact; a
    requested name outside the four leaves no entry. *)
Theorem repurposeContent_keys (content : Content.t) (platforms : list string) :
  exists repurposed : gmap string Payload.t,
    ContentOrchestrator.repurposeContent content platforms = Ok repurposed /\
    (forall k, is_Some (repurposed !! k) <-> k ∈ platforms /\ k ∈ known_platforms) /\
    (forall k payload, repurposed !! k = Some payload ->
                       transform content k = Some payload).
Proof.
  eexists; split; [reflexivity |].
  split.
  - intros k. rewrite repurposed_lookup, lookup_empty.
    rewrite <- (transform_known content).
    case_bool_decide as Hk; destruct (transform content k) as [payload|].
    + split; [intros _; split; [done | by exists payload] | by exists payload].
    + split; [intros [? ?]; discriminate | intros [_ [? ?]]; discriminate].
    + split; [intros [? ?]; discriminate | tauto].
    + split; [intros [? ?]; discriminate | tauto].
  - intros k payload. rewrite repurposed_lookup, lookup_empty.
    case_bool_decide; [by destruct (transform content k) | done].
Qed.



(** ** Truncation *)


Lemma truncateText_ellipsis (text suffix : string) (max : nat) :
  (JS.length suffix <= max)%nat ->
  ellipsis_cut max suffix text (Helpers.truncateText text (Z.of_nat max) suffix).
Proof.
  intros Hfit. unfold Helpers.truncateText. split.
  - intros Hshort. destruct (Z.leb_spec (Z.of_nat (JS.length text)) (Z.of_nat max));
      [done | lia].
  - intros Hlong. destruct (Z.leb_spec (Z.of_nat (JS.length text)) (Z.of_nat max));
      [lia |].
    rewrite substring0 by lia. split.
    + rewrite string_length_app, prefix_length. lia.
    + eexists; edestruct prefix_split as [rest Hrest]; exists rest.
      split; [reflexivity | exact Hrest].
Qed.



(** ** The publisher *)

Section Publishing.

Import PlatformIntegrationService ContentOrchestrator.

Variable tokens : Tokens.
Variable axios_post : Endpoint -> string -> response string.

Lemma foldl_push {A B} (f : B -> option A) (l : list B) (acc : list A) :
  foldl (fun results x =>
           match f x with Some r => results ++ [r] | None => results end) acc l
  = acc ++ omap f l.
Proof.
  revert acc; induction l as [|x l IH]; intros acc; cbn [foldl].
  - by rewrite app_nil_r.
  - rewrite IH. simpl. destruct (f x); [by rewrite <- (assoc_L (++)) | done].
Qed.

Lemma omap_Forall_ext {A B} (f g : A -> option B) (l : list A) :
  Forall (fun x => f x = g x) l -> omap f l = omap g l.
Proof. induction 1 as [|x l Hx _ IH]; csimpl; [done | by rewrite Hx, IH]. Qed.

Lemma publishLoop_omap (repurposed : gmap string Payload.t) platforms :
  publishLoop tokens axios_post repurposed platforms =
    omap (fun p => publishCase tokens axios_post (repurposed !! p) p) platforms.
Proof. unfold publishLoop. by rewrite foldl_push. Qed.

(** Whatever happens inside a [postTo...] call, it returns a record that
    carries the platform's name. *)
Ltac post_cases f :=
  unfold f, failed;
  repeat match goal with
         | |- context [if ?b then _ else _] => destruct b
         | |- context [match ?x with _ => _ end] => destruct x eqn:?
         end; cbn [Outcome.platform Outcome.success Outcome.error].

Lemma postToInstagram_platform caption hashtags :
  Outcome.platform (postToInstagram tokens axios_post caption hashtags) = "instagram".
Proof. post_cases postToInstagram; reflexivity. Qed.

Lemma postToTikTok_platform caption hashtags :
  Outcome.platform (postToTikTok tokens axios_post caption hashtags) = "tiktok".
Proof. post_cases postToTikTok; reflexivity. Qed.

Lemma postToFacebook_platform message hashtags :
  Outcome.platform (postToFacebook tokens axios_post message hashtags) = "facebook".
Proof. post_cases postToFacebook; reflexivity. Qed.

Lemma postToLinkedIn_platform text hashtags :
  Outcome.platform (postToLinkedIn tokens axios_post text hashtags) = "linkedin".
Proof. post_cases postToLinkedIn; reflexivity. Qed.

(** A failure is reported in the record, with its message. *)
Ltac rejected Hrej :=
  match goal with
  | H : axios_post ?e ?t = Resolved _ |- _ =>
      destruct (Hrej t) as [? ?]; congruence
  end.

Lemma postToInstagram_failure caption hashtags :
  upstream_fails axios_post "instagram" ->
  isolated "instagram" (postToInstagram tokens axios_post caption hashtags).
Proof.
  intros (endpoint & Hown & Hrej). unfold isolated.
  rewrite postToInstagram_platform, decide_True by done.
  destruct endpoint; try discriminate Hown;
    post_cases postToInstagram; eauto; rejected Hrej.
Qed.

Lemma postToTikTok_failure caption hashtags :
  upstream_fails axios_post "tiktok" ->
  isolated "tiktok" (postToTikTok tokens axios_post caption hashtags).
Proof.
  intros (endpoint & Hown & Hrej). unfold isolated.
  rewrite postToTikTok_platform, decide_True by done.
  destruct endpoint; try discriminate Hown;
    post_cases postToTikTok; eauto; rejected Hrej.
Qed.

Lemma postToFacebook_failure message hashtags :
  upstream_fails axios_post "facebook" ->
  isolated "facebook" (postToFacebook tokens axios_post message hashtags).
Proof.
  intros (endpoint & Hown & Hrej). unfold isolated.
  rewrite postToFacebook_platform, decide_True by done.
  destruct endpoint; try discriminate Hown;
    post_cases postToFacebook; eauto; rejected Hrej.
Qed.

Lemma postToLinkedIn_failure text hashtags :
  upstream_fails axios_post "linkedin" ->
  isolated "linkedin" (postToLinkedIn tokens axios_post text hashtags).
Proof.
  intros (endpoint & Hown & Hrej). unfold isolated.
  rewrite postToLinkedIn_platform, decide_True by done.
  destruct endpoint; try discriminate Hown;
    post_cases postToLinkedIn; eauto; rejected Hrej.
Qed.

(** With its token configured and its upstream answering, a platform's
    call succeeds. *)
Ltac resolved Hup :=
  repeat match goal with
         | |- context [axios_post ?e ?t] =>
             let id := fresh "id" in
             let Hid := fresh "Hid" in
             destruct (Hup e t eq_refl) as [id Hid]; rewrite Hid
         end.

Lemma postToInstagram_success caption hashtags :
  configured tokens -> upstream_succeeds axios_post "instagram" ->
  let r := postToInstagram tokens axios_post (Some caption) hashtags in
  Outcome.success r = true /\ Outcome.error r = None.
Proof.
  intros (Htoken & _) Hup. unfold postToInstagram. rewrite Htoken.
  cbn [negb]. resolved Hup. done.
Qed.

Lemma postToTikTok_success caption hashtags :
  configured tokens -> upstream_succeeds axios_post "tiktok" ->
  let r := postToTikTok tokens axios_post (Some caption) hashtags in
  Outcome.success r = true /\ Outcome.error r = None.
Proof.
  intros (_ & Htoken & _) Hup. unfold postToTikTok. rewrite Htoken.
  cbn [negb]. resolved Hup. done.
Qed.

Lemma postToFacebook_success message hashtags :
  configured tokens -> upstream_succeeds axios_post "facebook" ->
  let r := postToFacebook tokens axios_post (Some message) hashtags in
  Outcome.success r = true /\ Outcome.error r = None.
Proof.
  intros (_ & _ & Htoken & _) Hup. unfold postToFacebook. rewrite Htoken.
  cbn [negb]. resolved Hup. done.
Qed.

Lemma postToLinkedIn_success text hashtags :
  configured tokens -> upstream_succeeds axios_post "linkedin" ->
  let r := postToLinkedIn tokens axios_post (Some text) hashtags in
  Outcome.success r = true /\ Outcome.error r = None.
Proof.
  intros (_ & _ & _ & Htoken) Hup. unfold postToLinkedIn. rewrite Htoken.
  cbn [negb]. resolved Hup. done.
Qed.

Variable content : Content.t.

Lemma publishCase_unknown p :
  p ∉ known_platforms ->
  publishCase tokens axios_post (transform content p) p = None.
Proof.
  intros Hp. destruct (transform content p) as [payload|] eqn:Ht; [| done].
  exfalso. apply Hp, (transform_known content). by exists payload.
Qed.

(** A known platform yields exactly one record, under its own name. *)
Lemma publishCase_known p :
  p ∈ known_platforms ->
  exists r, publishCase tokens axios_post (transform content p) p = Some r /\
            Outcome.platform r = p.
Proof.
  unfold known_platforms. rewrite !elem_of_cons, elem_of_nil.
  intros [-> | [-> | [-> | [-> | []]]]]; eexists; (split; [reflexivity |]).
  - apply postToInstagram_platform.
  - apply postToTikTok_platform.
  - apply postToFacebook_platform.
  - apply postToLinkedIn_platform.
Qed.

Lemma publishCase_isolated failing p r :
  configured tokens ->
  upstream_fails axios_post failing ->
  (forall q, q ∈ known_platforms -> q <> failing -> upstream_succeeds axios_post q) ->
  publishCase tokens axios_post (transform content p) p = Some r ->
  isolated failing r.
Proof.
  intros Hconf Hfail Hothers Hr.
  assert (Hp : p ∈ known_platforms).
  { destruct (decide (p ∈ known_platforms)) as [|Hn]; [done |].
    by rewrite publishCase_unknown in Hr. }
  revert Hr Hothers Hp. unfold known_platforms at 2.
  rewrite !elem_of_cons, elem_of_nil.
  intros Hr Hothers [-> | [-> | [-> | [-> | []]]]]; injection Hr as <-.
  - destruct (decide ("instagram" = failing)) as [<- | Hne];
      [by apply postToInstagram_failure |].
    unfold isolated. rewrite postToInstagram_platform, decide_False by done.
    apply postToInstagram_success; [done |].
    apply Hothers; [| done]. unfold known_platforms. set_solver.
  - destruct (decide ("tiktok" = failing)) as [<- | Hne];
      [by apply postToTikTok_failure |].
    unfold isolated. rewrite postToTikTok_platform, decide_False by done.
    apply postToTikTok_success; [done |].
    apply Hothers; [| done]. unfold known_platforms. set_solver.
  - destruct (decide ("facebook" = failing)) as [<- | Hne];
      [by apply postToFacebook_failure |].
    unfold isolated. rewrite postToFacebook_platform, decide_False by done.
    apply postToFacebook_success; [done |].
    apply Hothers; [| done]. unfold known_platforms. set_solver.
  - destruct (decide ("linkedin" = failing)) as [<- | Hne];
      [by apply postToLinkedIn_failure |].
    unfold isolated. rewrite postToLinkedIn_platform, decide_False by done.
    apply postToLinkedIn_success; [done |].
    apply Hothers; [| done]. unfold known_platforms. set_solver.
Qed.

(** The loop reads only entries of requested platforms, and those hold the
    platform's transform. *)
Lemma publishLoop_transform platforms repurposed :
  repurposeContent content platforms = Ok repurposed ->
  publishLoop tokens axios_post repurposed platforms =
    omap (fun p => publishCase tokens axios_post (transform content p) p) platforms.
Proof.
  intros Hrep. rewrite publishLoop_omap.
  apply omap_Forall_ext, Forall_forall. intros p Hp.
  rewrite (repurposeContent_lookup content platforms repurposed p Hrep).
  by rewrite bool_decide_eq_true_2.
Qed.

Lemma published_platforms platforms :
  map Outcome.platform
      (omap (fun p => publishCase tokens axios_post (transform content p) p) platforms)
  = filter (fun p => p ∈ known_platforms) platforms.
Proof.
  induction platforms as [|p l IH]; [done |]. csimpl.
  destruct (decide (p ∈ known_platforms)) as [Hp | Hp].
  - destruct (publishCase_known p Hp) as (r & -> & Hr).
    rewrite filter_cons_True by done. csimpl. by rewrite Hr, IH.
  - rewrite publishCase_unknown, filter_cons_False by done. apply IH.
Qed.

Lemma published_isolated failing platforms :
  configured tokens ->
  upstream_fails axios_post failing ->
  (forall q, q ∈ known_platforms -> q <> failing -> upstream_succeeds axios_post q) ->
  Forall (isolated failing)
    (omap (fun p => publishCase tokens axios_post (transform content p) p) platforms).
Proof.
  intros Hconf Hfail Hothers.
  induction platforms as [|p l IH]; [constructor |]. csimpl.
  destruct (publishCase tokens axios_post (transform content p) p) as [r|] eqn:Hr;
    [| done].
  constructor; [| done]. by eapply publishCase_isolated.
Qed.

End Publishing.

(** C2: whatever the upstream calls do, [publishContent] returns
    normally, with one record per requested known platform in the order
    of the request: no failure of a platform is thrown past it.  When the
    upstream call of one platform fails, with the tokens configured and
    every other platform's upstream answering, the record of the failing
    platform has [success: false] and an error message and every other
    record has [success: true].  The call as a whole throws exactly when
    the repurposing step it awaits first throws. *)
Theorem publishContent_isolates_failure
    (tokens : PlatformIntegrationService.Tokens)
    (axios_post : PlatformIntegrationService.Endpoint -> string -> response string)
    (content : Content.t) (platforms : list string) :
  (exists results,
     ContentOrchestrator.publishContent tokens axios_post content platforms = Ok results /\
     map Outcome.platform results = filter (fun p => p ∈ known_platforms) platforms /\
     forall failing,
       configured tokens ->
       upstream_fails axios_post failing ->
       (forall q, q ∈ known_platforms -> q <> failing ->
                  upstream_succeeds axios_post q) ->
       Forall (isolated failing) results) /\
  (forall repurpose e,
     ContentOrchestrator.publishContentVia tokens axios_post repurpose content platforms
       = Throw e <-> repurpose content platforms = Throw e).
Proof.
  split.
  - eexists. split; [reflexivity |].
    rewrite (publishLoop_transform tokens axios_post content platforms _ eq_refl).
    split; [apply published_platforms |].
    intros failing Hconf Hfail Hothers. by apply published_isolated.
  - intros repurpose e. unfold ContentOrchestrator.publishContentVia.
    destruct (repurpose content platforms); split; congruence.
Qed.

Lemma publishContent_isolates_failure_witness :
  exists results,
    ContentOrchestrator.publishContent all_tokens facebook_down long_artifact
      ["instagram"; "facebook"] = Ok results /\
    map Outcome.platform results = ["instagram"; "facebook"] /\
    Forall (isolated "facebook") results.
Proof.
  destruct (publishContent_isolates_failure all_tokens facebook_down long_artifact
              ["instagram"; "facebook"]) as [(results & Hok & Hnames & Hiso) _].
  exists results. split; [exact Hok |]. split; [exact Hnames |].
  apply Hiso.
  - repeat split.
  - exists PlatformIntegrationService.FacebookFeed. split; [reflexivity |].
    intros text. eexists. reflexivity.
  - intros q _ Hq endpoint text Hown.
    destruct endpoint; simpl in Hown; subst q; try congruence;
      eexists; reflexivity.
Defined.

(** ** The generation pipeline *)

Section GenerationFacts.

Import ContentOrchestrator.

Variable log10_approx : Q -> Q.
Variable clock : nat -> Z.
Variable youtube_search_list : string -> Z -> string -> response (list Trend.t).
Variable providers : Providers.
Variable n8n_enabled : bool.
Variable n8n_webhookUrl : option string.
Variable webhook_post : Content.t -> response unit.

Lemma discovery_not_NoTopic niche :
  TrendDiscoveryService.getTrendingTopicsForNiche log10_approx clock
    youtube_search_list niche <> Throw NoTopic.
Proof.
  unfold TrendDiscoveryService.getTrendingTopicsForNiche,
    TrendDiscoveryService.searchTrendingKeywords.
  destruct (TrendDiscoveryService.getNicheKeywords niche); [| discriminate].
  destruct (youtube_search_list _ _ _); discriminate.
Qed.

Lemma or_else_truthy v d : d <> EmptyString -> JS.truthy (Some (JS.or_else v d)) = true.
Proof. intros Hd. destruct v as [[|c s]|], d; simpl; congruence. Qed.

Lemma truthy_nonempty t : JS.truthy (Some t) = true <-> t <> EmptyString.
Proof. destruct t; simpl; split; congruence. Qed.

(** A run of the pipeline, step by step. *)
Ltac run_pipeline :=
  unfold generation, Pipeline.run, generateCompleteContent, discoverTopic,
    mbind, pipeline_bind, Pipeline.bind, Pipeline.await, Pipeline.call,
    Pipeline.ret, Pipeline.throw, Pipeline.attempt.

Lemma generation_cases contentId options :
  let finalTopic :=
    if autoDiscoverTrend options && negb (JS.truthy (topic options))
    then match TrendDiscoveryService.getTrendingTopicsForNiche log10_approx clock
                 youtube_search_list (niche options) with
         | Ok trends => Ok (Some (discovered_topic (niche options) trends))
         | Throw e => Throw e
         end
    else Ok (topic options) in
  let discovery :=
    if autoDiscoverTrend options && negb (JS.truthy (topic options))
    then [Pipeline.DiscoverTrends] else [] in
  match finalTopic with
  | Throw e =>
      generation log10_approx clock youtube_search_list providers n8n_enabled
        n8n_webhookUrl webhook_post contentId options = (Throw e, discovery)
  | Ok t =>
      if JS.truthy t then
        exists outcome rest,
          generation log10_approx clock youtube_search_list providers n8n_enabled
            n8n_webhookUrl webhook_post contentId options
          = (outcome, discovery ++ Pipeline.GenerateVideoScript :: rest) /\
          outcome <> Throw NoTopic /\
          forall content, outcome = Ok content ->
                          Content.topic content = Some (JS.template t)
      else
        generation log10_approx clock youtube_search_list providers n8n_enabled
          n8n_webhookUrl webhook_post contentId options = (Throw NoTopic, discovery)
  end.
Proof.
  cbv zeta. unfold discovered_topic. run_pipeline.
  destruct (autoDiscoverTrend options && negb (JS.truthy (topic options))).
  - destruct (TrendDiscoveryService.getTrendingTopicsForNiche _ _ _ _)
      as [trends | e]; [| reflexivity].
    rewrite !or_else_truthy by discriminate. cbn [negb app].
    repeat match goal with
           | |- context [match ?r with Resolved _ => _ | Rejected _ => _ end] =>
               destruct r
           | |- context [if ?b then _ else _] => destruct b
           end;
      do 2 eexists; (split; [reflexivity |]); (split; [discriminate |]);
      intros content [= <-]; reflexivity.
  - destruct (JS.truthy (topic options)); [| reflexivity].
    cbn [negb app].
    repeat match goal with
           | |- context [match ?r with Resolved _ => _ | Rejected _ => _ end] =>
               destruct r
           | |- context [if ?b then _ else _] => destruct b
           end;
      do 2 eexists; (split; [reflexivity |]); (split; [discriminate |]);
      intros content [= <-]; reflexivity.
Qed.

End GenerationFacts.

(** C7: called with no topic and discovery switched off,
    [generateCompleteContent] throws the missing-topic error with no
    collaborator called at all, so no generation step has run and no
    artifact is returned; that error is thrown in exactly this case.  With
    discovery switched on and no topic given, whenever discovery returns,
    the topic is the title of the first trend or else the placeholder,
    never empty, and the pipeline goes on to script generation with it
    (when discovery itself throws, its error is what the call throws). *)
Theorem missing_topic_error
    (log10_approx : Q -> Q) (clock : nat -> Z)
    (youtube_search_list : string -> Z -> string -> response (list Trend.t))
    (providers : ContentOrchestrator.Providers)
    (n8n_enabled : bool) (n8n_webhookUrl : option string)
    (webhook_post : Content.t -> response unit)
    (contentId : string) (options : ContentOrchestrator.Options) :
  let run :=
    generation log10_approx clock youtube_search_list providers n8n_enabled
      n8n_webhookUrl webhook_post contentId options in
  let discovery :=
    TrendDiscoveryService.getTrendingTopicsForNiche log10_approx clock
      youtube_search_list (ContentOrchestrator.niche options) in
  (ContentOrchestrator.autoDiscoverTrend options = false ->
   JS.truthy (ContentOrchestrator.topic options) = false ->
   run = (Throw NoTopic, []) /\ Forall (fun s => generation_step s = false) run.2) /\
  (run.1 = Throw NoTopic <->
   ContentOrchestrator.autoDiscoverTrend options = false /\
   JS.truthy (ContentOrchestrator.topic options) = false) /\
  (ContentOrchestrator.autoDiscoverTrend options = true ->
   JS.truthy (ContentOrchestrator.topic options) = false ->
   match discovery with
   | Throw e => run = (Throw e, [Pipeline.DiscoverTrends])
   | Ok trends =>
       let topic := discovered_topic (ContentOrchestrator.niche options) trends in
       topic <> EmptyString /\
       exists outcome rest,
         run = (outcome,
                Pipeline.DiscoverTrends :: Pipeline.GenerateVideoScript :: rest) /\
         forall content, outcome = Ok content -> Content.topic content = Some topic
   end).
Proof.
  cbv zeta.
  pose proof (generation_cases log10_approx clock youtube_search_list providers
                n8n_enabled n8n_webhookUrl webhook_post contentId options) as Hrun.
  cbv zeta in Hrun.
  pose proof (discovery_not_NoTopic log10_approx clock youtube_search_list
                (ContentOrchestrator.niche options)) as Hdisc.
  destruct (ContentOrchestrator.autoDiscoverTrend options) eqn:Hauto;
    destruct (JS.truthy (ContentOrchestrator.topic options)) eqn:Htopic;
    rewrite ?Hauto, ?Htopic in Hrun; cbn [andb negb app] in Hrun;
    rewrite ?Htopic in Hrun.
  - destruct Hrun as (outcome & rest & -> & Hno & _).
    split; [discriminate |]. split; [| discriminate].
    split; [intros H; by destruct (Hno H) | intros [? _]; discriminate].
  - destruct (TrendDiscoveryService.getTrendingTopicsForNiche _ _ _ _)
      as [trends | e].
    + assert (Htruthy : JS.truthy
                (Some (discovered_topic (ContentOrchestrator.niche options) trends))
              = true) by (apply or_else_truthy; discriminate).
      rewrite Htruthy in Hrun.
      destruct Hrun as (outcome & rest & -> & Hno & Htop).
      split; [discriminate |].
      split; [split; [intros H; by destruct (Hno H) | intros [? _]; discriminate] |].
      intros _ _. split; [by apply truthy_nonempty |].
      exists outcome, rest. split; [reflexivity | exact Htop].
    + rewrite Hrun.
      split; [discriminate |].
      split; [split; [intros [= ->]; by destruct Hdisc | intros [? _]; discriminate] |].
      done.
  - destruct Hrun as (outcome & rest & -> & Hno & _).
    split; [discriminate |]. split; [| discriminate].
    split; [intros H; by destruct (Hno H) | intros [_ ?]; discriminate].
  - rewrite Hrun.
    split; [intros _ _; split; [reflexivity | constructor] |].
    split; [| discriminate]. done.
Qed.

Lemma missing_topic_error_witness :
  generation log10_digits (fun _ => 0) empty_search answering_providers false None
    (fun _ => Resolved tt) "1700000000000-abcdefghi" no_topic_no_discovery
  = (Throw NoTopic, []).
Proof.
  apply (missing_topic_error log10_digits (fun _ => 0) empty_search
           answering_providers false None (fun _ => Resolved tt)
           "1700000000000-abcdefghi" no_topic_no_discovery); reflexivity.
Defined.

(** ** Numbers *)

Section NumberFacts.

Local Open Scope Q_scope.

Lemma Qltb_lt (a b : Q) : Number.Qltb a b = true <-> a < b.
Proof.
  unfold Number.Qltb. rewrite negb_true_iff, <- not_true_iff_false, Qle_bool_iff.
  split; [apply Qnot_le_lt | apply Qlt_not_le].
Qed.

Lemma Qltb_ge (a b : Q) : Number.Qltb a b = false <-> b <= a.
Proof.
  unfold Number.Qltb. rewrite negb_false_iff. apply Qle_bool_iff.
Qed.



(** The sign of a difference is the order of its operands, also on the
    infinities; a NaN operand makes both sides false. *)
Lemma sub_positive (x y : number) :
  Number.ltb (Number.of_Z 0) (Number.sub y x) = Number.ltb x y.
Proof.
  destruct x as [|t|a], y as [|s|b]; try reflexivity;
    try (by destruct t); try (by destruct s, t).
  cbn [Number.sub Number.ltb Number.of_Z Number.fin].
  apply eq_iff_eq_true. rewrite !Qltb_lt, !Qred_correct.
  unfold Qminus. split; intros H.
  - apply (Qplus_lt_l _ _ (- a)). by rewrite Qplus_opp_r.
  - apply (Qplus_lt_l _ _ (- a)) in H. by rewrite Qplus_opp_r in H.
Qed.


Lemma geb_total (x y : number) :
  Number.isNaN x = false -> Number.isNaN y = false ->
  Number.ltb x y = false -> Number.geb x y = true.
Proof.
  unfold Number.geb.
  destruct x as [|t|a], y as [|s|b]; simpl; try discriminate; intros _ _.
  - destruct t, s; simpl; congruence.
  - destruct t; simpl; congruence.
  - destruct s; simpl; congruence.
  - rewrite Qltb_ge. intros Hle. apply orb_true_iff.
    destruct (Qle_lt_or_eq _ _ Hle) as [Hlt | Heq].
    + left. by apply Qltb_lt.
    + right. apply Qeq_bool_iff. by symmetry.
Qed.

Lemma ltb_geb (x y : number) : Number.ltb x y = true -> Number.geb y x = true.
Proof. unfold Number.geb. by intros ->. Qed.

Lemma geb_le (a b : Q) : Number.geb (Num a) (Num b) = true <-> b <= a.
Proof.
  unfold Number.geb. simpl. rewrite orb_true_iff, Qltb_lt, Qeq_bool_iff. split.
  - intros [H | H]; [by apply Qlt_le_weak | rewrite H; apply Qle_refl].
  - intros H. destruct (Qle_lt_or_eq _ _ H) as [Hlt | Heq]; [by left | right].
    by symmetry.
Qed.

Lemma geb_trans (x y z : number) :
  Number.geb x y = true -> Number.geb y z = true -> Number.geb x z = true.
Proof.
  destruct x as [|t|a], y as [|s|b], z as [|u|c];
    try (unfold Number.geb; simpl; discriminate);
    try (unfold Number.geb; simpl; by destruct_all bool).
  rewrite !geb_le. intros H1 H2. by apply (Qle_trans _ b).
Qed.

(** Finite operands give finite results, except for a division by
    zero. *)
Lemma add_finite (x y : number) :
  Number.isFinite x = true -> Number.isFinite y = true ->
  Number.isFinite (Number.add x y) = true.
Proof. by destruct x, y. Qed.

Lemma sub_finite (x y : number) :
  Number.isFinite x = true -> Number.isFinite y = true ->
  Number.isFinite (Number.sub x y) = true.
Proof. by destruct x, y. Qed.

Lemma mul_finite (x y : number) :
  Number.isFinite x = true -> Number.isFinite y = true ->
  Number.isFinite (Number.mul x y) = true.
Proof. by destruct x, y. Qed.

Lemma max_finite (x y : number) :
  Number.isFinite x = true -> Number.isFinite y = true ->
  Number.isFinite (Number.max x y) = true.
Proof.
  destruct x as [| |a], y as [| |b]; try done. intros _ _.
  simpl. by destruct (Number.Qltb a b).
Qed.

Lemma div_finite (x : number) (b : Q) :
  Number.isFinite x = true -> ~ b == 0 ->
  Number.isFinite (Number.div x (Num b)) = true.
Proof.
  destruct x as [| |a]; try done. intros _ Hb. simpl.
  assert (Qeq_bool b 0 = false) as ->; [| done].
  apply not_true_iff_false. by rewrite Qeq_bool_iff.
Qed.

Lemma div_finite_Z (x : number) (z : Z) :
  Number.isFinite x = true -> z <> 0%Z ->
  Number.isFinite (Number.div x (Number.of_Z z)) = true.
Proof.
  intros Hx Hz. apply div_finite; [done |].
  rewrite Qred_correct. unfold Qeq. simpl. lia.
Qed.

Lemma parseFloat_toFixed2_finite (x : number) :
  Number.isFinite x = true ->
  Number.isFinite (Number.parseFloat (Number.toFixed2 x)) = true.
Proof.
  destruct x as [| |a]; try done. intros _. simpl.
  by destruct (Qle_bool _ _).
Qed.

Lemma log10_finite (log10_approx : Q -> Q) (v : Q) :
  0 < v -> Number.isFinite (Math_log10 log10_approx (Num v)) = true.
Proof.
  intros Hpos. simpl. destruct (Qeq_bool v 1); [done |].
  assert (Qeq_bool v 0 = false) as ->.
  { apply not_true_iff_false. rewrite Qeq_bool_iff. intros H0.
    rewrite H0 in Hpos. by apply Qlt_irrefl in Hpos. }
  assert (Number.Qltb v 0 = false) as ->; [| done].
  apply Qltb_ge. by apply Qlt_le_weak.
Qed.

Lemma finite_not_NaN (x : number) :
  Number.isFinite x = true -> Number.isNaN x = false.
Proof. by destruct x. Qed.

End NumberFacts.

(** ** Sorting by score *)

Section SortFacts.

Implicit Types (x y : Analyzed.t) (l : list Analyzed.t).

Lemma after_spec x y :
  Sort.after TrendDiscoveryService.byTrendScore x y = Number.ltb (Analyzed.trendScore x) (Analyzed.trendScore y).
Proof. apply sub_positive. Qed.

Lemma insert_perm x l : Sort.insert TrendDiscoveryService.byTrendScore x l ≡ₚ x :: l.
Proof.
  induction l as [|y l IH]; simpl; [done |].
  destruct (Sort.after TrendDiscoveryService.byTrendScore x y); [| done].
  rewrite IH. apply Permutation_swap.
Qed.

Lemma sort_perm l : Sort.sort TrendDiscoveryService.byTrendScore l ≡ₚ l.
Proof.
  induction l as [|x l IH]; simpl; [done |].
  by rewrite insert_perm, IH.
Qed.



(** Order: with no NaN key the result is in non-increasing order. *)
Lemma insert_Forall (P : Analyzed.t -> Prop) x l :
  P x -> Forall P l -> Forall P (Sort.insert TrendDiscoveryService.byTrendScore x l).
Proof. intros Hx Hl. rewrite insert_perm. by constructor. Qed.

Lemma insert_sorted x l :
  scored x -> Forall scored l ->
  StronglySorted score_ge l -> StronglySorted score_ge (Sort.insert TrendDiscoveryService.byTrendScore x l).
Proof.
  intros Hx Hl Hsorted.
  induction Hsorted as [|y l Hsorted IH Hy]; simpl.
  - repeat constructor.
  - apply Forall_cons in Hl as [Hky Hl].
    destruct (Sort.after TrendDiscoveryService.byTrendScore x y) eqn:Hafter; rewrite after_spec in Hafter.
    + constructor; [by apply IH |].
      apply insert_Forall; [by apply ltb_geb | done].
    + assert (Hxy : score_ge x y) by (by apply geb_total).
      constructor; [by constructor |].
      constructor; [done |].
      eapply Forall_impl; [exact Hy |].
      intros z Hz. by apply (geb_trans _ (Analyzed.trendScore y)).
Qed.

Lemma sort_sorted l :
  Forall scored l -> StronglySorted score_ge (Sort.sort TrendDiscoveryService.byTrendScore l).
Proof.
  induction 1 as [|x l Hx Hl IH]; simpl; [constructor |].
  apply insert_sorted; [done | | done].
  by rewrite sort_perm.
Qed.


End SortFacts.

Section AnalyzeTrends.

Variable log10_approx : Q -> Q.
Variable clock : nat -> Z.

Lemma analyzed_trends (trends : list Trend.t) :
  map Analyzed.trend (TrendDiscoveryService.analyzed log10_approx clock trends)
  = trends.
Proof.
  unfold TrendDiscoveryService.analyzed.
  revert clock. induction trends as [|t l IH]; intros clock'; [done |].
  csimpl. f_equal. apply (IH (clock' ∘ S)).
Qed.

Lemma Forall_imap_impl {A B} (P : A -> Prop) (R : B -> Prop)
    (f : nat -> A -> B) (l : list A) :
  (forall i x, P x -> R (f i x)) -> Forall P l -> Forall R (imap f l).
Proof.
  intros Hf Hl. revert f Hf.
  induction Hl as [|x l Hx _ IH]; intros f Hf; csimpl; constructor.
  - by apply Hf.
  - apply IH. intros i y. apply Hf.
Qed.


(** The score of a measured record is a number. *)
Lemma measured_scored (now : Z) (t : Trend.t) :
  measured t -> scored (TrendDiscoveryService.analyzeOne log10_approx now t).
Proof.
  intros (v & l & c & ms & Hv & Hpos & Hl & Hc & Hms).
  assert (Hv0 : ~ (v == 0)%Q).
  { intros H0. rewrite H0 in Hpos. by apply Qlt_irrefl in Hpos. }
  apply finite_not_NaN.
  unfold TrendDiscoveryService.analyzeOne,
    TrendDiscoveryService.calculateTrendScore,
    TrendDiscoveryService.weightedScore, TrendDiscoveryService.viewScore,
    TrendDiscoveryService.engagementScore, TrendDiscoveryService.recencyScore,
    TrendDiscoveryService.daysSincePublished, TrendDiscoveryService.getTime.
  cbn [Analyzed.trendScore]. rewrite Hv, Hl, Hc, Hms. cbn [Number.ToNumber].
  apply parseFloat_toFixed2_finite, mul_finite; [| done].
  repeat apply add_finite; apply mul_finite; try done.
  - apply div_finite_Z; [by apply log10_finite | done].
  - by apply div_finite.
  - apply max_finite; [done |]. apply sub_finite; [done |].
    apply div_finite_Z; [| done]. apply div_finite_Z; [| done].
    by apply sub_finite.
Qed.

End AnalyzeTrends.




(** ** Engagement rate and trend score *)

Section ScoreFacts.

Local Open Scope Q_scope.



















(** ** Topics for a niche *)




End ScoreFacts.

(** ** Worked examples *)

Example substring_clamps : JS.substring "hello" 0 3 = "hel" /\ JS.substring "hello" (-2) 99 = "hello".
Proof. split; reflexivity. Qed.

Example split_keeps_empty_lines : JS.split "," "a,b,,c" = ["a"; "b"; EmptyString; "c"].
Proof. reflexivity. Qed.

Example join_hashtags : JS.join " " ["#a"; "#b"] = "#a #b".
Proof. reflexivity. Qed.

(** The case of the helpers' test suite. *)
Example truncateText_test :
  Helpers.truncateText "This is a very long text that needs to be truncated" 20
    Helpers.default_suffix = "This is a very lo..." /\
  Helpers.truncateText "Short text" 20 Helpers.default_suffix = "Short text".
Proof. split; reflexivity. Qed.

(** Below three characters the marker alone already exceeds the limit. *)
Example truncateText_tiny_limit :
  Helpers.truncateText "abcdef" 2 Helpers.default_suffix = "...".
Proof. reflexivity. Qed.

Example division_by_zero :
  Number.div (Number.of_Z 6) (Number.of_Z 0) = Infinity false /\
  Number.div (Number.of_Z 0) (Number.of_Z 0) = NaN.
Proof. split; reflexivity. Qed.

(** 50.199 rounds to 50.2; the ties 0.125 and -0.125 round away from
    zero. *)
Example rounding_to_two_decimals :
  round2 (Num (50199 # 1000)) = Num (251 # 5) /\
  round2 (Num (1 # 8)) = Num (13 # 100) /\
  round2 (Num (- (1) # 8)) = Num (- (13) # 100).
Proof. split; [reflexivity | split; reflexivity]. Qed.

Example niche_keywords :
  TrendDiscoveryService.getNicheKeywords "Finance"
    = Some ["money"; "investing"; "crypto"; "stocks"; "business"] /\
  TrendDiscoveryService.getNicheKeywords "cooking"
    = Some ["trending"; "viral"; "popular"].
Proof. split; reflexivity. Qed.

(** Scores 49.2, 50.2, 49.2 in input order: the newest record comes first
    and the two older ones keep their input order. *)
Example analyzeTrends_sample :
  map (fun r => (Trend.videoId (Analyzed.trend r), Analyzed.trendScore r))
      (TrendDiscoveryService.analyzeTrends log10_digits fixed_clock
         [day_old; viral; zero_views])
  = [(Some "v1", Num (251 # 5)); (Some "v2", Num (246 # 5)); (Some "v0", NaN)].
Proof. reflexivity. Qed.

(** The published order follows the request, whichever platform fails. *)
Example publish_in_request_order :
  ContentOrchestrator.publishContent all_tokens facebook_down long_artifact
    ["facebook"; "youtube"; "instagram"]
  = Ok [Outcome.mk "facebook" None None false
          (Some "Request failed with status code 500");
        Outcome.mk "instagram" (Some "17890")
          (Some "https://www.instagram.com/p/17890/") true None].
Proof. reflexivity. Qed.

Example missing_topic_message :
  error_message NoTopic = "No topic provided or discovered".
Proof. reflexivity. Qed.

(** Discovery that finds nothing falls back to the placeholder topic, and
    the seven steps and the webhook follow. *)
Example placeholder_topic :
  generation log10_digits fixed_clock empty_search answering_providers true
    (Some "https://n8n.example/webhook") (fun _ => Resolved tt) "id"
    {| ContentOrchestrator.topic := None;
       ContentOrchestrator.niche := "technology";
       ContentOrchestrator.duration := 120;
       ContentOrchestrator.autoDiscoverTrend := true;
       ContentOrchestrator.platforms := ["youtube"] |}
  = (Ok (Content.mk "id" (Some "Trending technology topic") (Some "technology")
           (Some "HOOK ... CTA") (Some "id_voiceover.mp3") ["SCENE 1"]
           (Some "concepts")
           (Some (Seo.mk (Some "Title") (Some "Description") (Some ["#a"])))
           ["b-roll"] (Some 120) ["youtube"] (Some "generated")),
     [Pipeline.DiscoverTrends; Pipeline.GenerateVideoScript;
      Pipeline.GenerateVoiceoverText; Pipeline.GenerateVoiceover;
      Pipeline.GenerateVisualPrompts; Pipeline.GenerateThumbnailPrompts;
      Pipeline.GenerateSEOMetadata; Pipeline.GenerateBRollSuggestions;
      Pipeline.NotifyN8N]).
Proof. reflexivity. Qed.

(** * Further properties *)

(** ** utils/helpers.js *)

Section HelperFacts.

Lemma truncateText_fits (text suffix : string) (maxLength : Z) :
  Z.of_nat (JS.length suffix) <= maxLength ->
  Z.of_nat (JS.length (Helpers.truncateText text maxLength suffix)) <= maxLength.
Proof.
  intros Hfit.
  destruct (truncateText_ellipsis text suffix (Z.to_nat maxLength)) as [Hshort Hlong];
    [lia |].
  rewrite Z2Nat.id in Hshort, Hlong by lia.
  destruct (Nat.le_gt_cases (JS.length text) (Z.to_nat maxLength)) as [Hle | Hgt].
  - rewrite (Hshort Hle). lia.
  - destruct (Hlong Hgt) as [-> _]. lia.
Qed.

(** X1: whenever the suffix itself fits in the limit, [truncateText]
    returns at most [maxLength] characters: the text itself when it fits,
    and otherwise exactly [maxLength] characters, a prefix of the text
    followed by the whole suffix. *)
Theorem truncateText_within_limit (text suffix : string) (maxLength : Z) :
  Z.of_nat (JS.length suffix) <= maxLength ->
  Z.of_nat (JS.length (Helpers.truncateText text maxLength suffix)) <= maxLength /\
  ellipsis_cut (Z.to_nat maxLength) suffix text
    (Helpers.truncateText text maxLength suffix).
Proof.
  intros Hfit. split; [by apply truncateText_fits |].
  rewrite <- (Z2Nat.id maxLength) at 2 by lia.
  apply truncateText_ellipsis. lia.
Qed.

Lemma truncateText_within_limit_witness :
  Z.of_nat (JS.length (Helpers.truncateText "abcdefghij" 6 "..")) <= 6 /\
  ellipsis_cut (Z.to_nat 6) ".." "abcdefghij"
    (Helpers.truncateText "abcdefghij" 6 "..").
Proof. apply (truncateText_within_limit "abcdefghij" ".." 6). simpl; lia. Defined.

(** X2: truncating twice is truncating once, whenever the suffix fits in
    the limit. *)
Theorem truncateText_idempotent (text suffix : string) (maxLength : Z) :
  Z.of_nat (JS.length suffix) <= maxLength ->
  Helpers.truncateText (Helpers.truncateText text maxLength suffix) maxLength suffix
  = Helpers.truncateText text maxLength suffix.
Proof.
  intros Hfit. pose proof (truncateText_fits text suffix maxLength Hfit) as Hle.
  unfold Helpers.truncateText at 1.
  destruct (Z.leb_spec
              (Z.of_nat (JS.length (Helpers.truncateText text maxLength suffix)))
              maxLength); [done | lia].
Qed.

Lemma truncateText_idempotent_witness :
  Helpers.truncateText (Helpers.truncateText "abcdefghij" 6 "..") 6 ".."
  = Helpers.truncateText "abcdefghij" 6 "..".
Proof. apply (truncateText_idempotent "abcdefghij" ".." 6). simpl; lia. Defined.

(** X3: when the suffix does not fit in the limit, an over-long text is
    replaced by the suffix alone, so the result is longer than the
    limit. *)
Theorem truncateText_suffix_too_long (text suffix : string) (maxLength : Z) :
  maxLength < Z.of_nat (JS.length suffix) ->
  maxLength < Z.of_nat (JS.length text) ->
  Helpers.truncateText text maxLength suffix = suffix /\
  maxLength < Z.of_nat (JS.length (Helpers.truncateText text maxLength suffix)).
Proof.
  intros Hsuffix Htext.
  assert (Heq : Helpers.truncateText text maxLength suffix = suffix).
  { unfold Helpers.truncateText.
    destruct (Z.leb_spec (Z.of_nat (JS.length text)) maxLength); [lia |].
    unfold JS.substring.
    rewrite (Z.max_r (maxLength - _) 0), Z.max_l, !Z.min_l by lia.
    rewrite Z.max_l by lia. simpl. by destruct text. }
  by rewrite Heq.
Qed.

Lemma truncateText_suffix_too_long_witness :
  Helpers.truncateText "abcdef" 2 "..." = "..." /\
  2 < Z.of_nat (JS.length (Helpers.truncateText "abcdef" 2 "...")).
Proof. apply (truncateText_suffix_too_long "abcdef" "..." 2); simpl; lia. Defined.

Lemma sanitizeFilename_cons (c : ascii) (rest : string) :
  Helpers.sanitizeFilename (String c rest)
  = String (JS.lower (if Helpers.filename_char c then c else "_"%char))
      (Helpers.sanitizeFilename rest).
Proof. reflexivity. Qed.

Lemma sanitized_char_lower (c : ascii) :
  sanitized_char (JS.lower (if Helpers.filename_char c then c else "_"%char)) = true.
Proof. destruct c as [[] [] [] [] [] [] [] []]; vm_compute; reflexivity. Qed.

Lemma sanitized_char_fixed (c : ascii) :
  sanitized_char c = true ->
  JS.lower (if Helpers.filename_char c then c else "_"%char) = c.
Proof. destruct c as [[] [] [] [] [] [] [] []]; vm_compute; congruence. Qed.

Lemma sanitizeFilename_fixed (filename : string) :
  all_chars sanitized_char filename = true ->
  Helpers.sanitizeFilename filename = filename.
Proof.
  induction filename as [| c rest IH]; [done |].
  cbn [all_chars]. intros [Hc Hrest]%andb_prop.
  by rewrite sanitizeFilename_cons, sanitized_char_fixed, IH.
Qed.

Lemma sanitizeFilename_chars (filename : string) :
  all_chars sanitized_char (Helpers.sanitizeFilename filename) = true.
Proof.
  induction filename as [| c rest IH]; [done |].
  rewrite sanitizeFilename_cons. cbn [all_chars].
  by rewrite sanitized_char_lower, IH.
Qed.

(** X4: a sanitized file name has as many characters as the name given,
    and each of them is a lower-case letter, a digit, a dot, an underscore
    or a hyphen; so it holds no path separator, space or upper-case
    letter. *)
Theorem sanitizeFilename_alphabet (filename : string) :
  all_chars sanitized_char (Helpers.sanitizeFilename filename) = true /\
  JS.length (Helpers.sanitizeFilename filename) = JS.length filename.
Proof.
  split; [apply sanitizeFilename_chars |].
  induction filename as [| c rest IH]; [done |].
  rewrite sanitizeFilename_cons. cbn [String.length]. by rewrite IH.
Qed.

(** X5: [sanitizeFilename] leaves a name of sanitized characters as it is,
    hence sanitizing twice is sanitizing once. *)
Theorem sanitizeFilename_idempotent (filename : string) :
  Helpers.sanitizeFilename (Helpers.sanitizeFilename filename)
  = Helpers.sanitizeFilename filename.
Proof. apply sanitizeFilename_fixed, sanitizeFilename_chars. Qed.

Example sanitizeFilename_test :
  Helpers.sanitizeFilename "Test File!@#$%^&*().mp3" = "test_file__________.mp3".
Proof. reflexivity. Qed.

(** *** chunkArray *)

Lemma slice_inside {A} (a : list A) (i size : Z) :
  0 <= i -> 0 <= size ->
  JS.slice a i (i + size) = take (Z.to_nat size) (drop (Z.to_nat i) a).
Proof.
  intros Hi Hsize. unfold JS.slice, JS.relative.
  destruct (Z.ltb_spec i 0); [lia |].
  destruct (Z.ltb_spec (i + size) 0); [lia |].
  set (len := Z.of_nat (length a)).
  destruct (Z.le_gt_cases i len) as [Hle | Hgt].
  - rewrite (Z.min_l i len) by lia.
    destruct (Z.le_gt_cases (i + size) len).
    + rewrite Z.min_l by lia. f_equal. lia.
    + rewrite Z.min_r by lia.
      rewrite !take_ge; [done | |]; rewrite length_drop; subst len; lia.
  - rewrite !drop_ge by (subst len; lia). by rewrite !take_nil.
Qed.

Lemma chunkLoop_spec {A} (fuel : nat) (array : list A) (size : nat) (i : nat)
    (chunks : list (list A)) :
  (1 <= size)%nat ->
  (length array - i < fuel)%nat ->
  exists rest,
    Helpers.chunkLoop fuel array (Z.of_nat size) (Z.of_nat i) chunks
      = Some (chunks ++ rest) /\
    concat rest = drop i array /\
    chunked size rest /\
    ((length array <= i)%nat -> rest = []).
Proof.
  intros Hsize. revert i chunks.
  induction fuel as [| fuel IH]; intros i chunks Hfuel; [lia |].
  cbn [Helpers.chunkLoop].
  destruct (Z.ltb_spec (Z.of_nat i) (Z.of_nat (length array))) as [Hlt | Hge].
  - destruct (IH (i + size)%nat
                (chunks ++ [JS.slice array (Z.of_nat i) (Z.of_nat i + Z.of_nat size)]))
      as (rest & Hrun & Hconcat & Hshape & Hlast); [lia |].
    rewrite Nat2Z.inj_add in Hrun. rewrite Hrun.
    rewrite slice_inside, !Nat2Z.id in * by lia.
    exists (take size (drop i array) :: rest). split; [by rewrite <- app_assoc |].
    split; [| split; [| lia]].
    + cbn [concat]. rewrite Hconcat, <- drop_drop. apply take_drop.
    + assert (Hlen : length (take size (drop i array))
                     = Nat.min size (length array - i)).
      { by rewrite length_take, length_drop. }
      destruct rest as [| c rest].
      * cbn [chunked]. lia.
      * cbn [chunked]. split; [| done].
        destruct (Nat.le_gt_cases (length array) (i + size)) as [Hend |]; [| lia].
        by specialize (Hlast Hend).
  - exists []. rewrite app_nil_r, drop_ge by lia. done.
Qed.

(** X6: for a size of at least one, [chunkArray] ends after at most
    [length array + 1] turns of its loop; the chunks concatenated give the
    array back, every chunk but the last has exactly [size] elements and
    the last one between one and [size]. *)
Theorem chunkArray_partitions {A} (fuel : nat) (array : list A) (size : nat) :
  (1 <= size)%nat ->
  (length array < fuel)%nat ->
  exists chunks,
    Helpers.chunkArray fuel array (Z.of_nat size) = Some chunks /\
    concat chunks = array /\
    chunked size chunks.
Proof.
  intros Hsize Hfuel.
  destruct (chunkLoop_spec fuel array size 0 [] Hsize) as (rest & Hrun & Hconcat & Hshape & _);
    [lia |].
  exists rest. by rewrite <- Hconcat at 2.
Qed.

Lemma chunkArray_partitions_witness :
  exists chunks,
    Helpers.chunkArray 6 [1; 2; 3; 4; 5] (Z.of_nat 2) = Some chunks /\
    concat chunks = [1; 2; 3; 4; 5] /\
    chunked 2 chunks.
Proof. apply (chunkArray_partitions 6 [1; 2; 3; 4; 5] 2); simpl; lia. Defined.

Lemma chunkLoop_stuck {A} (fuel : nat) (array : list A) (size i : Z)
    (chunks : list (list A)) :
  size <= 0 -> i <= 0 -> array <> [] ->
  Helpers.chunkLoop fuel array size i chunks = None.
Proof.
  intros Hsize Hi Harray. revert i chunks Hi.
  induction fuel as [| fuel IH]; intros i chunks Hi; [done |].
  cbn [Helpers.chunkLoop].
  destruct (Z.ltb_spec i (Z.of_nat (length array))) as [_ | Hge].
  - apply IH. lia.
  - destruct array; [done | cbn [length] in Hge; lia].
Qed.

(** X7: with a size of zero or less, the loop of [chunkArray] over a
    non-empty array never ends: however many turns are followed, no result
    has been returned. *)
Theorem chunkArray_diverges {A} (fuel : nat) (array : list A) (size : Z) :
  size <= 0 -> array <> [] ->
  Helpers.chunkArray fuel array size = None.
Proof. intros Hsize Harray. by apply chunkLoop_stuck. Qed.

Lemma chunkArray_diverges_witness :
  Helpers.chunkArray 1000 [1; 2; 3] 0 = None.
Proof. apply (chunkArray_diverges 1000 [1; 2; 3] 0); [lia | discriminate]. Defined.

(** *** extractHashtags *)

Lemma all_chars_app (P : ascii -> bool) (s t : string) :
  all_chars P (s +:+ t) = all_chars P s && all_chars P t.
Proof.
  induction s as [| c s IH]; [done |].
  rewrite string_app_cons. cbn [all_chars]. by rewrite IH, andb_assoc.
Qed.

Lemma string_app_nil_r (s : string) : s +:+ EmptyString = s.
Proof. induction s as [| c s IH]; [done | by rewrite string_app_cons, IH]. Qed.

Lemma string_app_assoc_r (s t u : string) : (s +:+ t) +:+ u = s +:+ (t +:+ u).
Proof. induction s as [| c s IH]; [done | by rewrite !string_app_cons, IH]. Qed.

Lemma reading_matched (current : option string) :
  reading current -> Forall hashtag (Helpers.matched current).
Proof.
  destruct current as [[| h [| c rest]] |]; cbn; try by constructor.
  intros (body & [= -> <-] & Hbody). repeat constructor. by exists c, rest.
Qed.

Lemma reading_opening (c : ascii) : reading (Helpers.opening c).
Proof.
  unfold Helpers.opening. destruct (Ascii.eqb c "#"); [| done].
  by exists EmptyString.
Qed.

Lemma string_snoc_cons (h c : ascii) (body : string) :
  String h body +:+ String c EmptyString = String h (body +:+ String c EmptyString).
Proof. apply string_app_cons. Qed.

Lemma hashtagScan_hashtags (text : string) (current : option string) :
  reading current -> Forall hashtag (Helpers.hashtagScan current text).
Proof.
  revert current. induction text as [| c rest IH]; intros current Hcur.
  - by apply reading_matched.
  - cbn [Helpers.hashtagScan]. destruct current as [tag |].
    + destruct (Helpers.word_char c) eqn:Hc.
      * apply IH. destruct Hcur as (body & -> & Hbody).
        exists (body +:+ String c EmptyString). split; [apply string_snoc_cons |].
        rewrite all_chars_app, Hbody. cbn [all_chars]. by rewrite Hc.
      * apply Forall_app. split; [by apply reading_matched |].
        apply IH, reading_opening.
    + apply IH, reading_opening.
Qed.

(** X8: every string [extractHashtags] returns is a [#] followed by at
    least one letter, digit or underscore, and by nothing else. *)
Theorem extractHashtags_wellformed (text : string) :
  Forall hashtag (Helpers.extractHashtags text).
Proof. by apply hashtagScan_hashtags. Qed.

Lemma hashtagScan_body (tag body text : string) :
  all_chars Helpers.word_char body = true ->
  Helpers.hashtagScan (Some tag) (body +:+ text)
  = Helpers.hashtagScan (Some (tag +:+ body)) text.
Proof.
  revert tag. induction body as [| c body IH]; intros tag.
  - intros _. by rewrite string_app_nil_r.
  - cbn [all_chars]. intros [Hc Hbody]%andb_prop.
    rewrite string_app_cons. cbn [Helpers.hashtagScan]. rewrite Hc, IH by done.
    by rewrite string_app_assoc_r.
Qed.

Lemma hashtagScan_tag (tag text : string) :
  hashtag tag ->
  Helpers.hashtagScan None (tag +:+ text)
  = Helpers.hashtagScan (Some tag) text.
Proof.
  intros (c & body & -> & Hbody).
  rewrite string_app_cons. cbn [Helpers.hashtagScan Helpers.opening Ascii.eqb].
  cbn. rewrite (hashtagScan_body "#" (String c body)) by done. done.
Qed.

Lemma hashtag_matched (tag : string) :
  hashtag tag -> Helpers.matched (Some tag) = [tag].
Proof. by intros (c & body & -> & _). Qed.

(** X9: the hashtags written out with a space between them are read back
    as they were: [extractHashtags (tags.join(' '))] is [tags]. *)
Theorem extractHashtags_join (tags : list string) :
  Forall hashtag tags ->
  Helpers.extractHashtags (JS.join " " tags) = tags.
Proof.
  unfold Helpers.extractHashtags.
  induction 1 as [| tag tags Htag Htags IH]; [done |].
  destruct tags as [| next tags].
  - cbn [JS.join]. rewrite <- (string_app_nil_r tag) at 1.
    rewrite hashtagScan_tag by done. cbn [Helpers.hashtagScan].
    by apply hashtag_matched.
  - change (JS.join " " (tag :: next :: tags))
      with (tag +:+ " " +:+ JS.join " " (next :: tags)).
    rewrite hashtagScan_tag by done.
    rewrite string_app_cons. cbn [Helpers.hashtagScan].
    destruct tag as [| h [| c rest]];
      try (by destruct Htag as (? & ? & [=] & _)).
    replace (Helpers.word_char " ") with false by reflexivity.
    cbn [Helpers.matched app]. f_equal.
    replace (Helpers.opening " ") with (@None string) by reflexivity.
    apply IH.
Qed.

Lemma extractHashtags_join_witness :
  Helpers.extractHashtags (JS.join " " ["#ai"; "#tech_2024"]) = ["#ai"; "#tech_2024"].
Proof.
  apply (extractHashtags_join ["#ai"; "#tech_2024"]).
  repeat constructor; eexists _, _; split; reflexivity.
Defined.

(** *** makeRequest *)

Lemma requestLoop_failed {A} (axios : Z -> response A) (retries : Z)
    (k remaining : nat) (i : Z) (log : list Helpers.Event) :
  (k <= remaining)%nat ->
  i + Z.of_nat k <= retries - 1 ->
  (forall j, i <= j < i + Z.of_nat k -> exists message, axios j = Rejected message) ->
  Helpers.requestLoop axios retries remaining i log
  = Helpers.requestLoop axios retries (remaining - k) (i + Z.of_nat k)
      (log ++ failed_turns k i).
Proof.
  revert remaining i log. induction k as [| k IH]; intros remaining i log Hk Hi Hfail.
  - by rewrite Nat.sub_0_r, Z.add_0_r, app_nil_r.
  - destruct remaining as [| remaining]; [lia |].
    cbn [Helpers.requestLoop failed_turns].
    destruct (Hfail i) as [message ->]; [lia |].
    destruct (Z.eqb_spec i (retries - 1)); [lia |].
    rewrite IH; [| lia | lia | intros j Hj; apply Hfail; lia].
    replace (i + Z.of_nat (S k)) with (i + 1 + Z.of_nat k) by lia.
    by rewrite <- app_assoc.
Qed.

Lemma requests_failed_turns (n : nat) (i : Z) :
  requests (failed_turns n i ++ [Helpers.Request]) = S n.
Proof. revert i. induction n as [| n IH]; intros i; cbn; [done | by rewrite IH]. Qed.

Lemma slept_failed_turns (n : nat) (i : Z) :
  0 <= i ->
  slept (failed_turns n i ++ [Helpers.Request])
  = (2 ^ (i + Z.of_nat n) - 2 ^ i) * 1000.
Proof.
  revert i. induction n as [| n IH]; intros i Hi.
  - cbn. rewrite Z.add_0_r. lia.
  - cbn [failed_turns app slept]. rewrite IH by lia.
    replace (i + 1 + Z.of_nat n) with (i + Z.of_nat (S n)) by lia.
    rewrite (Z.pow_add_r 2 i 1) by lia. lia.
Qed.

(** X10: when the requests of the first [k] turns are rejected and the
    next one, still within [retries], is answered, [makeRequest] returns
    that answer after [k + 1] requests, having paused 1000, 2000, 4000,
    ... milliseconds after each rejection: [(2^k - 1) * 1000] in all. *)
Theorem makeRequest_first_success {A} (axios : Z -> response A) (retries : Z)
    (k : nat) (data : A) :
  Z.of_nat k < retries ->
  (forall j, 0 <= j < Z.of_nat k -> exists message, axios j = Rejected message) ->
  axios (Z.of_nat k) = Resolved data ->
  Helpers.makeRequest axios retries
    = (Ok (Some data), failed_turns k 0 ++ [Helpers.Request]) /\
  requests (snd (Helpers.makeRequest axios retries)) = S k /\
  slept (snd (Helpers.makeRequest axios retries)) = (2 ^ Z.of_nat k - 1) * 1000.
Proof.
  intros Hk Hfail Hdata.
  assert (Hrun : Helpers.makeRequest axios retries
                 = (Ok (Some data), failed_turns k 0 ++ [Helpers.Request])).
  { unfold Helpers.makeRequest.
    rewrite (requestLoop_failed axios retries k) by (done || lia).
    destruct (Z.to_nat retries - k)%nat as [| remaining] eqn:Hrem; [lia |].
    cbn [Helpers.requestLoop]. by rewrite Z.add_0_l, Hdata. }
  rewrite Hrun. cbn [snd].
  by rewrite requests_failed_turns, slept_failed_turns.
Qed.

Lemma makeRequest_first_success_witness :
  let axios := fun i : Z => if i <? 2 then Rejected "timeout" else Resolved 7 in
  Helpers.makeRequest axios 3
    = (Ok (Some 7), failed_turns 2 0 ++ [Helpers.Request]) /\
  requests (snd (Helpers.makeRequest axios 3)) = 3%nat /\
  slept (snd (Helpers.makeRequest axios 3)) = (2 ^ Z.of_nat 2 - 1) * 1000.
Proof.
  intros axios. apply (makeRequest_first_success axios 3 2 7).
  - lia.
  - intros j Hj. exists "timeout". unfold axios.
    destruct (Z.ltb_spec j 2); [reflexivity | simpl in Hj; lia].
  - reflexivity.
Defined.

(** X11: when every request is rejected, [makeRequest] throws the error
    of the last one after exactly [retries] requests; it pauses after
    each rejection but the last, [(2^(retries-1) - 1) * 1000]
    milliseconds in all. *)
Theorem makeRequest_exhausted {A} (axios : Z -> response A) (retries : Z)
    (message : string) :
  1 <= retries ->
  (forall j, 0 <= j < retries - 1 -> exists message, axios j = Rejected message) ->
  axios (retries - 1) = Rejected message ->
  Helpers.makeRequest axios retries
    = (Throw (Failure "axios" message),
       failed_turns (Z.to_nat (retries - 1)) 0 ++ [Helpers.Request]) /\
  requests (snd (Helpers.makeRequest axios retries)) = Z.to_nat retries /\
  slept (snd (Helpers.makeRequest axios retries)) = (2 ^ (retries - 1) - 1) * 1000.
Proof.
  intros Hretries Hfail Hlast.
  assert (Hrun : Helpers.makeRequest axios retries
                 = (Throw (Failure "axios" message),
                    failed_turns (Z.to_nat (retries - 1)) 0 ++ [Helpers.Request])).
  { unfold Helpers.makeRequest.
    rewrite (requestLoop_failed axios retries (Z.to_nat (retries - 1)));
      [| lia | lia | intros j Hj; apply Hfail; lia].
    destruct (Z.to_nat retries - Z.to_nat (retries - 1))%nat as [| remaining] eqn:Hrem;
      [lia |].
    cbn [Helpers.requestLoop].
    rewrite Z.add_0_l, Z2Nat.id, Hlast by lia.
    by rewrite Z.eqb_refl. }
  rewrite Hrun. cbn [snd].
  rewrite requests_failed_turns, slept_failed_turns by lia.
  rewrite Z.add_0_l, Z2Nat.id by lia. split; [done |]. split; [lia | done].
Qed.

Lemma makeRequest_exhausted_witness :
  let axios := fun _ : Z => @Rejected nat "ECONNRESET" in
  Helpers.makeRequest axios 3
    = (Throw (Failure "axios" "ECONNRESET"),
       failed_turns (Z.to_nat (3 - 1)) 0 ++ [Helpers.Request]) /\
  requests (snd (Helpers.makeRequest axios 3)) = Z.to_nat 3 /\
  slept (snd (Helpers.makeRequest axios 3)) = (2 ^ (3 - 1) - 1) * 1000.
Proof.
  intros axios. apply (makeRequest_exhausted axios 3 "ECONNRESET").
  - lia.
  - intros j _. by exists "ECONNRESET".
  - reflexivity.
Defined.

(** X12: with [retries] zero or less [makeRequest] sends nothing and
    resolves to [undefined], whatever the server would have answered. *)
Theorem makeRequest_no_retries {A} (axios : Z -> response A) (retries : Z) :
  retries <= 0 ->
  Helpers.makeRequest axios retries = (Ok None, []).
Proof.
  intros Hretries. unfold Helpers.makeRequest.
  by replace (Z.to_nat retries) with O by lia.
Qed.

Lemma makeRequest_no_retries_witness :
  Helpers.makeRequest (fun _ : Z => Resolved 7) 0 = (Ok None, []).
Proof. apply (makeRequest_no_retries (fun _ : Z => Resolved 7) 0). lia. Defined.

End HelperFacts.

(** ** modules/platformIntegration/platformIntegration.service.js *)

Section PlatformFacts.

Import PlatformIntegrationService.

Variable tokens : Tokens.

Ltac post_branches f :=
  unfold f, failed;
  repeat match goal with
         | |- context [if negb (JS.truthy ?t) then _ else _] =>
             destruct (JS.truthy t); cbn [negb]
         | |- context [match ?c with Some _ => _ | None => _ end] =>
             destruct c
         | |- context [match ?r with Resolved _ => _ | Rejected _ => _ end] =>
             let H := fresh "Hpost" in destruct r eqn:H
         end.

Lemma postToInstagram_wellformed axios_post caption hashtags :
  wellformed "instagram" (postToInstagram tokens axios_post caption hashtags).
Proof. post_branches postToInstagram; repeat split; eauto. Qed.

Lemma postToTikTok_wellformed axios_post caption hashtags :
  wellformed "tiktok" (postToTikTok tokens axios_post caption hashtags).
Proof. post_branches postToTikTok; repeat split; eauto. Qed.

Lemma postToFacebook_wellformed axios_post message hashtags :
  wellformed "facebook" (postToFacebook tokens axios_post message hashtags).
Proof. post_branches postToFacebook; repeat split; eauto. Qed.

Lemma postToLinkedIn_wellformed axios_post text hashtags :
  wellformed "linkedin" (postToLinkedIn tokens axios_post text hashtags).
Proof. post_branches postToLinkedIn; repeat split; eauto. Qed.

End PlatformFacts.

(** X13: whatever the tokens, the texts and the upstream answers, each of
    the four posting functions returns a record under its own platform
    name, which on success carries a post identifier and no error and on
    failure an error message and neither identifier nor link. *)
Theorem post_outcomes_wellformed
    (tokens : PlatformIntegrationService.Tokens)
    (axios_post : PlatformIntegrationService.Endpoint -> string -> response string)
    (body : option string) (hashtags : list string) :
  wellformed "instagram"
    (PlatformIntegrationService.postToInstagram tokens axios_post body hashtags) /\
  wellformed "tiktok"
    (PlatformIntegrationService.postToTikTok tokens axios_post body hashtags) /\
  wellformed "facebook"
    (PlatformIntegrationService.postToFacebook tokens axios_post body hashtags) /\
  wellformed "linkedin"
    (PlatformIntegrationService.postToLinkedIn tokens axios_post body hashtags).
Proof.
  split; [apply postToInstagram_wellformed |].
  split; [apply postToTikTok_wellformed |].
  split; [apply postToFacebook_wellformed | apply postToLinkedIn_wellformed].
Qed.

(** X14: a platform whose access token is missing or empty is never
    contacted: whatever the upstream would answer, the posting function
    returns the failure record with the message that the token is not
    configured. *)
Theorem missing_token_fails
    (tokens : PlatformIntegrationService.Tokens)
    (axios_post : PlatformIntegrationService.Endpoint -> string -> response string)
    (body : option string) (hashtags : list string) :
  (JS.truthy (PlatformIntegrationService.instagram tokens) = false ->
   PlatformIntegrationService.postToInstagram tokens axios_post body hashtags
   = PlatformIntegrationService.failed "instagram"
       "Instagram access token not configured") /\
  (JS.truthy (PlatformIntegrationService.tiktok tokens) = false ->
   PlatformIntegrationService.postToTikTok tokens axios_post body hashtags
   = PlatformIntegrationService.failed "tiktok"
       "TikTok access token not configured") /\
  (JS.truthy (PlatformIntegrationService.facebook tokens) = false ->
   PlatformIntegrationService.postToFacebook tokens axios_post body hashtags
   = PlatformIntegrationService.failed "facebook"
       "Facebook access token not configured") /\
  (JS.truthy (PlatformIntegrationService.linkedin tokens) = false ->
   PlatformIntegrationService.postToLinkedIn tokens axios_post body hashtags
   = PlatformIntegrationService.failed "linkedin"
       "LinkedIn access token not configured").
Proof.
  unfold PlatformIntegrationService.postToInstagram,
    PlatformIntegrationService.postToTikTok,
    PlatformIntegrationService.postToFacebook,
    PlatformIntegrationService.postToLinkedIn.
  repeat split; intros ->; reflexivity.
Qed.

Lemma missing_token_fails_witness :
  PlatformIntegrationService.postToInstagram no_tokens facebook_down (Some "Hi") ["#a"]
  = PlatformIntegrationService.failed "instagram"
      "Instagram access token not configured" /\
  PlatformIntegrationService.postToLinkedIn no_tokens facebook_down (Some "Hi") ["#a"]
  = PlatformIntegrationService.failed "linkedin"
      "LinkedIn access token not configured".
Proof.
  destruct (missing_token_fails no_tokens facebook_down (Some "Hi") ["#a"])
    as (Hinstagram & _ & _ & Hlinkedin).
  split; [apply Hinstagram | apply Hlinkedin]; reflexivity.
Defined.

Section TextLimits.

Import PlatformIntegrationService.

Variable tokens : Tokens.
Variables axios_post axios_post' : Endpoint -> string -> response string.
Hypothesis agree :
  forall endpoint text,
    within_limit endpoint text -> axios_post endpoint text = axios_post' endpoint text.

Lemma truncateText_default (text : string) (max : nat) :
  (3 <= max)%nat ->
  (JS.length (Helpers.truncateText text (Z.of_nat max) Helpers.default_suffix) <= max)%nat.
Proof.
  intros Hmax.
  pose proof (truncateText_fits text Helpers.default_suffix (Z.of_nat max)) as Hfit.
  cbn in Hfit. lia.
Qed.

Lemma postToInstagram_agree caption hashtags :
  postToInstagram tokens axios_post caption hashtags
  = postToInstagram tokens axios_post' caption hashtags.
Proof.
  unfold postToInstagram. destruct (negb _); [done |].
  destruct caption as [caption |]; [| done].
  rewrite <- agree by (apply (truncateText_default _ (Z.to_nat 2200)); lia).
  destruct (axios_post InstagramMedia _) as [creationId |]; [| done].
  by rewrite <- agree.
Qed.

Lemma postToTikTok_agree caption hashtags :
  postToTikTok tokens axios_post caption hashtags
  = postToTikTok tokens axios_post' caption hashtags.
Proof.
  unfold postToTikTok. destruct (negb _); [done |].
  destruct caption as [caption |]; [| done].
  by rewrite <- agree by (apply (truncateText_default _ (Z.to_nat 150)); lia).
Qed.

Lemma postToFacebook_agree message hashtags :
  postToFacebook tokens axios_post message hashtags
  = postToFacebook tokens axios_post' message hashtags.
Proof.
  unfold postToFacebook. destruct (negb _); [done |].
  destruct message as [message |]; [| done].
  by rewrite <- agree.
Qed.

Lemma postToLinkedIn_agree text hashtags :
  postToLinkedIn tokens axios_post text hashtags
  = postToLinkedIn tokens axios_post' text hashtags.
Proof.
  unfold postToLinkedIn. destruct (negb _); [done |].
  destruct text as [text |]; [| done].
  by rewrite <- agree by (apply (truncateText_default _ (Z.to_nat 3000)); lia).
Qed.

End TextLimits.

(** X15: no posting function sends Instagram a caption of more than 2200
    characters, TikTok a title of more than 150 or LinkedIn a text of more
    than 3000: two upstreams that answer alike on every text within these
    limits give the same records, whatever body and hashtags are
    posted. *)
Theorem posted_texts_within_limits
    (tokens : PlatformIntegrationService.Tokens)
    (axios_post axios_post' :
       PlatformIntegrationService.Endpoint -> string -> response string)
    (body : option string) (hashtags : list string) :
  (forall endpoint text,
     within_limit endpoint text -> axios_post endpoint text = axios_post' endpoint text) ->
  PlatformIntegrationService.postToInstagram tokens axios_post body hashtags
  = PlatformIntegrationService.postToInstagram tokens axios_post' body hashtags /\
  PlatformIntegrationService.postToTikTok tokens axios_post body hashtags
  = PlatformIntegrationService.postToTikTok tokens axios_post' body hashtags /\
  PlatformIntegrationService.postToFacebook tokens axios_post body hashtags
  = PlatformIntegrationService.postToFacebook tokens axios_post' body hashtags /\
  PlatformIntegrationService.postToLinkedIn tokens axios_post body hashtags
  = PlatformIntegrationService.postToLinkedIn tokens axios_post' body hashtags.
Proof.
  intros Hagree.
  split; [by apply postToInstagram_agree |].
  split; [by apply postToTikTok_agree |].
  split; [by apply postToFacebook_agree | by apply postToLinkedIn_agree].
Qed.

Lemma posted_texts_within_limits_witness :
  let body := Some (repeat_char "a" 4000) in
  PlatformIntegrationService.postToInstagram all_tokens lenient_upstream body ["#a"]
  = PlatformIntegrationService.postToInstagram all_tokens strict_upstream body ["#a"] /\
  PlatformIntegrationService.postToTikTok all_tokens lenient_upstream body ["#a"]
  = PlatformIntegrationService.postToTikTok all_tokens strict_upstream body ["#a"] /\
  PlatformIntegrationService.postToFacebook all_tokens lenient_upstream body ["#a"]
  = PlatformIntegrationService.postToFacebook all_tokens strict_upstream body ["#a"] /\
  PlatformIntegrationService.postToLinkedIn all_tokens lenient_upstream body ["#a"]
  = PlatformIntegrationService.postToLinkedIn all_tokens strict_upstream body ["#a"].
Proof.
  intros body.
  apply (posted_texts_within_limits all_tokens lenient_upstream strict_upstream).
  intros endpoint text.
  destruct endpoint; cbn [within_limit strict_upstream lenient_upstream];
    intros Hlimit; try reflexivity;
    apply Nat.leb_le in Hlimit; rewrite Hlimit; reflexivity.
Defined.

Section AllPlatforms.

Import PlatformIntegrationService.

Variable tokens : Tokens.
Variable axios_post : Endpoint -> string -> response string.

Lemma successes_failures (results : list Outcome.t) :
  (length (filter (fun r => Outcome.success r = true) results)
   + length (filter (fun r => Outcome.success r = false) results))%nat
  = length results.
Proof.
  induction results as [| r results IH]; [done |].
  destruct (Outcome.success r) eqn:Hr.
  - rewrite filter_cons_True, filter_cons_False by congruence.
    cbn [length]. lia.
  - rewrite filter_cons_False, filter_cons_True by congruence.
    cbn [length]. lia.
Qed.

End AllPlatforms.

(** X16: [postToAllPlatforms] always returns four records, in the order
    Instagram, TikTok, Facebook, LinkedIn, each under its platform's name;
    [total] is four and [successful] and [failed] add up to it. *)
Theorem postToAllPlatforms_accounts
    (tokens : PlatformIntegrationService.Tokens)
    (axios_post : PlatformIntegrationService.Endpoint -> string -> response string)
    (platformOptions : PlatformIntegrationService.PlatformOptions) :
  let summary :=
    PlatformIntegrationService.postToAllPlatforms tokens axios_post platformOptions in
  map Outcome.platform (Summary.results summary)
    = ["instagram"; "tiktok"; "facebook"; "linkedin"] /\
  Summary.total summary = 4%nat /\
  (Summary.successful summary + Summary.failed summary)%nat = Summary.total summary /\
  Summary.successful summary
    = length (filter (fun r => Outcome.success r = true) (Summary.results summary)).
Proof.
  intros summary. split; [| split; [done | split; [| done]]].
  - unfold summary, PlatformIntegrationService.postToAllPlatforms.
    cbn [Summary.results map].
    by rewrite postToInstagram_platform, postToTikTok_platform,
      postToFacebook_platform, postToLinkedIn_platform.
  - apply successes_failures.
Qed.

(** X17: called without options for the platforms, as its default has
    it, [postToAllPlatforms] posts nothing: whatever the tokens and the
    upstream, all four records are failures. *)
Theorem postToAllPlatforms_default_fails
    (tokens : PlatformIntegrationService.Tokens)
    (axios_post : PlatformIntegrationService.Endpoint -> string -> response string) :
  let summary :=
    PlatformIntegrationService.postToAllPlatforms tokens axios_post
      no_platform_options in
  Summary.successful summary = 0%nat /\
  Summary.failed summary = 4%nat /\
  Forall (fun r => Outcome.success r = false /\ is_Some (Outcome.error r))
    (Summary.results summary).
Proof.
  unfold PlatformIntegrationService.postToAllPlatforms, no_platform_options.
  cbn [PlatformIntegrationService.for_instagram PlatformIntegrationService.for_tiktok
       PlatformIntegrationService.for_facebook PlatformIntegrationService.for_linkedin
       default PlatformIntegrationService.no_options
       PlatformIntegrationService.caption PlatformIntegrationService.message
       PlatformIntegrationService.text PlatformIntegrationService.hashtags].
  unfold PlatformIntegrationService.postToInstagram,
    PlatformIntegrationService.postToTikTok,
    PlatformIntegrationService.postToFacebook,
    PlatformIntegrationService.postToLinkedIn.
  destruct (negb (JS.truthy (PlatformIntegrationService.instagram tokens))),
    (negb (JS.truthy (PlatformIntegrationService.tiktok tokens))),
    (negb (JS.truthy (PlatformIntegrationService.facebook tokens))),
    (negb (JS.truthy (PlatformIntegrationService.linkedin tokens)));
    (split; [reflexivity | split; [reflexivity |]]);
    repeat constructor; eauto.
Qed.

(** ** services/contentOrchestrator.js: the generation pipeline *)

Section PipelineFacts.

Import ContentOrchestrator.

Variable log10_approx : Q -> Q.
Variable clock : nat -> Z.
Variable youtube_search_list : string -> Z -> string -> response (list Trend.t).
Variable providers : Providers.
Variable n8n_enabled : bool.
Variable n8n_webhookUrl : option string.
Variable webhook_post : Content.t -> response unit.

Ltac unfold_generation :=
  unfold generation, Pipeline.run, generateCompleteContent, discoverTopic,
    mbind, pipeline_bind, Pipeline.bind, Pipeline.await, Pipeline.call,
    Pipeline.ret, Pipeline.throw, Pipeline.attempt, discovers, notifies.

Ltac provider_cases :=
  repeat match goal with
         | |- context [match ?r with Resolved _ => _ | Rejected _ => _ end] =>
             destruct r
         end.

Ltac not_called :=
  let Hin := fresh "Hin" in
  intros _ Hin;
  repeat (apply elem_of_cons in Hin as [Hin | Hin]; [discriminate Hin |]);
  by apply elem_of_nil in Hin.

Lemma generation_schedule contentId options :
  let run :=
    generation log10_approx clock youtube_search_list providers n8n_enabled
      n8n_webhookUrl webhook_post contentId options in
  let plan := schedule (discovers options) (notifies n8n_enabled n8n_webhookUrl) in
  run.2 `prefix_of` plan /\
  (returned run.1 = true -> run.2 = plan) /\
  (returned run.1 = false -> Pipeline.NotifyN8N ∉ run.2).
Proof.
  cbv zeta. unfold_generation. unfold schedule, generation_steps.
  destruct (autoDiscoverTrend options && negb (JS.truthy (topic options))) eqn:Hd.
  - destruct (TrendDiscoveryService.getTrendingTopicsForNiche _ _ _ _)
      as [trends | e]; cbn [fst snd app returned].
    + rewrite !or_else_truthy by discriminate. cbn [negb].
      provider_cases; destruct (n8n_enabled && JS.truthy n8n_webhookUrl);
        cbn [fst snd app returned];
        (split; [by eexists | split; [done || by intros [=] |]]);
        (done || not_called).
    + split; [by eexists | split; [by intros [=] | not_called]].
  - destruct (JS.truthy (topic options)); cbn [negb fst snd app returned].
    + provider_cases; destruct (n8n_enabled && JS.truthy n8n_webhookUrl);
        cbn [fst snd app returned];
        (split; [by eexists | split; [done || by intros [=] |]]);
        (done || not_called).
    + split; [by eexists | split; [by intros [=] | not_called]].
Qed.

Lemma generation_artifact contentId options content :
  (generation log10_approx clock youtube_search_list providers n8n_enabled
     n8n_webhookUrl webhook_post contentId options).1 = Ok content ->
  Content.id content = contentId /\
  Content.niche content = Some (niche options) /\
  Content.duration content = Some (duration options) /\
  Content.platforms content = platforms options /\
  Content.status content = Some "generated" /\
  is_Some (Content.fullScript content) /\
  is_Some (Content.voiceover content) /\
  is_Some (Content.thumbnails content) /\
  is_Some (Content.seoMetadata content).
Proof.
  unfold_generation.
  destruct (autoDiscoverTrend options && negb (JS.truthy (topic options))).
  - destruct (TrendDiscoveryService.getTrendingTopicsForNiche _ _ _ _)
      as [trends | e]; [| discriminate].
    rewrite !or_else_truthy by discriminate. cbn [negb].
    provider_cases; destruct (n8n_enabled && JS.truthy n8n_webhookUrl);
      cbn [fst]; intros [= <-]; repeat split; eauto.
  - destruct (JS.truthy (topic options)); [| discriminate]. cbn [negb].
    provider_cases; destruct (n8n_enabled && JS.truthy n8n_webhookUrl);
      cbn [fst]; intros [= <-]; repeat split; eauto.
Qed.

Lemma schedule_no_discovery notify calls :
  calls `prefix_of` schedule false notify -> Pipeline.DiscoverTrends ∉ calls.
Proof.
  intros [rest Hplan] Hin.
  assert (Hplanned : Pipeline.DiscoverTrends ∈ schedule false notify).
  { rewrite Hplan. apply elem_of_app. by left. }
  clear -Hplanned. destruct notify; cbn in Hplanned;
    repeat (apply elem_of_cons in Hplanned as [Hplanned | Hplanned];
            [discriminate Hplanned |]);
    by apply elem_of_nil in Hplanned.
Qed.

End PipelineFacts.

(** X18: [generateCompleteContent] calls its collaborators in one fixed
    order: trend discovery when it is due, the seven generation steps,
    the webhook when it is due.  The calls of a run are a prefix of that
    plan; a run that returns an artifact has made all of them, and the
    webhook is called exactly when it is due and the artifact has been
    built. *)
Theorem generation_follows_schedule
    (log10_approx : Q -> Q) (clock : nat -> Z)
    (youtube_search_list : string -> Z -> string -> response (list Trend.t))
    (providers : ContentOrchestrator.Providers)
    (n8n_enabled : bool) (n8n_webhookUrl : option string)
    (webhook_post : Content.t -> response unit)
    (contentId : string) (options : ContentOrchestrator.Options) :
  let run :=
    generation log10_approx clock youtube_search_list providers n8n_enabled
      n8n_webhookUrl webhook_post contentId options in
  let plan := schedule (discovers options) (notifies n8n_enabled n8n_webhookUrl) in
  run.2 `prefix_of` plan /\
  (returned run.1 = true -> run.2 = plan) /\
  (Pipeline.NotifyN8N ∈ run.2 <->
   returned run.1 = true /\ notifies n8n_enabled n8n_webhookUrl = true).
Proof.
  intros run plan.
  destruct (generation_schedule log10_approx clock youtube_search_list providers
              n8n_enabled n8n_webhookUrl webhook_post contentId options)
    as (Hprefix & Hdone & Hfailed).
  fold run plan in Hprefix, Hdone, Hfailed.
  split; [done | split; [done |]]. split.
  - intros Hin. destruct (returned run.1) eqn:Hret; [| by destruct Hfailed].
    split; [done |]. rewrite (Hdone eq_refl) in Hin.
    destruct (notifies n8n_enabled n8n_webhookUrl); [done |]. exfalso.
    unfold plan, schedule, generation_steps in Hin.
    destruct (discovers options); cbn in Hin;
      repeat (apply elem_of_cons in Hin as [Hin | Hin]; [discriminate Hin |]);
      by apply elem_of_nil in Hin.
  - intros [Hret Hnotify]. rewrite (Hdone Hret). unfold plan, schedule.
    rewrite Hnotify, !elem_of_app. right. right. apply elem_of_cons. by left.
Qed.

(** X19: when a non-empty topic is supplied, trend discovery is not
    called, even with [autoDiscoverTrend] on, and an artifact that is
    returned carries exactly the supplied topic. *)
Theorem supplied_topic_used
    (log10_approx : Q -> Q) (clock : nat -> Z)
    (youtube_search_list : string -> Z -> string -> response (list Trend.t))
    (providers : ContentOrchestrator.Providers)
    (n8n_enabled : bool) (n8n_webhookUrl : option string)
    (webhook_post : Content.t -> response unit)
    (contentId : string) (options : ContentOrchestrator.Options) :
  let run :=
    generation log10_approx clock youtube_search_list providers n8n_enabled
      n8n_webhookUrl webhook_post contentId options in
  JS.truthy (ContentOrchestrator.topic options) = true ->
  (Pipeline.DiscoverTrends ∉ run.2) /\
  head run.2 = Some Pipeline.GenerateVideoScript /\
  forall content,
    run.1 = Ok content -> Content.topic content = ContentOrchestrator.topic options.
Proof.
  intros run Htopic.
  pose proof (generation_schedule log10_approx clock youtube_search_list providers
                n8n_enabled n8n_webhookUrl webhook_post contentId options)
    as (Hprefix & _).
  pose proof (generation_cases log10_approx clock youtube_search_list providers
                n8n_enabled n8n_webhookUrl webhook_post contentId options) as Hcases.
  cbv zeta in Hprefix, Hcases. fold run in Hprefix, Hcases.
  unfold discovers in Hprefix.
  rewrite Htopic, andb_false_r in Hprefix, Hcases. rewrite Htopic in Hcases.
  destruct Hcases as (outcome & rest & Hrun & _ & Hcontent).
  split; [by eapply schedule_no_discovery |].
  rewrite Hrun. split; [done |].
  intros content Hok. cbn [fst] in Hok. rewrite (Hcontent content Hok).
  destruct (ContentOrchestrator.topic options) as [t |]; [done | discriminate].
Qed.

Lemma supplied_topic_used_witness :
  let run :=
    generation log10_digits fixed_clock empty_search answering_providers false None
      (fun _ => Resolved tt) "1700000000000-abc" with_topic in
  (Pipeline.DiscoverTrends ∉ run.2) /\
  head run.2 = Some Pipeline.GenerateVideoScript /\
  forall content,
    run.1 = Ok content ->
    Content.topic content = ContentOrchestrator.topic with_topic.
Proof.
  apply (supplied_topic_used log10_digits fixed_clock empty_search answering_providers
           false None (fun _ => Resolved tt) "1700000000000-abc" with_topic).
  reflexivity.
Defined.

(** X20: an artifact [generateCompleteContent] returns is complete: it
    has the identifier generated for the run, the niche, duration and
    platforms of the options, the status [generated], a non-empty topic,
    and a script, a voiceover, thumbnails and SEO metadata. *)
Theorem generated_artifact_complete
    (log10_approx : Q -> Q) (clock : nat -> Z)
    (youtube_search_list : string -> Z -> string -> response (list Trend.t))
    (providers : ContentOrchestrator.Providers)
    (n8n_enabled : bool) (n8n_webhookUrl : option string)
    (webhook_post : Content.t -> response unit)
    (contentId : string) (options : ContentOrchestrator.Options)
    (content : Content.t) :
  (generation log10_approx clock youtube_search_list providers n8n_enabled
     n8n_webhookUrl webhook_post contentId options).1 = Ok content ->
  JS.truthy (Content.topic content) = true /\
  Content.id content = contentId /\
  Content.niche content = Some (ContentOrchestrator.niche options) /\
  Content.duration content = Some (ContentOrchestrator.duration options) /\
  Content.platforms content = ContentOrchestrator.platforms options /\
  Content.status content = Some "generated" /\
  is_Some (Content.fullScript content) /\
  is_Some (Content.voiceover content) /\
  is_Some (Content.thumbnails content) /\
  is_Some (Content.seoMetadata content).
Proof.
  intros Hok. split; [| by eapply generation_artifact].
  pose proof (generation_cases log10_approx clock youtube_search_list providers
                n8n_enabled n8n_webhookUrl webhook_post contentId options) as Hcases.
  cbv zeta in Hcases.
  destruct (ContentOrchestrator.autoDiscoverTrend options
            && negb (JS.truthy (ContentOrchestrator.topic options))).
  - destruct (TrendDiscoveryService.getTrendingTopicsForNiche _ _ _ _)
      as [trends | e].
    + unfold discovered_topic in Hcases.
      rewrite or_else_truthy in Hcases by discriminate.
      destruct Hcases as (outcome & rest & Hrun & _ & Hcontent).
      rewrite Hrun in Hok. rewrite (Hcontent content Hok).
      by apply or_else_truthy.
    + rewrite Hcases in Hok. discriminate Hok.
  - destruct (JS.truthy (ContentOrchestrator.topic options)) eqn:Htopic.
    + destruct Hcases as (outcome & rest & Hrun & _ & Hcontent).
      rewrite Hrun in Hok. rewrite (Hcontent content Hok).
      by destruct (ContentOrchestrator.topic options).
    + rewrite Hcases in Hok. discriminate Hok.
Qed.

Lemma generated_artifact_complete_witness :
  exists content,
    (generation log10_digits fixed_clock empty_search answering_providers true
       (Some "https://n8n.example/webhook/content-ready")
       (fun _ => Rejected "ECONNREFUSED") "1700000000000-abc" with_topic).1
    = Ok content /\
    JS.truthy (Content.topic content) = true /\
    Content.id content = "1700000000000-abc" /\
    Content.niche content = Some (ContentOrchestrator.niche with_topic) /\
    Content.duration content = Some (ContentOrchestrator.duration with_topic) /\
    Content.platforms content = ContentOrchestrator.platforms with_topic /\
    Content.status content = Some "generated" /\
    is_Some (Content.fullScript content) /\
    is_Some (Content.voiceover content) /\
    is_Some (Content.thumbnails content) /\
    is_Some (Content.seoMetadata content).
Proof.
  eexists. split; [reflexivity |].
  apply (generated_artifact_complete log10_digits fixed_clock empty_search
           answering_providers true
           (Some "https://n8n.example/webhook/content-ready")
           (fun _ => Rejected "ECONNREFUSED") "1700000000000-abc" with_topic).
  reflexivity.
Defined.

(** ** modules/trendDiscovery: topics for a niche *)

Section NicheFacts.

Variable log10_approx : Q -> Q.
Variable clock : nat -> Z.
Variable youtube_search_list : string -> Z -> string -> response (list Trend.t).

Lemma niche_analysis_perm (items : list Trend.t) :
  map Analyzed.trend
    (TrendDiscoveryService.analyzeTrends log10_approx clock
       (map TrendDiscoveryService.placeholder (map TrendDiscoveryService.video items)))
  ≡ₚ map TrendDiscoveryService.placeholder (map TrendDiscoveryService.video items).
Proof.
  unfold TrendDiscoveryService.analyzeTrends.
  by rewrite sort_perm, analyzed_trends.
Qed.

Lemma placeholder_measured (item : Trend.t) :
  is_Some (Trend.publishedAt item) ->
  measured (TrendDiscoveryService.placeholder (TrendDiscoveryService.video item)).
Proof.
  intros [ms Hms]. exists (inject_Z 100000), (inject_Z 5000), (inject_Z 500), ms.
  repeat split; done.
Qed.

Lemma niche_analysis_sorted (items : list Trend.t) :
  Forall (fun item => is_Some (Trend.publishedAt item)) items ->
  StronglySorted score_ge
    (TrendDiscoveryService.analyzeTrends log10_approx clock
       (map TrendDiscoveryService.placeholder (map TrendDiscoveryService.video items))).
Proof.
  intros Hdated. apply sort_sorted. unfold TrendDiscoveryService.analyzed.
  apply (Forall_imap_impl measured); [intros i t; apply measured_scored |].
  rewrite !Forall_fmap. eapply Forall_impl; [exact Hdated |].
  intros item. apply placeholder_measured.
Qed.

Lemma sorted_app_inv {A} (R : A -> A -> Prop) (l1 l2 : list A) :
  StronglySorted R (l1 ++ l2) ->
  StronglySorted R l1 /\ forall a b, a ∈ l1 -> b ∈ l2 -> R a b.
Proof.
  induction l1 as [| x l1 IH]; cbn [app].
  - intros _. split; [constructor |]. intros a b Ha. by apply elem_of_nil in Ha.
  - intros Hsorted. apply StronglySorted_inv in Hsorted as [Hrest Hx].
    destruct (IH Hrest) as [Hl1 Hcross].
    apply Forall_app in Hx as [Hx1 Hx2]. split; [by constructor |].
    intros a b [-> | Ha]%elem_of_cons Hb.
    + by eapply Forall_forall in Hx2.
    + by apply Hcross.
Qed.

End NicheFacts.

(** X21: [getTrendingTopicsForNiche] throws in two cases only: when the
    keyword search is rejected, with that message behind the prefix
    [Keyword search failed: ], and when the niche names a property every
    object inherits, with the type error of calling [join] on it. *)
Theorem niche_topics_failures (log10_approx : Q -> Q) (clock : nat -> Z)
    (youtube_search_list : string -> Z -> string -> response (list Trend.t))
    (niche : string) (e : Error) :
  TrendDiscoveryService.getTrendingTopicsForNiche log10_approx clock
    youtube_search_list niche = Throw e <->
  (TrendDiscoveryService.getNicheKeywords niche = None /\
   e = Failure "TypeError" "keywords.join is not a function") \/
  (exists keywords message,
     TrendDiscoveryService.getNicheKeywords niche = Some keywords /\
     youtube_search_list (JS.join " " keywords) 15 "viewCount" = Rejected message /\
     e = Failure "searchTrendingKeywords" ("Keyword search failed: " +:+ message)).
Proof.
  unfold TrendDiscoveryService.getTrendingTopicsForNiche,
    TrendDiscoveryService.searchTrendingKeywords.
  destruct (TrendDiscoveryService.getNicheKeywords niche) as [keywords |].
  - destruct (youtube_search_list (JS.join " " keywords) 15 "viewCount")
      as [items | message] eqn:Hsearch.
    + split; [discriminate |].
      intros [[[=] _] | (k & m & [= <-] & Hrej & _)]. congruence.
    + split.
      * intros [= <-]. right. by exists keywords, message.
      * intros [[[=] _] | (k & m & [= <-] & Hrej & ->)]. congruence.
  - split.
    + intros [= <-]. by left.
    + intros [[_ ->] | (k & m & [=] & _)]. done.
Qed.

(** X22: when the keyword search answers, [getTrendingTopicsForNiche]
    returns ten topics, or all of them when the search found fewer, and
    each topic is one of the videos found, with the placeholder
    metrics. *)
Theorem niche_topics_count (log10_approx : Q -> Q) (clock : nat -> Z)
    (youtube_search_list : string -> Z -> string -> response (list Trend.t))
    (niche : string) (keywords : list string) (items : list Trend.t) :
  TrendDiscoveryService.getNicheKeywords niche = Some keywords ->
  youtube_search_list (JS.join " " keywords) 15 "viewCount" = Resolved items ->
  exists topics,
    TrendDiscoveryService.getTrendingTopicsForNiche log10_approx clock
      youtube_search_list niche = Ok topics /\
    length topics = Nat.min 10 (length items) /\
    forall r, r ∈ topics ->
      exists item, item ∈ items /\
        Analyzed.trend r
        = TrendDiscoveryService.placeholder (TrendDiscoveryService.video item).
Proof.
  intros Hkeywords Hsearch.
  unfold TrendDiscoveryService.getTrendingTopicsForNiche,
    TrendDiscoveryService.searchTrendingKeywords.
  rewrite Hkeywords, Hsearch. eexists. split; [reflexivity |].
  pose proof (niche_analysis_perm log10_approx clock items) as Hperm.
  split.
  - unfold JS.slice0. rewrite length_take.
    apply Permutation_length in Hperm. rewrite !length_map in Hperm.
    by rewrite Hperm.
  - intros r Hr. unfold JS.slice0 in Hr. apply elem_of_take in Hr as (i & Hr & _).
    apply list_elem_of_lookup_2 in Hr.
    assert (Hin : Analyzed.trend r
                  ∈ map TrendDiscoveryService.placeholder
                      (map TrendDiscoveryService.video items)).
    { rewrite <- Hperm. by apply list_elem_of_fmap_2. }
    apply list_elem_of_fmap in Hin as (v & Hv & Hin).
    apply list_elem_of_fmap in Hin as (item & -> & Hitem).
    by exists item.
Qed.

Lemma niche_topics_count_witness :
  exists topics,
    TrendDiscoveryService.getTrendingTopicsForNiche log10_digits fixed_clock
      two_videos "Technology" = Ok topics /\
    length topics = Nat.min 10 (length found_videos) /\
    forall r, r ∈ topics ->
      exists item,
        item ∈ found_videos /\
        Analyzed.trend r
        = TrendDiscoveryService.placeholder (TrendDiscoveryService.video item).
Proof.
  apply (niche_topics_count log10_digits fixed_clock two_videos "Technology"
           ["tech"; "AI"; "software"; "gadgets"; "programming"] found_videos);
    reflexivity.
Defined.

(** X23: when every video found has a valid publication date, the topics
    [getTrendingTopicsForNiche] returns are the best of the analysis, best
    first: they are in non-increasing order of score, and none of the
    analysed records left out scores higher than one returned. *)
Theorem niche_topics_best_first (log10_approx : Q -> Q) (clock : nat -> Z)
    (youtube_search_list : string -> Z -> string -> response (list Trend.t))
    (niche : string) (keywords : list string) (items : list Trend.t) :
  TrendDiscoveryService.getNicheKeywords niche = Some keywords ->
  youtube_search_list (JS.join " " keywords) 15 "viewCount" = Resolved items ->
  Forall (fun item => is_Some (Trend.publishedAt item)) items ->
  exists topics rest,
    TrendDiscoveryService.getTrendingTopicsForNiche log10_approx clock
      youtube_search_list niche = Ok topics /\
    TrendDiscoveryService.analyzeTrends log10_approx clock
      (map TrendDiscoveryService.placeholder (map TrendDiscoveryService.video items))
    = topics ++ rest /\
    StronglySorted score_ge topics /\
    forall a b, a ∈ topics -> b ∈ rest -> score_ge a b.
Proof.
  intros Hkeywords Hsearch Hdated.
  unfold TrendDiscoveryService.getTrendingTopicsForNiche,
    TrendDiscoveryService.searchTrendingKeywords.
  rewrite Hkeywords, Hsearch.
  pose proof (niche_analysis_sorted log10_approx clock items Hdated) as Hsorted.
  set (analysis := TrendDiscoveryService.analyzeTrends _ _ _) in *.
  exists (JS.slice0 analysis 10), (drop 10 analysis).
  unfold JS.slice0. rewrite take_drop.
  rewrite <- (take_drop 10 analysis) in Hsorted.
  apply sorted_app_inv in Hsorted as [Htopics Hcross].
  by repeat split.
Qed.

Lemma niche_topics_best_first_witness :
  exists topics rest,
    TrendDiscoveryService.getTrendingTopicsForNiche log10_digits fixed_clock
      two_videos "Technology" = Ok topics /\
    TrendDiscoveryService.analyzeTrends log10_digits fixed_clock
      (map TrendDiscoveryService.placeholder
         (map TrendDiscoveryService.video found_videos))
    = topics ++ rest /\
    StronglySorted score_ge topics /\
    forall a b, a ∈ topics -> b ∈ rest -> score_ge a b.
Proof.
  apply (niche_topics_best_first log10_digits fixed_clock two_videos "Technology"
           ["tech"; "AI"; "software"; "gadgets"; "programming"] found_videos);
    [reflexivity | reflexivity |].
  repeat constructor; eexists; reflexivity.
Defined.

(** ** jobs/scheduler.js *)

Section SchedulerFacts.

Import JobScheduler.

Lemma last_ten_snoc {A} (l : list A) (x : A) :
  (let g := last_ten l ++ [x] in
   if (10 <? length g)%nat then drop 1 g else g)
  = last_ten (l ++ [x]).
Proof.
  cbv zeta. unfold last_ten.
  rewrite !length_app, length_drop. cbn [length].
  destruct (Nat.ltb_spec 10 (length l - (length l - 10) + 1)) as [Hfull | Hroom].
  - replace (length l + 1 - 10)%nat with (S (length l - 10)) by lia.
    rewrite (drop_app_le l) by lia.
    rewrite (drop_app_le (drop _ l)) by (rewrite length_drop; lia).
    rewrite drop_drop. do 2 f_equal. lia.
  - replace (length l - 10)%nat with O by lia.
    replace (length l + 1 - 10)%nat with O by lia. done.
Qed.

Lemma history_step (outcomes : list (result Content.t)) (content : Content.t) :
  contentGenerationJob
    (match artifacts outcomes with
     | [] => None
     | _ :: _ => Some (last_ten (artifacts outcomes))
     end) (Ok content)
  = Some (last_ten (artifacts outcomes ++ [content])).
Proof.
  unfold contentGenerationJob.
  destruct (artifacts outcomes) as [| c l] eqn:Harts; [done |].
  cbn [default]. f_equal. apply last_ten_snoc.
Qed.

Lemma history_closed (outcomes : list (result Content.t)) :
  foldl contentGenerationJob None outcomes
  = match artifacts outcomes with
    | [] => None
    | _ :: _ => Some (last_ten (artifacts outcomes))
    end.
Proof.
  induction outcomes as [| outcome outcomes IH] using rev_ind; [done |].
  rewrite foldl_snoc, IH. unfold artifacts at 3 4. rewrite omap_app.
  fold (artifacts outcomes).
  destruct outcome as [content | e].
  - rewrite history_step. cbn [omap option_bind mbind].
    change (omap _ [Ok content]) with [content].
    by destruct (artifacts outcomes).
  - change (omap _ [Throw e]) with (@nil Content.t).
    by rewrite app_nil_r.
Qed.

End SchedulerFacts.

(** X24: after any number of runs of the content generation job, started
    with nothing stored, [generatedContent] holds the artifacts of the
    last ten runs that succeeded, oldest first; a failed run changes
    nothing, and the property stays [undefined] until a run succeeds.  The
    content the posting job takes is the artifact of the latest
    successful run. *)
Theorem generated_history (outcomes : list (result Content.t)) :
  let generatedContent := foldl JobScheduler.contentGenerationJob None outcomes in
  generatedContent
  = match artifacts outcomes with
    | [] => None
    | _ :: _ => Some (last_ten (artifacts outcomes))
    end /\
  (forall stored, generatedContent = Some stored -> (length stored <= 10)%nat) /\
  JobScheduler.latest generatedContent = last (artifacts outcomes).
Proof.
  cbv zeta. rewrite history_closed.
  split; [done |]. split.
  - destruct (artifacts outcomes) as [| c l]; [done |].
    intros stored [= <-]. unfold last_ten. rewrite length_drop. lia.
  - destruct (artifacts outcomes) as [| c l] using rev_ind; [done |].
    clear IHl. destruct (l ++ [c]) as [| c' l'] eqn:Hl.
    { by destruct l. }
    rewrite <- Hl. unfold JobScheduler.latest. cbn [mbind option_bind].
    unfold last_ten. rewrite last_snoc, length_app. cbn [length].
    destruct (Nat.le_gt_cases (length l + 1) 10).
    + replace (length l + 1 - 10)%nat with O by lia. apply last_snoc.
    + rewrite drop_app_le by lia. apply last_snoc.
Qed.

Section PostingFacts.

Import JobScheduler PlatformIntegrationService ContentOrchestrator.

Variable tokens : Tokens.
Variable axios_post : Endpoint -> string -> response string.
Variable content : Content.t.


Hypothesis upstream :
  forall endpoint text, exists id, axios_post endpoint text = Resolved id.




End PostingFacts.



(** X26: [runJobManually] throws [Unknown job: ] and the name for every
    name but the three jobs'.  Run by hand, the posting job publishes the
    latest artifact to Instagram only, giving one record, and does
    nothing when no artifact is stored. *)
Theorem manual_jobs
    (tokens : PlatformIntegrationService.Tokens)
    (axios_post : PlatformIntegrationService.Endpoint -> string -> response string)
    (log10_approx : Q -> Q) (clock : nat -> Z)
    (youtube_search_list : string -> Z -> string -> response (list Trend.t))
    (providers : ContentOrchestrator.Providers)
    (n8n_enabled : bool) (n8n_webhookUrl : option string)
    (webhook_post : Content.t -> response unit)
    (contentNiche contentId : string)
    (generatedContent : option (list Content.t)) :
  let run :=
    JobScheduler.runJobManually tokens axios_post log10_approx clock
      youtube_search_list providers n8n_enabled n8n_webhookUrl webhook_post
      contentNiche contentId generatedContent in
  (forall jobName,
     jobName ∉ ["trendDiscovery"; "contentGeneration"; "contentPosting"] ->
     run jobName = Throw (Failure "runJobManually" ("Unknown job: " +:+ jobName))) /\
  match JobScheduler.latest generatedContent with
  | None => run "contentPosting" = Ok JobScheduler.Nothing
  | Some content =>
      exists r,
        run "contentPosting" = Ok (JobScheduler.Published [r]) /\
        Outcome.platform r = "instagram" /\
        r = PlatformIntegrationService.postToInstagram tokens axios_post
              (Payload.caption (ContentOrchestrator.repurposeForInstagram content))
              (Payload.hashtags (ContentOrchestrator.repurposeForInstagram content))
  end.
Proof.
  cbv zeta. split.
  - intros jobName Hname. unfold JobScheduler.runJobManually.
    rewrite !elem_of_cons, elem_of_nil in Hname.
    destruct (JS.streq jobName "trendDiscovery") eqn:E1;
      [apply streq_eq in E1; tauto |].
    destruct (JS.streq jobName "contentGeneration") eqn:E2;
      [apply streq_eq in E2; tauto |].
    destruct (JS.streq jobName "contentPosting") eqn:E3;
      [apply streq_eq in E3; tauto |].
    done.
  - unfold JobScheduler.runJobManually.
    replace (JS.streq "contentPosting" "trendDiscovery") with false by reflexivity.
    replace (JS.streq "contentPosting" "contentGeneration") with false by reflexivity.
    replace (JS.streq "contentPosting" "contentPosting") with true by reflexivity.
    destruct (JobScheduler.latest generatedContent) as [content |]; [| done].
    eexists. split; [reflexivity |]. split; [| reflexivity].
    apply postToInstagram_platform.
Qed.

Lemma manual_jobs_witness :
  JobScheduler.runJobManually all_tokens facebook_down log10_digits fixed_clock
    empty_search answering_providers false None (fun _ => Resolved tt)
    "technology" "1700000000000-abc" None "publish"
  = Throw (Failure "runJobManually" ("Unknown job: " +:+ "publish")).
Proof.
  destruct (manual_jobs all_tokens facebook_down log10_digits fixed_clock
              empty_search answering_providers false None (fun _ => Resolved tt)
              "technology" "1700000000000-abc" None) as [Hunknown _].
  apply Hunknown.
  rewrite !elem_of_cons, elem_of_nil.
  intros [H | [H | [H | []]]]; discriminate H.
Defined.

(** ** The recency component of the trend score *)

Section RecencyFacts.

Local Open Scope Q_scope.

Lemma recency_value (now ms : Z) (t : Trend.t) :
  Trend.publishedAt t = Some ms ->
  exists q,
    TrendDiscoveryService.recencyScore now t = Num q /\
    let r := 1 - (inject_Z now - inject_Z ms) / inject_Z 86400000 / inject_Z 30 in
    (0 < r -> q == r) /\ (r <= 0 -> q == 0).
Proof.
  intros Hdate.
  unfold TrendDiscoveryService.recencyScore, TrendDiscoveryService.daysSincePublished,
    TrendDiscoveryService.getTime.
  rewrite Hdate.
  unfold Number.of_Z, Number.fin, Number.sub, Number.div.
  change (Qeq_bool (Qred (inject_Z (1000 * 60 * 60 * 24))) 0) with false.
  change (Qeq_bool (Qred (inject_Z 30)) 0) with false.
  cbv beta iota. unfold Number.fin, Number.max, Number.ltb, Number.Qltb.
  match goal with
  | |- context [Qle_bool ?x (Qred (inject_Z 0))] => set (r' := x)
  end.
  assert (Hr : r' == 1 - (inject_Z now - inject_Z ms) / inject_Z 86400000 / inject_Z 30).
  { unfold r'. rewrite !Qred_correct. reflexivity. }
  cbv zeta.
  set (r := 1 - (inject_Z now - inject_Z ms) / inject_Z 86400000 / inject_Z 30) in *.
  clearbody r r'.
  destruct (Qle_bool r' (Qred (inject_Z 0))) eqn:Hle; cbn [negb].
  - exists (Qred (inject_Z 0)). split; [done |].
    apply Qle_bool_iff in Hle. rewrite Qred_correct in Hle.
    change (inject_Z 0) with 0 in Hle.
    split; [intros Hpos; exfalso; lra | intros _; apply Qred_correct].
  - exists r'. split; [done |].
    assert (Hpos : 0 < r').
    { apply Qnot_le_lt. intros Hneg.
      assert (Hb : Qle_bool r' (Qred (inject_Z 0)) = true).
      { apply Qle_bool_iff. by rewrite Qred_correct. }
      congruence. }
    split; [intros _; exact Hr | intros Hneg; lra].
Qed.

End RecencyFacts.

(** X27: the recency component is never negative.  It is NaN for a
    missing or unparsable date; for a video published in the past it lies
    between 0 and 1, and it is 0 once the video is thirty days old; for a
    date after the current time it exceeds 1, the upper end not being
    clamped. *)
Theorem recency_range (now : Z) (t : Trend.t) :
  match Trend.publishedAt t with
  | None => TrendDiscoveryService.recencyScore now t = NaN
  | Some ms =>
      exists q,
        TrendDiscoveryService.recencyScore now t = Num q /\
        (0 <= q)%Q /\
        ((ms <= now)%Z -> (q <= 1)%Q) /\
        ((ms + 1000 * 60 * 60 * 24 * 30 <= now)%Z -> (q == 0)%Q) /\
        ((now < ms)%Z -> (1 < q)%Q)
  end.
Proof.
  destruct (Trend.publishedAt t) as [ms |] eqn:Hdate.
  - destruct (recency_value now ms t Hdate) as (q & Hq & Hpos & Hneg).
    exists q. split; [done |]. cbv zeta in Hpos, Hneg.
    change (inject_Z 86400000) with (86400000 # 1)%Q in Hpos, Hneg.
    change (inject_Z 30) with (30 # 1)%Q in Hpos, Hneg.
    set (r := (1 - (inject_Z now - inject_Z ms) / (86400000 # 1) / (30 # 1))%Q) in *.
    assert (Hr : (r == 1 - (inject_Z now - inject_Z ms) * (1 # 2592000000))%Q)
      by (unfold r; field).
    clearbody r.
    destruct (Qlt_le_dec 0 r) as [Hr0 | Hr0];
      [specialize (Hpos Hr0) | specialize (Hneg Hr0)].
    + repeat split.
      * lra.
      * intros Hle. rewrite Zle_Qle in Hle. lra.
      * intros Hle. rewrite Zle_Qle, inject_Z_plus in Hle.
        change (inject_Z (1000 * 60 * 60 * 24 * 30)) with (2592000000 # 1)%Q in Hle.
        exfalso. lra.
      * intros Hlt. rewrite Zlt_Qlt in Hlt. lra.
    + repeat split.
      * lra.
      * intros _. lra.
      * done.
      * intros Hlt. rewrite Zlt_Qlt in Hlt. exfalso. lra.
  - unfold TrendDiscoveryService.recencyScore, TrendDiscoveryService.daysSincePublished,
      TrendDiscoveryService.getTime.
    by rewrite Hdate.
Qed.

(** ** modules/seoMetadata: hashtags *)

Section SeoFacts.

Import SEOMetadataService.

Lemma startsWith_hash (rest : string) : JS.startsWith (String "#" rest) "#" = true.
Proof. unfold JS.startsWith. cbn. by destruct rest. Qed.

Lemma tagged_marked (word : string) :
  JS.startsWith (tagged word) "#" = true.
Proof.
  unfold tagged. destruct (JS.startsWith word "#") eqn:Hword; [done |].
  rewrite string_app_cons. apply startsWith_hash.
Qed.

Lemma hashtag_marked (tag : string) : hashtag tag -> JS.startsWith tag "#" = true.
Proof. intros (c & body & -> & _). apply startsWith_hash. Qed.

Lemma unbroken_app (s t : string) : unbroken (s +:+ t) = unbroken s && unbroken t.
Proof. apply all_chars_app. Qed.

Lemma pushWord_unbroken (word : string) :
  unbroken word = true -> Forall (fun w => unbroken w = true) (pushWord word).
Proof. destruct word; repeat constructor; done. Qed.

Lemma wordScan_unbroken (text word : string) :
  unbroken word = true ->
  Forall (fun w => unbroken w = true) (wordScan word text).
Proof.
  revert word. induction text as [| c rest IH]; intros word Hword.
  - by apply pushWord_unbroken.
  - cbn [wordScan]. destruct (separator c) eqn:Hc.
    + apply Forall_app. split; [by apply pushWord_unbroken | by apply IH].
    + apply IH. rewrite unbroken_app, Hword. unfold unbroken. cbn [all_chars].
      by rewrite Hc.
Qed.

Lemma tagged_unbroken (word : string) :
  unbroken word = true -> unbroken (tagged word) = true.
Proof.
  unfold tagged. destruct (JS.startsWith word "#"); [done |].
  intros Hword. by rewrite string_app_cons.
Qed.

End SeoFacts.

(** X28: [generateHashtags] never throws, and every hashtag it returns
    begins with [#].  Either all of them are hashtags found in the
    completion, a [#] and letters, digits or underscores; or the
    completion held none, and at most ten are returned, made of its words,
    with no white space or comma inside. *)
Theorem seo_hashtags_marked
    (chat_completions_create : string -> response (option string))
    (script : option string) (niche : string) :
  let hashtags :=
    SEOMetadataService.generateHashtags chat_completions_create script niche in
  Forall (fun h => JS.startsWith h "#" = true) hashtags /\
  (Forall hashtag hashtags \/
   (length hashtags <= 10)%nat /\ Forall (fun h => unbroken h = true) hashtags).
Proof.
  cbv zeta. unfold SEOMetadataService.generateHashtags.
  destruct script as [script |]; [| by split; [| left]].
  destruct (chat_completions_create _) as [[content |] | message];
    [| by split; [| left] | by split; [| left]].
  pose proof (hashtagScan_hashtags content None I) as Hfound.
  fold (Helpers.extractHashtags content) in Hfound.
  destruct (length (Helpers.extractHashtags content) =? 0)%nat.
  - split; [| right; split].
    + apply Forall_take, Forall_fmap, Forall_true. intros word. apply tagged_marked.
    + apply slice0_le.
    + apply Forall_take, Forall_fmap.
      eapply Forall_impl; [by apply (wordScan_unbroken content EmptyString) |].
      intros word. apply tagged_unbroken.
  - split; [| by left].
    eapply Forall_impl; [exact Hfound |]. intros tag. apply hashtag_marked.
Qed.

Example generateHashtags_from_words :
  SEOMetadataService.generateHashtags plain_words (Some "script") "technology"
  = ["#AI"; "#machine"; "#learning"; "#c++"].
Proof. reflexivity. Qed.

Example generateHashtags_from_hashtags :
  SEOMetadataService.generateHashtags listed_hashtags (Some "script") "technology"
  = ["#AI"; "#MachineLearning"; "#tech_2024"].
Proof. reflexivity. Qed.

(** ** modules/scriptGeneration: variations *)

Section VariationFacts.

Import ScriptGenerationService.

Context {Script : Type}.
Variable generateVideoScript : nat -> string -> option string -> Z -> response Script.
Variable topic : string.

Lemma variationsLoop_spec (remaining i : nat) (variations : list Script)
    (requested : list (option string)) :
  match variationsLoop generateVideoScript topic remaining i variations requested with
  | (Ok scripts, asked) =>
      asked = requested ++ tone_cycle i remaining /\
      exists new, scripts = variations ++ new /\ length new = remaining
  | (Throw e, asked) =>
      exists k message,
        (k < remaining)%nat /\
        asked = requested ++ tone_cycle i (S k) /\
        generateVideoScript (i + k)%nat topic (toneOf (i + k)) 120 = Rejected message /\
        e = Failure "generateVideoScript" message
  end.
Proof.
  revert i variations requested.
  induction remaining as [| remaining IH]; intros i variations requested.
  - cbn. rewrite app_nil_r. split; [done |]. exists []. by rewrite app_nil_r.
  - cbn [variationsLoop].
    destruct (generateVideoScript i topic (toneOf i) 120) as [script | message] eqn:Hcall.
    + specialize (IH (S i) (variations ++ [script]) (requested ++ [toneOf i])).
      destruct (variationsLoop _ _ _ _ _ _) as [[scripts | e] asked].
      * destruct IH as (-> & new & -> & Hnew). split.
        { by rewrite <- app_assoc. }
        exists (script :: new). rewrite <- app_assoc. split; [done |].
        cbn [length]. by rewrite Hnew.
      * destruct IH as (k & m & Hk & -> & Hrej & ->).
        exists (S k), m. split; [lia |]. split; [by rewrite <- app_assoc |].
        split; [| done]. by replace (i + S k)%nat with (S i + k)%nat by lia.
    + exists O, message. split; [lia |]. split; [done |].
      by rewrite Nat.add_0_r.
Qed.

Lemma toneOf_known (i : nat) : exists tone, toneOf i = Some tone /\ tone ∈ tones.
Proof.
  unfold toneOf.
  destruct (lookup_lt_is_Some_2 tones (i mod length tones)) as [tone Htone].
  { apply Nat.mod_upper_bound. discriminate. }
  exists tone. split; [done |]. by eapply list_elem_of_lookup_2.
Qed.

End VariationFacts.

(** X29: [generateScriptVariations] asks for the variations one after the
    other, the [i]-th in the tone [tones[i % 5]], which is always one of
    the five.  When every call answers it returns [count] scripts; when a
    call fails it throws that call's error at once and asks for no
    further variation. *)
Theorem script_variations_tones {Script : Type}
    (generateVideoScript : nat -> string -> option string -> Z -> response Script)
    (topic : string) (count : Z) :
  let run :=
    ScriptGenerationService.generateScriptVariations generateVideoScript topic count in
  Forall (fun tone => exists name,
            tone = Some name /\ name ∈ ScriptGenerationService.tones) run.2 /\
  match run.1 with
  | Ok scripts =>
      run.2 = tone_cycle 0 (Z.to_nat count) /\
      length scripts = Z.to_nat count
  | Throw e =>
      exists k message,
        (k < Z.to_nat count)%nat /\
        run.2 = tone_cycle 0 (S k) /\
        generateVideoScript k topic (ScriptGenerationService.toneOf k) 120
          = Rejected message /\
        e = Failure "generateVideoScript" message
  end.
Proof.
  intros run. subst run. unfold ScriptGenerationService.generateScriptVariations.
  pose proof (variationsLoop_spec generateVideoScript topic (Z.to_nat count) 0 [] [])
    as Hloop.
  destruct (ScriptGenerationService.variationsLoop _ _ _ _ _ _)
    as [[scripts | e] asked]; cbn [fst snd].
  - destruct Hloop as (-> & new & -> & Hnew). cbn [app]. split; [| done].
    apply Forall_fmap, Forall_true. intros i. apply toneOf_known.
  - destruct Hloop as (k & message & Hk & -> & Hrej & ->). cbn [app]. split.
    + apply Forall_fmap, Forall_true. intros i. apply toneOf_known.
    + by exists k, message.
Qed.

Example script_variations_stop :
  ScriptGenerationService.generateScriptVariations third_fails "Rust" 7
  = (Throw (Failure "generateVideoScript" "Script generation failed: rate limit"),
     [Some "engaging"; Some "educational"; Some "entertaining"]).
Proof. reflexivity. Qed.

Example script_variations_cycle :
  tone_cycle 0 7
  = [Some "engaging"; Some "educational"; Some "entertaining"; Some "inspiring";
     Some "conversational"; Some "engaging"; Some "educational"].
Proof. reflexivity. Qed.

(** ** modules/voiceover: where the audio is written *)

Section VoiceoverFacts.

Import VoiceoverService.

Variables outputDir outputParent tts_provider : string.
Variable elevenLabs_apiKey : option string.
Variable now : Z.
Variables speech_create elevenlabs_post : string -> response nat.
Variable writeFile : string -> response unit.

Lemma or_else_nonempty (v : option string) (d : string) :
  d <> EmptyString -> JS.or_else v d <> EmptyString.
Proof. by destruct v as [[| c s] |]. Qed.

Lemma sanitizeFilename_nonempty (name : string) :
  name <> EmptyString -> Helpers.sanitizeFilename name <> EmptyString.
Proof. destruct name; [done |]. by rewrite sanitizeFilename_cons. Qed.

Lemma outputPath_inside (name : string) :
  name <> EmptyString -> name <> "." -> name <> ".." ->
  outputPath outputDir outputParent name = outputDir +:+ "/" +:+ name.
Proof.
  intros H0 H1 H2. unfold outputPath.
  apply streq_neq in H0, H1, H2. by rewrite H0, H1, H2.
Qed.

Lemma store_spec source prefix label events default_name options size :
  default_name <> EmptyString ->
  written_inside outputDir outputParent events ->
  let run :=
    store outputDir outputParent writeFile source prefix label events default_name
      options size in
  written_inside outputDir outputParent run.2 /\
  match run.1 with
  | Ok voiceover =>
      Voiceover.provider voiceover = label /\
      Voiceover.filename voiceover = JS.or_else (filename options) default_name /\
      Voiceover.size voiceover = size /\
      last run.2 = Some (WriteFile (Voiceover.path voiceover))
  | Throw e => exists message, e = Failure source (prefix +:+ message)
  end.
Proof.
  intros Hdefault Hevents. cbv zeta. unfold store.
  set (name := Helpers.sanitizeFilename (JS.or_else (filename options) default_name)).
  assert (Hwritten : written_inside outputDir outputParent
                       (events ++ [WriteFile (outputPath outputDir outputParent name)])).
  { intros path [Hin | Hin%list_elem_of_singleton]%elem_of_app; [by apply Hevents |].
    injection Hin as ->. exists name. split; [| split; [| done]].
    - by apply sanitizeFilename_nonempty, or_else_nonempty.
    - apply sanitizeFilename_chars. }
  destruct (writeFile _) as [[] | message]; cbn [fst snd].
  - split; [done |]. repeat split. apply last_snoc.
  - split; [done |]. by exists message.
Qed.

End VoiceoverFacts.

(** X30: whatever file name is asked for, [generateVoiceover] writes the
    audio under a sanitized name joined to the output directory, so with
    no separator in it, and the file written is the one whose path it
    returns.  The record names the provider picked, ElevenLabs when the
    options or else the configuration say so and OpenAI otherwise; an
    error thrown carries that provider's prefix, and without an
    ElevenLabs key nothing is requested or written. *)
Theorem voiceover_written_inside
    (outputDir outputParent tts_provider : string)
    (elevenLabs_apiKey : option string) (now : Z)
    (speech_create elevenlabs_post : string -> response nat)
    (writeFile : string -> response unit)
    (text : option string) (options : VoiceoverService.Options) :
  let run :=
    VoiceoverService.generateVoiceover outputDir outputParent tts_provider
      elevenLabs_apiKey now speech_create elevenlabs_post writeFile text options in
  let elevenlabs := picks_elevenlabs tts_provider options in
  written_inside outputDir outputParent run.2 /\
  (elevenlabs = true -> JS.truthy elevenLabs_apiKey = false -> run.2 = []) /\
  match run.1 with
  | Ok voiceover =>
      Voiceover.provider voiceover = (if elevenlabs then "elevenlabs" else "openai") /\
      last run.2 = Some (VoiceoverService.WriteFile (Voiceover.path voiceover))
  | Throw e =>
      exists source message,
        e = Failure source (provider_prefix elevenlabs +:+ message)
  end.
Proof.
  cbv zeta. unfold VoiceoverService.generateVoiceover, picks_elevenlabs.
  assert (Hnone : written_inside outputDir outputParent []).
  { intros path Hin. by apply elem_of_nil in Hin. }
  destruct (JS.streq _ "elevenlabs"); cbn [provider_prefix].
  - unfold VoiceoverService.generateVoiceoverElevenLabs.
    destruct (JS.truthy elevenLabs_apiKey); cbn [negb fst snd];
      [| by split; [| split; [| eexists _, _]]].
    destruct text as [text |]; cbn [fst snd];
      [| by split; [| split; [| eexists _, _]]].
    destruct (elevenlabs_post text) as [size | message]; cbn [fst snd].
    + match goal with
      | |- context [VoiceoverService.store _ _ _ ?s ?p ?l ?ev ?d _ _] =>
          pose proof (store_spec outputDir outputParent writeFile s p l ev d options size)
            as Hstore
      end.
      cbv zeta in Hstore. destruct Hstore as [Hwritten Hrun].
      { by rewrite !string_app_cons. }
      { intros path Hin. repeat (apply elem_of_cons in Hin as [[=] | Hin]).
        by apply elem_of_nil in Hin. }
      split; [done |]. split; [done |].
      destruct (VoiceoverService.store _ _ _ _ _ _ _ _ _ _).1 as [voiceover | e].
      * by destruct Hrun as (? & _ & _ & ?).
      * destruct Hrun as [message ->]. by eexists _, _.
    + split; [| split; [done | by eexists _, _]].
      intros path Hin. repeat (apply elem_of_cons in Hin as [[=] | Hin]).
      by apply elem_of_nil in Hin.
  - unfold VoiceoverService.generateVoiceoverOpenAI.
    destruct text as [text |]; cbn [fst snd];
      [| by split; [| split; [| eexists _, _]]].
    destruct (speech_create text) as [size | message]; cbn [fst snd].
    + match goal with
      | |- context [VoiceoverService.store _ _ _ ?s ?p ?l ?ev ?d _ _] =>
          pose proof (store_spec outputDir outputParent writeFile s p l ev d options size)
            as Hstore
      end.
      cbv zeta in Hstore. destruct Hstore as [Hwritten Hrun].
      { by rewrite !string_app_cons. }
      { intros path Hin. repeat (apply elem_of_cons in Hin as [[=] | Hin]).
        by apply elem_of_nil in Hin. }
      split; [done |]. split; [done |].
      destruct (VoiceoverService.store _ _ _ _ _ _ _ _ _ _).1 as [voiceover | e].
      * by destruct Hrun as (? & _ & _ & ?).
      * destruct Hrun as [message ->]. by eexists _, _.
    + split; [| split; [done | by eexists _, _]].
      intros path Hin. repeat (apply elem_of_cons in Hin as [[=] | Hin]).
      by apply elem_of_nil in Hin.
Qed.

Example voiceover_no_traversal :
  VoiceoverService.generateVoiceover "/app/output/audio" "/app/output" "openai" None
    1700000000000 (fun _ => Resolved 2048%nat) (fun _ => Resolved 2048%nat)
    (fun _ => Resolved tt) (Some "Hello") traversal
  = (Ok (Voiceover.mk "/app/output/audio/.._.._etc_passwd" "../../etc/Passwd"
           2048 "openai"),
     [VoiceoverService.Mkdir "/app/output/audio";
      VoiceoverService.SpeechCreate "Hello";
      VoiceoverService.WriteFile "/app/output/audio/.._.._etc_passwd"]).
Proof. reflexivity. Qed.
